(** * Sage package metadata ([build/sage_bootstrap/package.py])

    A shallow embedding of the [Package] class: the key-value reader of
    [checksums.ini], the version and patchlevel parser, the substitution of
    [VERSION] variables in tarball patterns, and the dependency accessors.

    Python text is modelled as [string] (characters are code points below
    256); the files of a package directory are modelled by their decoded
    contents, [None] standing for a file that does not exist (the [IOError]
    the source catches). *)

From Stdlib Require Import ZArith NArith Ascii String List Bool Lia.
From Stdlib Require Import DecimalString DecimalN DecimalZ.
From stdpp Require Import gmap strings.

Import ListNotations.
Local Open Scope list_scope.
Local Open Scope string_scope.

(* String concatenation unfolds on a known prefix. *)
#[local] Arguments String.append !_ _ : simpl nomatch.

(** ** Python string built-ins *)

Module Py.

Definition LF : ascii := "010"%char.

(** [str.isspace] on one character (Python 3, code points below 256). *)
Definition isspace (c : ascii) : bool :=
  let n := N_of_ascii c in
  ((9 <=? n) && (n <=? 13) || (28 <=? n) && (n <=? 32)
   || (n =? 133) || (n =? 160))%N.

Definition isdigit (c : ascii) : bool :=
  let n := N_of_ascii c in ((48 <=? n) && (n <=? 57))%N.

(** [s.startswith(p)] *)
Fixpoint startswith (p s : string) : bool :=
  match p, s with
  | EmptyString, _ => true
  | String _ _, EmptyString => false
  | String a p', String b s' => Ascii.eqb a b && startswith p' s'
  end.

Fixpoint drop (n : nat) (s : string) : string :=
  match n, s with
  | O, _ => s
  | S _, EmptyString => EmptyString
  | S n', String _ s' => drop n' s'
  end.

(** [sub in s] *)
Fixpoint contains (sub s : string) : bool :=
  match s with
  | EmptyString => startswith sub EmptyString
  | String _ s' => startswith sub s || contains sub s'
  end.

(** [s.replace(old, new, 1)]: the leftmost occurrence only. *)
Fixpoint replace1 (old new s : string) : string :=
  if startswith old s then new ++ drop (String.length old) s
  else match s with
       | EmptyString => EmptyString
       | String c s' => String c (replace1 old new s')
       end.

(** [s.split(sep)] for a one-character separator. *)
Fixpoint split_char (sep : ascii) (s : string) : list string :=
  match s with
  | EmptyString => [EmptyString]
  | String c s' =>
      if Ascii.eqb c sep then EmptyString :: split_char sep s'
      else match split_char sep s' with
           | w :: ws => String c w :: ws
           | [] => [String c EmptyString]
           end
  end.

(** [s.partition(sep)] for a one-character separator. *)
Fixpoint partition (sep : ascii) (s : string) : string * string * string :=
  match s with
  | EmptyString => (EmptyString, EmptyString, EmptyString)
  | String c s' =>
      if Ascii.eqb c sep then (EmptyString, String c EmptyString, s')
      else let '(a, m, b) := partition sep s' in (String c a, m, b)
  end.

Fixpoint lstrip (s : string) : string :=
  match s with
  | EmptyString => EmptyString
  | String c s' => if isspace c then lstrip s' else s
  end.

Fixpoint rstrip (s : string) : string :=
  match s with
  | EmptyString => EmptyString
  | String c s' =>
      match rstrip s' with
      | EmptyString => if isspace c then EmptyString else String c EmptyString
      | r => String c r
      end
  end.

(** [s.strip()] *)
Definition strip (s : string) : string := rstrip (lstrip s).

(** [s.split()]: the maximal runs of characters that are not whitespace. *)
Fixpoint split (s : string) : list string :=
  match s with
  | EmptyString => []
  | String c s' =>
      if isspace c then split s'
      else match s' with
           | EmptyString => [String c EmptyString]
           | String c' _ =>
               if isspace c' then String c EmptyString :: split s'
               else match split s' with
                    | w :: ws => String c w :: ws
                    | [] => [String c EmptyString]
                    end
           end
  end.

(** [f.readline()]: up to and including the first line feed. *)
Fixpoint readline (s : string) : string :=
  match s with
  | EmptyString => EmptyString
  | String c s' =>
      if Ascii.eqb c LF then String c EmptyString else String c (readline s')
  end.

(** [f.readlines()]: every line, each with its line feed. *)
Fixpoint readlines (s : string) : list string :=
  match s with
  | EmptyString => []
  | String c s' =>
      if Ascii.eqb c LF then String c EmptyString :: readlines s'
      else match readlines s' with
           | l :: ls => String c l :: ls
           | [] => [String c EmptyString]
           end
  end.

(** [s.lower()] on one character and on a string. *)
Definition lower_char (c : ascii) : ascii :=
  let n := N_of_ascii c in
  if ((65 <=? n) && (n <=? 90))%N then ascii_of_N (n + 32) else c.

Fixpoint lower (s : string) : string :=
  match s with
  | EmptyString => EmptyString
  | String c s' => String (lower_char c) (lower s')
  end.

(** The regular-expression atom [.]: any character but a line feed;
    [dot_star] is a greedy [.*] that nothing follows. *)
Fixpoint dot_star (s : string) : string :=
  match s with
  | EmptyString => EmptyString
  | String c s' => if Ascii.eqb c LF then EmptyString else String c (dot_star s')
  end.

(** A greedy [[0-9]*] that nothing follows. *)
Fixpoint digits_star (s : string) : string :=
  match s with
  | EmptyString => EmptyString
  | String c s' => if isdigit c then String c (digits_star s') else EmptyString
  end.

(** [int(s)] on a string of decimal digits (the only strings the source
    passes to it are matches of [[0-9]+]), and [str(n)] on an integer. *)
Definition int (s : string) : Z :=
  match NilEmpty.uint_of_string s with
  | Some d => Z.of_uint d
  | None => 0%Z
  end.

Definition str (n : Z) : string := NilZero.string_of_int (Z.to_int n).

(** Number of occurrences of a character. *)
Fixpoint count (c : ascii) (s : string) : nat :=
  match s with
  | EmptyString => 0
  | String a s' => (if Ascii.eqb a c then 1 else 0) + count c s'
  end.

End Py.

(** ** Exceptions and results *)

Inductive exn : Set :=
| IOError | AssertionError | AttributeError | IndexError | TypeError.

Inductive result (A : Type) : Type :=
| Ok (a : A)
| Raise (e : exn).
Arguments Ok {A} a.
Arguments Raise {A} e.

#[global] Instance result_ret : MRet result := @Ok.
#[global] Instance result_bind : MBind result :=
  fun A B (k : A -> result B) (r : result A) =>
    match r with
    | Ok a => k a
    | Raise e => Raise e
    end.

(** ** The package directory and the loaded package *)

(** The files of [SAGE_ROOT/build/pkgs/<name>], by content; [realdir] is the
    name of the directory that really holds [checksums.ini]
    ([os.path.realpath(checksums_ini).split(os.sep)[-2]]). *)
Record PackageDir : Type := {
  checksums_ini : option string;
  realdir : string;
  package_version_txt : option string;
  type_file : option string;
  install_requires_txt : option string;
  dependencies_file : option string;
  dependencies_check_file : option string;
  dependencies_order_only_file : option string
}.

Record Package : Type := {
  __name : string;
  __md5 : option string;
  __sha1 : option string;
  __cksum : option string;
  __tarball_pattern : option string;
  __tarball_upstream_url_pattern : option string;
  __tarball_package_name : string;
  __version : option string;
  __patchlevel : option Z;
  __type : string;
  __install_requires : option string;
  __dependencies : string;
  __dependencies_check : string;
  __dependencies_order_only : string
}.

(** *** [_init_checksum] *)

Definition is_var_char (c : ascii) : bool :=
  let n := N_of_ascii c in
  ((97 <=? n) && (n <=? 122) || (65 <=? n) && (n <=? 90)
   || (48 <=? n) && (n <=? 57) || (n =? 95))%N.

(** [assignment.match(line)], where [assignment] is the compiled pattern
    [var = value] with [var] a greedy run of [[a-zA-Z0-9_]] (possibly empty)
    and [value] a greedy run of [.] up to the end of the line: the groups
    [(var, value)], or [None]. *)
Fixpoint assignment_match (line : string) : option (string * string) :=
  match line with
  | EmptyString => None
  | String c rest =>
      if Ascii.eqb c "=" then Some (EmptyString, Py.dot_star rest)
      else if is_var_char c then
        match assignment_match rest with
        | Some (var, value) => Some (String c var, value)
        | None => None
        end
      else None
  end.

(** One turn of [for line in f.readlines()]. *)
Definition checksum_line (result : gmap string string) (line : string)
  : gmap string string :=
  match assignment_match line with
  | None => result
  | Some (var, value) => <[var := value]> result
  end.

Definition checksum_lines (lines : list string) : gmap string string :=
  fold_left checksum_line lines ∅.

(** The dictionary [result] of [_init_checksum] once the [try] is over. *)
Definition checksum_result (file : option string) : gmap string string :=
  match file with
  | Some text => checksum_lines (Py.readlines text)
  | None => ∅
  end.

(** *** [_init_version] *)

(** [VERSION_PATCHLEVEL.match(s)]: the pattern is a greedy run of [.]
    (group [version]), then the two characters [.p], then a greedy run of
    one or more [[0-9]] (group [patchlevel]); the result is the pair of
    groups, or [None].  The greedy run of [.] keeps the match whose [.p]
    comes latest, and never runs over a line feed. *)
Definition patchlevel_here (s : string) : option string :=
  match s with
  | String a (String b (String d rest)) =>
      if Ascii.eqb a "." && Ascii.eqb b "p" && Py.isdigit d
      then Some (String d (Py.digits_star rest)) else None
  | _ => None
  end.

Fixpoint VERSION_PATCHLEVEL_match (s : string) : option (string * string) :=
  match s with
  | EmptyString => None
  | String c s' =>
      if Ascii.eqb c Py.LF then None
      else match VERSION_PATCHLEVEL_match s' with
           | Some (version, patchlevel) => Some (String c version, patchlevel)
           | None =>
               match patchlevel_here s with
               | Some patchlevel => Some (EmptyString, patchlevel)
               | None => None
               end
           end
  end.

(** The [else] branch of [_init_version], on the stripped content. *)
Definition parse_version (package_version : string) : string * Z :=
  match VERSION_PATCHLEVEL_match package_version with
  | None => (package_version, (-1)%Z)
  | Some (version, patchlevel) => (version, Py.int patchlevel)
  end.

Definition _init_version (file : option string) : option string * option Z :=
  match file with
  | None => (None, None)
  | Some text =>
      let '(version, patchlevel) := parse_version (Py.strip text) in
      (Some version, Some patchlevel)
  end.

(** ["{version}.p{patchlevel}".format(...)] *)
Definition format_version (version : string) (patchlevel : Z) : string :=
  version ++ ".p" ++ Py.str patchlevel.

(** *** [_init_type], [_init_install_requires], [_init_dependencies] *)

Definition package_types : list string :=
  ["base"; "standard"; "optional"; "experimental"].

Definition _init_type (file : option string) : result string :=
  match file with
  | None => Raise IOError
  | Some text =>
      let package_type := Py.strip text in
      if existsb (String.eqb package_type) package_types
      then Ok package_type else Raise AssertionError
  end.

Definition _init_install_requires (file : option string) : option string :=
  match file with
  | Some text => Some (Py.strip text)
  | None => None
  end.

Definition _init_dependencies (dir : PackageDir) : string * string * string :=
  (match dependencies_file dir with
   | Some text => Py.strip (Py.readline text)
   | None => EmptyString
   end,
   match dependencies_check_file dir with
   | Some text => Py.strip (Py.readline text)
   | None => EmptyString
   end,
   match dependencies_order_only_file dir with
   | Some text => Py.readline text
   | None => EmptyString
   end).

(** *** [Package.__init__]

    A file is given by the text that reading it returns, and is [None] when
    opening it raises [IOError].  Two failures are outside this model: bytes
    that cannot be decoded, and a run of digits that [int] refuses for its
    length; either would leave [_init_version] through an exception that
    [except IOError] does not catch.  So the results on loading say what
    holds when the constructor returns, and when it cannot return; they do
    not say that no other exception is possible. *)

Definition __init__ (package_name : string) (dir : PackageDir) : result Package :=
  let result := checksum_result (checksums_ini dir) in
  let '(version, patchlevel) := _init_version (package_version_txt dir) in
  package_type ← _init_type (type_file dir);
  let install_requires := _init_install_requires (install_requires_txt dir) in
  let '(deps, deps_check, deps_order_only) := _init_dependencies dir in
  Ok {| __name := package_name;
        __md5 := result !! "md5";
        __sha1 := result !! "sha1";
        __cksum := result !! "cksum";
        __tarball_pattern := result !! "tarball";
        __tarball_upstream_url_pattern := result !! "upstream_url";
        __tarball_package_name := realdir dir;
        __version := version;
        __patchlevel := patchlevel;
        __type := package_type;
        __install_requires := install_requires;
        __dependencies := deps;
        __dependencies_check := deps_check;
        __dependencies_order_only := deps_order_only |}.

(** ** Properties of a package *)

Definition version (self : Package) : option string := __version self.
Definition patchlevel (self : Package) : option Z := __patchlevel self.
Definition tarball_pattern (self : Package) : option string :=
  __tarball_pattern self.
Definition tarball_upstream_url_pattern (self : Package) : option string :=
  __tarball_upstream_url_pattern self.

(** [self.version.split('.')[i]], the body of [version_major] (i = 0),
    [version_minor] (i = 1) and [version_micro] (i = 2). *)
Definition version_component (i : nat) (self : Package) : result string :=
  match version self with
  | None => Raise AttributeError
  | Some v =>
      match nth_error (Py.split_char "." v) i with
      | Some part => Ok part
      | None => Raise IndexError
      end
  end.

Definition version_major : Package -> result string := version_component 0.
Definition version_minor : Package -> result string := version_component 1.
Definition version_micro : Package -> result string := version_component 2.

(** [getattr(self, name)] on the four attributes the substitution reads; the
    value of [version] may be Python's [None]. *)
Definition getattr (self : Package) (name : string) : result (option string) :=
  if String.eqb name "version" then Ok (version self)
  else if String.eqb name "version_major" then x ← version_major self; Ok (Some x)
  else if String.eqb name "version_minor" then x ← version_minor self; Ok (Some x)
  else if String.eqb name "version_micro" then x ← version_micro self; Ok (Some x)
  else Raise AttributeError.

Definition dependencies (self : Package) : list string :=
  Py.split (Py.strip (fst (fst (Py.partition "|" (__dependencies self))))).

Definition dependencies_order_only (self : Package) : list string :=
  Py.split (Py.strip (snd (Py.partition "|" (__dependencies self))))
  ++ Py.split (Py.strip (__dependencies_order_only self)).

Definition dependencies_check (self : Package) : list string :=
  Py.split (Py.strip (__dependencies_order_only self)).

(** ** Substitution of the version variables *)

(** The tuple the [for] loop of [_substitute_variables_once] runs over. *)
Definition VARS : list string :=
  ["VERSION_MAJOR"; "VERSION_MINOR"; "VERSION_MICRO"; "VERSION"].

Definition dollar_brace (var : string) : string := "${" ++ var ++ "}".

(** [pattern.replace(old, value, 1)]; Python refuses a [None] value. *)
Definition replace_value (pattern old : string) (value : option string)
  : result string :=
  match value with
  | Some new => Ok (Py.replace1 old new pattern)
  | None => Raise TypeError
  end.

Section Substitution.

(** [fun name => getattr(self, name)] *)
Variable getattr_self : string -> result (option string).

Fixpoint substitute_for (vars : list string) (pattern : string)
  : result (string * bool) :=
  match vars with
  | [] => Ok (pattern, false)
  | var :: vars' =>
      let dollar_brace_var := dollar_brace var in
      if Py.contains dollar_brace_var pattern then
        value ← getattr_self (Py.lower var);
        s ← replace_value pattern dollar_brace_var value;
        Ok (s, true)
      else if Py.contains var pattern then
        value ← getattr_self (Py.lower var);
        s ← replace_value pattern var value;
        Ok (s, true)
      else substitute_for vars' pattern
  end.

Definition _substitute_variables_once (pattern : string)
  : result (string * bool) :=
  substitute_for VARS pattern.

(** The [while not_done] loop; [None] when the fuel runs out first. *)
Fixpoint _substitute_variables (fuel : nat) (pattern : string)
  : option (result string) :=
  match fuel with
  | O => None
  | S fuel' =>
      match _substitute_variables_once pattern with
      | Raise e => Some (Raise e)
      | Ok (pattern', not_done) =>
          if not_done then _substitute_variables fuel' pattern'
          else Some (Ok pattern')
      end
  end.

End Substitution.

(** [if pattern:] on an optional string. *)
Definition truthy (pattern : option string) : bool :=
  match pattern with
  | Some (String _ _) => true
  | _ => false
  end.

(** The body that [tarball_filename] and [tarball_upstream_url] share:
    [if pattern: return self._substitute_variables(pattern)] and
    [else: return None]. *)
Definition resolve (fuel : nat) (self : Package) (pattern : option string)
  : option (result (option string)) :=
  match pattern with
  | Some p =>
      if truthy pattern then
        match _substitute_variables (getattr self) fuel p with
        | Some (Ok s) => Some (Ok (Some s))
        | Some (Raise e) => Some (Raise e)
        | None => None
        end
      else Some (Ok None)
  | None => Some (Ok None)
  end.

Definition tarball_filename (fuel : nat) (self : Package)
  : option (result (option string)) :=
  resolve fuel self (tarball_pattern self).

Definition tarball_upstream_url (fuel : nat) (self : Package)
  : option (result (option string)) :=
  resolve fuel self (tarball_upstream_url_pattern self).

(** The token spellings the substitution recognises. *)
Definition token_spellings : list string :=
  flat_map (fun var => [dollar_brace var; var]) VARS.

Definition no_token (s : string) : Prop :=
  Forall (fun tok => Py.contains tok s = false) token_spellings.

(** A package directory with nothing but a type and a version. *)
Definition dir_with_version (v : string) : PackageDir :=
  {| checksums_ini := None; realdir := "pkg";
     package_version_txt := Some v; type_file := Some "standard";
     install_requires_txt := None; dependencies_file := None;
     dependencies_check_file := None; dependencies_order_only_file := None |}.

Definition with_version (v : option string) : Package :=
  {| __name := "pkg"; __md5 := None; __sha1 := None; __cksum := None;
     __tarball_pattern := None; __tarball_upstream_url_pattern := None;
     __tarball_package_name := "pkg"; __version := v;
     __patchlevel := None; __type := "standard"; __install_requires := None;
     __dependencies := ""; __dependencies_check := "";
     __dependencies_order_only := "" |}.

(** ** Notions used to state the results *)

Section SubstitutionSpec.

(** [fun name => getattr(self, name)] *)
Variable getattr_self : string -> result (option string).

(** One replacement of one occurrence of a token spelling by the value
    of its variable. *)
Inductive replaces : string -> string -> Prop :=
| replaces_intro (var tok value pre post : string) :
    In var VARS ->
    tok = dollar_brace var \/ tok = var ->
    getattr_self (Py.lower var) = Ok (Some value) ->
    replaces (pre ++ tok ++ post) (pre ++ value ++ post).

(** What a lookup that makes the substitution fail looks like. *)
Definition lookup_fails (vars : list string) (e : exn) : Prop :=
  exists var, In var vars /\
    (getattr_self (Py.lower var) = Raise e
     \/ getattr_self (Py.lower var) = Ok None /\ e = TypeError).

Definition untouched (vars : list string) (pattern : string) : Prop :=
  Forall (fun var => Py.contains (dollar_brace var) pattern = false
                     /\ Py.contains var pattern = false) vars.

Definition replaced (vars : list string) (pattern pattern' : string) : Prop :=
  exists var tok value,
    In var vars /\ (tok = dollar_brace var \/ tok = var) /\
    getattr_self (Py.lower var) = Ok (Some value) /\
    Py.contains tok pattern = true /\
    pattern' = Py.replace1 tok value pattern.

End SubstitutionSpec.

(** The letters of the word VERSION. *)
Definition VERSION_letters : list ascii := list_ascii_of_string "VERSION".

(** The first line of a file, empty when the file does not exist. *)
Definition first_line (file : option string) : string :=
  match file with
  | Some text => Py.readline text
  | None => ""
  end.

Definition dir_with_dependencies (d c o : option string) : PackageDir :=
  {| checksums_ini := None; realdir := "pkg";
     package_version_txt := None; type_file := Some "standard";
     install_requires_txt := None; dependencies_file := d;
     dependencies_check_file := c; dependencies_order_only_file := o |}.

Definition with_dependency_files (dir : PackageDir) (d c o : option string)
  : PackageDir :=
  {| checksums_ini := checksums_ini dir; realdir := realdir dir;
     package_version_txt := package_version_txt dir;
     type_file := type_file dir;
     install_requires_txt := install_requires_txt dir;
     dependencies_file := d;
     dependencies_check_file := c; dependencies_order_only_file := o |}.

(** A line feed, to write files of several lines. *)
Definition nl : string := String Py.LF "".

Fixpoint all_digits (s : string) : bool :=
  match s with
  | EmptyString => true
  | String c s' => Py.isdigit c && all_digits s'
  end.

(** The spellings [.p0] to [.p9] that open a patchlevel suffix. *)
Definition patch_markers : list string :=
  map (fun d => String "." (String "p" (String d "")))
      (list_ascii_of_string "0123456789").

Definition no_patch_marker (s : string) : bool :=
  forallb (fun m => negb (Py.contains m s)) patch_markers.

Definition all_var_chars (s : string) : bool :=
  forallb is_var_char (list_ascii_of_string s).

Definition dir_with_checksums (ini : string) (v : option string) : PackageDir :=
  {| checksums_ini := Some ini; realdir := "pkg";
     package_version_txt := v; type_file := Some "standard";
     install_requires_txt := None; dependencies_file := None;
     dependencies_check_file := None; dependencies_order_only_file := None |}.

(** ** The other accessors, and the enumeration of the packages *)

Definition name (self : Package) : string := __name self.
Definition md5 (self : Package) : option string := __md5 self.
Definition sha1 (self : Package) : option string := __sha1 self.
Definition cksum (self : Package) : option string := __cksum self.
Definition type (self : Package) : string := __type self.

(** ['Package {0}'.format(self.name)] *)
Definition __repr__ (self : Package) : string := "Package " ++ name self.

(** The two loops of [distribution_name], over the lines of the text:
    a stripped line that starts with [#] is passed over, and so is a line
    without a part; the first part met is returned. *)
Fixpoint distribution_name_lines (lines : list string) : option string :=
  match lines with
  | [] => None
  | line :: lines' =>
      let line := Py.strip line in
      if Py.startswith "#" line then distribution_name_lines lines'
      else match Py.split line with
           | part :: _ => Some part
           | [] => distribution_name_lines lines'
           end
  end.

Definition distribution_name (self : Package) : option string :=
  match __install_requires self with
  | None => None
  | Some text => distribution_name_lines (Py.split_char Py.LF text)
  end.

(** [tarball_package], where [pkgs n] is the directory
    [SAGE_ROOT/build/pkgs/n] that [type(self)(n)] loads. *)
Definition tarball_package (pkgs : string -> PackageDir) (self : Package)
  : result Package :=
  let n := __tarball_package_name self in
  if String.eqb n (name self) then Ok self else __init__ n (pkgs n).

(** [Package.all], a generator: the packages it yields, in order, and the
    exception that ends it, if any.  [listing] is [os.listdir(base)] with
    the content of each entry; an entry has a [type] file when
    [os.path.isfile] says so. *)
Fixpoint all (listing : list (string * PackageDir)) : list Package * option exn :=
  match listing with
  | [] => ([], None)
  | (subdir, dir) :: listing' =>
      match type_file dir with
      | None => all listing'
      | Some _ =>
          match __init__ subdir dir with
          | Ok package =>
              let '(packages, e) := all listing' in (package :: packages, e)
          | Raise e => ([], Some e)
          end
      end
  end.

(** ** More notions used to state the results *)

(** [sep.join(parts)] *)
Fixpoint join (sep : string) (parts : list string) : string :=
  match parts with
  | [] => ""
  | [part] => part
  | part :: parts' => part ++ sep ++ join sep parts'
  end.

Definition all_space (s : string) : bool :=
  forallb Py.isspace (list_ascii_of_string s).

Definition no_space (s : string) : bool :=
  forallb (fun c => negb (Py.isspace c)) (list_ascii_of_string s).

Definition has_type (entry : string * PackageDir) : bool :=
  match type_file (snd entry) with
  | Some _ => true
  | None => false
  end.

(** The variables that [_init_checksum] reads out of the dictionary. *)
Definition checksum_vars : list string :=
  ["md5"; "sha1"; "cksum"; "tarball"; "upstream_url"].

(** Whether a pattern names one of the three components of the version. *)
Definition names_component (pattern : string) : bool :=
  Py.contains "VERSION_MAJOR" pattern || Py.contains "VERSION_MINOR" pattern
  || Py.contains "VERSION_MICRO" pattern.

(** A package root with two packages and an entry without a [type] file. *)
Definition example_listing : list (string * PackageDir) :=
  [("a", dir_with_version "1.0");
   ("notes",
    {| checksums_ini := None; realdir := "notes"; package_version_txt := None;
       type_file := None; install_requires_txt := None;
       dependencies_file := Some "a"; dependencies_check_file := None;
       dependencies_order_only_file := None |});
   ("b", dir_with_dependencies (Some "a") None None)].

(** A package root where the [checksums.ini] of [alias] is a link to the
    one of [real]. *)
Definition example_pkgs (n : string) : PackageDir :=
  if String.eqb n "alias" then
    {| checksums_ini := Some "sha1=abc"; realdir := "real";
       package_version_txt := Some "1.0"; type_file := Some "optional";
       install_requires_txt := None; dependencies_file := None;
       dependencies_check_file := None; dependencies_order_only_file := None |}
  else
    {| checksums_ini := Some "sha1=abc"; realdir := n;
       package_version_txt := Some "1.0"; type_file := Some "standard";
       install_requires_txt := None; dependencies_file := None;
       dependencies_check_file := None; dependencies_order_only_file := None |}.

(** *** The substitution in one pass

    The reading of a pattern from left to right that the loop of
    [_substitute_variables] is compared with: where a spelling starts, the
    first one in the order of the tests is replaced by the value of its
    variable and reading goes on behind it. *)

(** The characters that occur in the token spellings. *)
Definition token_alphabet : list ascii :=
  list_ascii_of_string "${}VERSION_MAJORMINORMICRO".

Definition in_alphabet (c : ascii) : bool :=
  existsb (Ascii.eqb c) token_alphabet.

(** A value that cannot take part in a token: not empty, and without any
    character of the spellings. *)
Definition inert (value : string) : bool :=
  match value with
  | EmptyString => false
  | _ => forallb (fun c => negb (in_alphabet c)) (list_ascii_of_string value)
  end.

(** The first spelling, in the order of the tests, that [s] starts with,
    and its variable. *)
Fixpoint spelling_at (vars : list string) (s : string) : option (string * string) :=
  match vars with
  | [] => None
  | var :: vars' =>
      if Py.startswith (dollar_brace var) s then Some (dollar_brace var, var)
      else if Py.startswith var s then Some (var, var)
      else spelling_at vars' s
  end.

Section Expand.

Variable getattr_self : string -> result (option string).

Definition value_of (var : string) : string :=
  match getattr_self (Py.lower var) with
  | Ok (Some value) => value
  | _ => ""
  end.

(** [skip] characters of a replaced spelling are still to be passed. *)
Fixpoint expand_from (skip : nat) (s : string) : string :=
  match s with
  | EmptyString => ""
  | String c s' =>
      match skip with
      | S skip' => expand_from skip' s'
      | O =>
          match spelling_at VARS s with
          | Some (tok, var) =>
              value_of var ++ expand_from (String.length tok - 1) s'
          | None => String c (expand_from 0 s')
          end
      end
  end.

Definition expand (pattern : string) : string := expand_from 0 pattern.

End Expand.

(** A value that shares no character with a spelling, whatever text stands
    before and behind it: it is not empty, its first and its last character
    occur in no spelling, and the word VERSION, which every spelling holds,
    does not occur in it. *)
Definition first_char (s : string) : option ascii :=
  match s with
  | EmptyString => None
  | String c _ => Some c
  end.

Fixpoint last_char (s : string) : option ascii :=
  match s with
  | EmptyString => None
  | String c s' =>
      match s' with
      | EmptyString => Some c
      | String _ _ => last_char s'
      end
  end.

Definition outside_alphabet (c : option ascii) : bool :=
  match c with
  | Some c => negb (in_alphabet c)
  | None => false
  end.

Definition stands_alone (value : string) : bool :=
  outside_alphabet (first_char value) && outside_alphabet (last_char value)
  && negb (Py.contains "VERSION" value).

(** Every variable whose name occurs in the pattern has a value, and that
    value stands alone. *)
Definition named_values_stand_alone
    (getattr_self : string -> result (option string)) (pattern : string) : Prop :=
  forall var, In var VARS -> Py.contains var pattern = true ->
    exists value,
      getattr_self (Py.lower var) = Ok (Some value) /\ stands_alone value = true.

(** The number of places of [s] at which [t] starts. *)
Fixpoint occurrences (t s : string) : nat :=
  match s with
  | EmptyString => 0
  | String _ s' => (if Py.startswith t s then 1 else 0) + occurrences t s'
  end.

(** The spellings that are tested before [tok]. *)
Fixpoint tested_before (tok : string) (spellings : list string) : list string :=
  match spellings with
  | [] => []
  | t :: spellings' =>
      if String.eqb t tok then [] else t :: tested_before tok spellings'
  end.

(** A line that is blank or a comment for [distribution_name]. *)
Definition passed_over (line : string) : bool :=
  Py.startswith "#" (Py.strip line)
  || match Py.split (Py.strip line) with [] => true | _ => false end.

(** ** Checks of the string built-ins on examples *)

Example split_example : Py.split "  foo bar  baz " = ["foo"; "bar"; "baz"].
Proof. reflexivity. Qed.

Example str_example : Py.str (-1) = "-1" /\ Py.str 0 = "0" /\ Py.int "007" = 7%Z.
Proof. repeat split. Qed.

Example readlines_example :
  Py.readlines ("a" ++ nl ++ "b") = ["a" ++ nl; "b"]
  /\ Py.readline ("a" ++ nl ++ "b") = "a" ++ nl.
Proof. split; reflexivity. Qed.

Example partition_example :
  Py.partition "|" "foo bar | baz" = ("foo bar ", "|", " baz")
  /\ Py.partition "|" "foo" = ("foo", "", "").
Proof. split; reflexivity. Qed.

Example replace1_example :
  Py.replace1 "ab" "X" "cabab" = "cXab" /\ Py.replace1 "ab" "X" "cba" = "cba".
Proof. split; reflexivity. Qed.

Example split_char_example :
  Py.split_char "." "3.11.2" = ["3"; "11"; "2"] /\ Py.split_char "." "" = [""].
Proof. split; reflexivity. Qed.

Example strip_example : Py.strip ("  a b " ++ nl) = "a b".
Proof. reflexivity. Qed.

Example init_example :
  __init__ "pkg"
    (dir_with_checksums ("tarball=pkg-VERSION.tar.gz" ++ nl ++ "sha1=da39a3ee" ++ nl)
       (Some ("3.11.2.p1" ++ nl)))
  = Ok {| __name := "pkg"; __md5 := None; __sha1 := Some "da39a3ee";
          __cksum := None; __tarball_pattern := Some "pkg-VERSION.tar.gz";
          __tarball_upstream_url_pattern := None;
          __tarball_package_name := "pkg"; __version := Some "3.11.2";
          __patchlevel := Some 1%Z; __type := "standard";
          __install_requires := None; __dependencies := "";
          __dependencies_check := ""; __dependencies_order_only := "" |}.
Proof. reflexivity. Qed.

Example tarball_filename_example :
  (self ← __init__ "pkg"
     (dir_with_checksums
        ("tarball=pkg-${VERSION_MAJOR}.${VERSION_MINOR}.tar.gz" ++ nl
         ++ "upstream_url=https://example.org/VERSION/pkg-${VERSION}.tar.gz" ++ nl)
        (Some ("3.11.2.p0" ++ nl)));
   Ok (tarball_filename 3 self, tarball_upstream_url 3 self, patchlevel self))
  = Ok (Some (Ok (Some "pkg-3.11.tar.gz")),
        Some (Ok (Some "https://example.org/3.11.2/pkg-3.11.2.tar.gz")),
        Some 0%Z).
Proof. reflexivity. Qed.

(** ** Facts about the string built-ins *)

Section StringFacts.

Lemma append_empty_r (s : string) : s ++ "" = s.
Proof. induction s as [|a s IH]; simpl; [reflexivity | now rewrite IH]. Qed.

Lemma startswith_split (p s : string) :
  Py.startswith p s = true -> s = p ++ Py.drop (String.length p) s.
Proof.
  revert s; induction p as [|a p IH]; intros [|b s]; simpl; try easy.
  intros H. apply andb_true_iff in H as [Hab Hps].
  apply Ascii.eqb_eq in Hab. subst b. f_equal. now apply IH.
Qed.

Lemma startswith_append (p x : string) : Py.startswith p (p ++ x) = true.
Proof.
  induction p as [|a p IH]; simpl; [reflexivity |].
  now rewrite Ascii.eqb_refl, IH.
Qed.

Lemma contains_startswith (u s : string) :
  Py.startswith u s = true -> Py.contains u s = true.
Proof. destruct s; simpl; intros H; rewrite H; reflexivity. Qed.

Lemma contains_append_l (u v s : string) :
  Py.contains u s = true -> Py.contains u (v ++ s) = true.
Proof.
  intros H. induction v as [|a v IH]; simpl; [exact H |].
  rewrite IH. apply orb_true_r.
Qed.

Lemma count_append (c : ascii) (a b : string) :
  Py.count c (a ++ b) = Py.count c a + Py.count c b.
Proof. induction a as [|x a IH]; simpl; [reflexivity | rewrite IH; lia]. Qed.

(** [replace] with a count of one rewrites one occurrence in place. *)
Lemma replace1_found (old new s : string) :
  Py.contains old s = true ->
  exists pre post,
    s = pre ++ old ++ post /\ Py.replace1 old new s = pre ++ new ++ post.
Proof.
  induction s as [|a s IH]; intros H.
  - destruct old; simpl in H; [| discriminate].
    exists "", "". split; reflexivity.
  - cbn [Py.replace1]. cbn [Py.contains] in H.
    destruct (Py.startswith old (String a s)) eqn:E.
    + exists "", (Py.drop (String.length old) (String a s)).
      split; [now apply startswith_split | reflexivity].
    + simpl in H. destruct (IH H) as (pre & post & Hs & Hr).
      exists (String a pre), post. simpl. now rewrite <- Hs, Hr.
Qed.

Lemma replace1_count (c : ascii) (old new s : string) :
  Py.contains old s = true ->
  Py.count c (Py.replace1 old new s) + Py.count c old
  = Py.count c s + Py.count c new.
Proof.
  intros H. destruct (replace1_found old new s H) as (pre & post & Hs & Hr).
  rewrite Hr, Hs at 1. rewrite !count_append. lia.
Qed.

Lemma count_split_char (c sep : ascii) (s part : string) :
  Py.count c s = 0 -> In part (Py.split_char sep s) -> Py.count c part = 0.
Proof.
  revert part; induction s as [|a s IH]; simpl; intros part Hc Hin.
  - destruct Hin as [<- | []]. reflexivity.
  - assert (Ha : (if Ascii.eqb a c then 1 else 0) = 0) by lia.
    assert (Hs : Py.count c s = 0) by lia.
    destruct (Ascii.eqb a sep).
    + destruct Hin as [<- | Hin]; [reflexivity | now apply IH].
    + destruct (Py.split_char sep s) as [|w ws] eqn:E.
      * destruct Hin as [<- | []]. simpl. lia.
      * destruct Hin as [<- | Hin].
        -- simpl. rewrite Ha. apply (IH w Hs). now left.
        -- apply (IH part Hs). now right.
Qed.

End StringFacts.

(** ** Facts about the substitution loop *)

Section SubstitutionFacts.

Variable getattr_self : string -> result (option string).

Lemma substitute_for_cases (vars : list string) (pattern : string) :
  match substitute_for getattr_self vars pattern with
  | Ok (pattern', true) => replaced getattr_self vars pattern pattern'
  | Ok (pattern', false) => pattern' = pattern /\ untouched vars pattern
  | Raise e => lookup_fails getattr_self vars e
  end.
Proof.
  induction vars as [|var vars IH]; simpl.
  - split; [reflexivity | constructor].
  - destruct (Py.contains (dollar_brace var) pattern) eqn:Eb.
    + destruct (getattr_self (Py.lower var)) as [[value|]|e] eqn:Eg; simpl.
      * exists var, (dollar_brace var), value. simpl; intuition.
      * exists var. simpl; intuition.
      * exists var. simpl; intuition.
    + destruct (Py.contains var pattern) eqn:Ev.
      * destruct (getattr_self (Py.lower var)) as [[value|]|e] eqn:Eg; simpl.
        -- exists var, var, value. simpl; intuition.
        -- exists var. simpl; intuition.
        -- exists var. simpl; intuition.
      * destruct (substitute_for getattr_self vars pattern) as [[p' [|]]|e].
        -- destruct IH as (v & tok & value & Hin & H).
           exists v, tok, value. split; [now right | exact H].
        -- destruct IH as [-> IH]. split; [reflexivity |].
           constructor; [split; assumption | exact IH].
        -- destruct IH as (v & Hin & H). exists v. split; [now right | exact H].
Qed.

Lemma untouched_no_token (pattern : string) :
  untouched VARS pattern <-> no_token pattern.
Proof.
  unfold untouched, no_token, token_spellings, VARS; simpl. split; intros H.
  - repeat match goal with
           | H : Forall _ (_ :: _) |- _ =>
               apply Forall_cons_iff in H; destruct H as [[? ?] H]
           end.
    repeat (constructor; [assumption |]). constructor.
  - repeat match goal with
           | H : Forall _ (_ :: _) |- _ =>
               apply Forall_cons_iff in H; destruct H as [? H]
           end.
    repeat (constructor; [split; assumption |]). constructor.
Qed.

Lemma replaced_replaces (pattern pattern' : string) :
  replaced getattr_self VARS pattern pattern' ->
  replaces getattr_self pattern pattern'.
Proof.
  intros (var & tok & value & Hin & Htok & Hg & Hc & ->).
  destruct (replace1_found tok value pattern Hc) as (pre & post & Hs & Hr).
  rewrite Hr. rewrite Hs at 1. now apply (replaces_intro getattr_self var).
Qed.

(** More fuel does not change a result. *)
Lemma fuel_mono (n m : nat) (pattern : string) (r : result string) :
  _substitute_variables getattr_self n pattern = Some r -> n <= m ->
  _substitute_variables getattr_self m pattern = Some r.
Proof.
  revert m pattern; induction n as [|n IH]; intros m pattern H Hle.
  - discriminate.
  - destruct m as [|m]; [lia |]. simpl in *.
    destruct (_substitute_variables_once getattr_self pattern)
      as [[p' [|]]|e]; try exact H.
    apply IH; [exact H | lia].
Qed.

(** A result of the loop is reached by single replacements, and holds no
    token spelling; a failure comes from a lookup. *)
Lemma loop_sound (n : nat) : forall (pattern : string) (r : result string),
  _substitute_variables getattr_self n pattern = Some r ->
  match r with
  | Ok out => rtc (replaces getattr_self) pattern out /\ no_token out
  | Raise e => lookup_fails getattr_self VARS e
  end.
Proof.
  induction n as [|n IH]; intros pattern r H; [discriminate |].
  simpl in H. unfold _substitute_variables_once in H.
  pose proof (substitute_for_cases VARS pattern) as Hc.
  destruct (substitute_for getattr_self VARS pattern) as [[p' [|]]|e].
  - specialize (IH _ _ H). destruct r as [out|e]; [| exact IH].
    destruct IH as [Hrtc Hno]. split; [| exact Hno].
    eapply rtc_l; [apply replaced_replaces; exact Hc | exact Hrtc].
  - injection H as <-. destruct Hc as [-> Hc].
    split; [apply rtc_refl | now apply untouched_no_token].
  - injection H as <-. exact Hc.
Qed.

(** *** Termination, by counting one letter of the word VERSION *)

Variable c : ascii.
Hypothesis c_in_tokens : Forall (fun tok => 1 <= Py.count c tok) token_spellings.
Hypothesis c_not_in_values : forall var value,
  In var VARS -> getattr_self (Py.lower var) = Ok (Some value) ->
  Py.count c value = 0.

Lemma replaced_decreases (pattern pattern' : string) :
  replaced getattr_self VARS pattern pattern' ->
  Py.count c pattern' < Py.count c pattern.
Proof.
  intros (var & tok & value & Hin & Htok & Hg & Hc & ->).
  pose proof (replace1_count c tok value pattern Hc) as Hcount.
  rewrite (c_not_in_values var value Hin Hg) in Hcount.
  assert (1 <= Py.count c tok); [| lia].
  apply (proj1 (List.Forall_forall _ _) c_in_tokens).
  unfold token_spellings. apply in_flat_map. exists var.
  split; [exact Hin |]. destruct Htok as [-> | ->]; [left | right; left]; reflexivity.
Qed.

Lemma loop_terminates (n : nat) : forall pattern : string,
  Py.count c pattern < n ->
  exists r, _substitute_variables getattr_self n pattern = Some r.
Proof.
  induction n as [|n IH]; intros pattern Hlt; [lia |].
  simpl. unfold _substitute_variables_once.
  pose proof (substitute_for_cases VARS pattern) as Hc.
  destruct (substitute_for getattr_self VARS pattern) as [[p' [|]]|e].
  - apply IH. apply replaced_decreases in Hc. lia.
  - eauto.
  - eauto.
Qed.

End SubstitutionFacts.

(** Every letter of the word VERSION occurs in every token spelling. *)
Lemma letter_in_tokens (c : ascii) :
  In c (list_ascii_of_string "VERSION") ->
  Forall (fun tok => 1 <= Py.count c tok) token_spellings.
Proof.
  simpl. intros H.
  repeat (destruct H as [<- | H]; [repeat constructor; cbv; lia |]).
  destruct H.
Qed.

(** ** The version variables of a package *)

Lemma lower_VARS :
  map Py.lower VARS
  = ["version_major"; "version_minor"; "version_micro"; "version"].
Proof. reflexivity. Qed.

(** [getattr], one attribute name at a time. *)
Lemma getattr_version_eq (self : Package) :
  getattr self "version" = Ok (version self).
Proof. reflexivity. Qed.

Lemma getattr_major (self : Package) :
  getattr self "version_major" = (x ← version_major self; Ok (Some x)).
Proof. reflexivity. Qed.

Lemma getattr_minor (self : Package) :
  getattr self "version_minor" = (x ← version_minor self; Ok (Some x)).
Proof. reflexivity. Qed.

Lemma getattr_micro (self : Package) :
  getattr self "version_micro" = (x ← version_micro self; Ok (Some x)).
Proof. reflexivity. Qed.

Create Rewrite HintDb getattr.
#[global] Hint Rewrite getattr_version_eq getattr_major getattr_minor
  getattr_micro : getattr.

Ltac lower_name :=
  match goal with
  | |- context [Py.lower ?s] =>
      let s' := eval vm_compute in (Py.lower s) in change (Py.lower s) with s'
  end.

Section PackageVariables.

Variables (self : Package) (v : string).
Hypothesis version_present : version self = Some v.

Lemma getattr_component (i : nat) (var : string) :
  nth_error VARS i = Some var -> i < 3 ->
  getattr self (Py.lower var)
  = match nth_error (Py.split_char "." v) i with
    | Some part => Ok (Some part)
    | None => Raise IndexError
    end.
Proof.
  intros Hvar Hi. pose proof version_present as Hv.
  destruct i as [|[|[|i]]]; [| | | lia]; injection Hvar as <-;
    lower_name; autorewrite with getattr;
    unfold version_major, version_minor, version_micro, version_component;
    rewrite Hv; destruct (nth_error _ _); reflexivity.
Qed.

Lemma getattr_version : getattr self (Py.lower "VERSION") = Ok (Some v).
Proof. lower_name. autorewrite with getattr. now rewrite version_present. Qed.

Lemma VARS_cases (var : string) :
  In var VARS ->
  (exists i, i < 3 /\ nth_error VARS i = Some var) \/ var = "VERSION".
Proof.
  simpl. intros [<- | [<- | [<- | [<- | []]]]];
    [left; exists 0 | left; exists 1 | left; exists 2 | right];
    try (split; [lia | reflexivity]); reflexivity.
Qed.

(** A value is the version or one of its dot-separated components. *)
Lemma getattr_values (var value : string) :
  In var VARS -> getattr self (Py.lower var) = Ok (Some value) ->
  value = v \/ In value (Py.split_char "." v).
Proof.
  intros Hin Hg. destruct (VARS_cases var Hin) as [(i & Hi & Hn) | ->].
  - rewrite (getattr_component i var Hn Hi) in Hg.
    destruct (nth_error (Py.split_char "." v) i) as [part|] eqn:E;
      [| discriminate].
    injection Hg as <-. right. eapply nth_error_In, E.
  - rewrite getattr_version in Hg. injection Hg as <-. now left.
Qed.

(** With a version, a lookup can only fail on a missing component. *)
Lemma getattr_fails (e : exn) :
  lookup_fails (getattr self) VARS e -> e = IndexError.
Proof.
  intros (var & Hin & Hg).
  destruct (VARS_cases var Hin) as [(i & Hi & Hn) | ->].
  - rewrite (getattr_component i var Hn Hi) in Hg.
    destruct (nth_error (Py.split_char "." v) i);
      destruct Hg as [Hg | [Hg _]]; congruence.
  - rewrite getattr_version in Hg. destruct Hg as [Hg | [Hg _]]; congruence.
Qed.

Lemma getattr_no_failure (e : exn) :
  3 <= List.length (Py.split_char "." v) ->
  ~ lookup_fails (getattr self) VARS e.
Proof.
  intros Hlen (var & Hin & Hg).
  destruct (VARS_cases var Hin) as [(i & Hi & Hn) | ->].
  - rewrite (getattr_component i var Hn Hi) in Hg.
    destruct (nth_error (Py.split_char "." v) i) eqn:E.
    + destruct Hg as [Hg | [Hg _]]; congruence.
    + apply nth_error_None in E. lia.
  - rewrite getattr_version in Hg. destruct Hg as [Hg | [Hg _]]; congruence.
Qed.

Lemma getattr_values_count (c : ascii) (var value : string) :
  Py.count c v = 0 ->
  In var VARS -> getattr self (Py.lower var) = Ok (Some value) ->
  Py.count c value = 0.
Proof.
  intros Hc Hin Hg. destruct (getattr_values var value Hin Hg) as [-> | H].
  - exact Hc.
  - eapply count_split_char; eassumption.
Qed.

(** The loop returns on every pattern when one letter of the word VERSION
    is missing from the version. *)
Lemma package_loop_terminates (c : ascii) (pattern : string) :
  In c VERSION_letters -> Py.count c v = 0 ->
  exists r,
    _substitute_variables (getattr self) (S (Py.count c pattern)) pattern
    = Some r.
Proof.
  intros Hc Hv.
  apply (loop_terminates (getattr self) c (letter_in_tokens c Hc)).
  - intros var value. now apply getattr_values_count.
  - lia.
Qed.

(** With three components and such a letter, it returns a string. *)
Lemma package_substitution_returns (c : ascii) (pattern : string) :
  3 <= List.length (Py.split_char "." v) ->
  In c VERSION_letters -> Py.count c v = 0 ->
  exists fuel out,
    (forall fuel', fuel <= fuel' ->
       _substitute_variables (getattr self) fuel' pattern = Some (Ok out)) /\
    rtc (replaces (getattr self)) pattern out /\
    no_token out.
Proof.
  intros Hlen Hc Hcount.
  destruct (package_loop_terminates c pattern Hc Hcount) as [r Hr].
  pose proof (loop_sound (getattr self) _ _ _ Hr) as Hs.
  destruct r as [out|e].
  - exists (S (Py.count c pattern)), out. split; [| exact Hs].
    intros fuel' Hle. eapply fuel_mono; eassumption.
  - destruct (getattr_no_failure e Hlen Hs).
Qed.

End PackageVariables.

(** ** A variable without a value stops the substitution *)

Section Disjoint.

(** [u] and [t] are spellings that cannot overlap: an occurrence of [u]
    in [t ++ post] lies in [post], and replacing [t] skips over [u]. *)
Variables (u t : string).
Hypothesis u_after_t : forall post, Py.contains u (t ++ post) = Py.contains u post.
Hypothesis t_after_u : forall value rest,
  Py.replace1 t value (u ++ rest) = u ++ Py.replace1 t value rest.

Lemma contains_replace1_other (value s : string) :
  Py.contains u s = true -> Py.contains u (Py.replace1 t value s) = true.
Proof.
  induction s as [|a s IH]; intros H.
  - destruct u; [| discriminate H]. destruct (Py.replace1 t value ""); reflexivity.
  - cbn [Py.replace1].
    destruct (Py.startswith t (String a s)) eqn:Et.
    + apply startswith_split in Et. rewrite Et, u_after_t in H.
      now apply contains_append_l.
    + cbn [Py.contains] in H. apply orb_true_iff in H as [H | H].
      * apply startswith_split in H.
        pose proof (t_after_u value (Py.drop (String.length u) (String a s))) as E.
        rewrite <- H in E. cbn [Py.replace1] in E. rewrite Et in E.
        rewrite E. apply contains_startswith, startswith_append.
      * cbn [Py.contains]. rewrite (IH H). apply orb_true_r.
Qed.

End Disjoint.

Lemma micro_survives (tok value s : string) :
  In tok (flat_map (fun var => [dollar_brace var; var])
            ["VERSION_MAJOR"; "VERSION_MINOR"]) ->
  Py.contains "VERSION_MICRO" s = true ->
  Py.contains "VERSION_MICRO" (Py.replace1 tok value s) = true.
Proof.
  intros Htok. apply contains_replace1_other;
    simpl in Htok; destruct Htok as [<- | [<- | [<- | [<- | []]]]];
    intros; reflexivity.
Qed.

Section MissingMicro.

Variable getattr_self : string -> result (option string).
Variable e0 : exn.
Hypothesis micro_fails : getattr_self "version_micro" = Raise e0.

Lemma once_with_micro (pattern : string) :
  Py.contains "VERSION_MICRO" pattern = true ->
  match _substitute_variables_once getattr_self pattern with
  | Ok (pattern', not_done) =>
      not_done = true /\ Py.contains "VERSION_MICRO" pattern' = true
  | Raise _ => True
  end.
Proof.
  intros H. unfold _substitute_variables_once, VARS.
  cbn [substitute_for].
  repeat lazymatch goal with
  | |- context [Py.lower ?s] =>
      let s' := eval vm_compute in (Py.lower s) in change (Py.lower s) with s'
  end.
  rewrite micro_fails, H.
  repeat match goal with
  | |- context [if Py.contains ?tok pattern then _ else _] =>
      destruct (Py.contains tok pattern)
  | |- context [getattr_self ?name] =>
      destruct (getattr_self name) as [[?|]|?]
  end; cbn; try exact I;
    (split; [reflexivity |]);
    (apply micro_survives; [simpl; auto 6 | exact H]).
Qed.

Lemma loop_with_micro (n : nat) : forall (pattern out : string),
  Py.contains "VERSION_MICRO" pattern = true ->
  _substitute_variables getattr_self n pattern <> Some (Ok out).
Proof.
  induction n as [|n IH]; intros pattern out H; [discriminate |].
  simpl. pose proof (once_with_micro pattern H) as Hc.
  destruct (_substitute_variables_once getattr_self pattern)
    as [[p' not_done]|e]; [| discriminate].
  destruct Hc as [-> Hc]. now apply IH.
Qed.

End MissingMicro.

(** ** Results on the substitution *)

(** C2, as amended.  When one letter of the word VERSION occurs in none of
    the four values, [_substitute_variables] returns on every template: it
    makes at most as many single replacements as the template holds copies
    of that letter, and the string it returns holds no token spelling,
    braced or bare. *)
Theorem substitute_variables_terminates
  (getattr_self : string -> result (option string))
  (c : ascii) (pattern : string) :
  In c VERSION_letters ->
  (forall var, In var VARS ->
     exists value,
       getattr_self (Py.lower var) = Ok (Some value) /\ Py.count c value = 0) ->
  exists fuel out,
    fuel <= S (Py.count c pattern) /\
    _substitute_variables getattr_self fuel pattern = Some (Ok out) /\
    rtc (replaces getattr_self) pattern out /\
    no_token out.
Proof.
  intros Hc Hvalues.
  assert (Hcount : forall var value, In var VARS ->
            getattr_self (Py.lower var) = Ok (Some value) -> Py.count c value = 0).
  { intros var value Hin Hg. destruct (Hvalues var Hin) as (value' & Hg' & H0).
    congruence. }
  destruct (loop_terminates getattr_self c (letter_in_tokens c Hc) Hcount
              (S (Py.count c pattern)) pattern) as [r Hr]; [lia |].
  pose proof (loop_sound getattr_self _ _ _ Hr) as Hs.
  destruct r as [out|e].
  - exists (S (Py.count c pattern)), out.
    split; [lia |]. split; [exact Hr | exact Hs].
  - destruct Hs as (var & Hin & Hg).
    destruct (Hvalues var Hin) as (value & Hg' & _).
    destruct Hg as [Hg | [Hg _]]; congruence.
Qed.

Lemma substitute_variables_terminates_witness :
  exists fuel out,
    fuel <= S (Py.count "V" "pkg-VERSION.tar.gz") /\
    _substitute_variables (getattr (with_version (Some "3.11.2"))) fuel
      "pkg-VERSION.tar.gz" = Some (Ok out) /\
    rtc (replaces (getattr (with_version (Some "3.11.2"))))
      "pkg-VERSION.tar.gz" out /\
    no_token out.
Proof.
  apply (substitute_variables_terminates
           (getattr (with_version (Some "3.11.2"))) "V" "pkg-VERSION.tar.gz").
  - left. reflexivity.
  - intros var [<- | [<- | [<- | [<- | []]]]]; eexists; split; reflexivity.
Defined.

(** C2 as stated fails: with version [VERSION_MAJOR.0.0] every one of the
    four variables has a string value, and on the template [VERSION_MAJOR]
    the loop replaces the token by itself for ever. *)
Lemma substitute_variables_diverges :
  Forall (fun var => exists value,
            getattr (with_version (Some "VERSION_MAJOR.0.0")) (Py.lower var)
            = Ok (Some value)) VARS
  /\ ~ exists fuel r,
         _substitute_variables (getattr (with_version (Some "VERSION_MAJOR.0.0")))
           fuel "VERSION_MAJOR" = Some r.
Proof.
  split.
  - repeat constructor; eexists; reflexivity.
  - intros (fuel & r & H). induction fuel as [|fuel IH]; [discriminate |].
    apply IH. exact H.
Qed.

(** C4, as amended.  An accessor of a version component raises [IndexError]
    when the version has fewer dot-separated components than it needs.  So a
    template that contains [VERSION_MICRO] never resolves to a string against
    a version of fewer than three components; and when some letter of the
    word VERSION does not occur in that version, as in [7.0], the resolution
    ends in [IndexError]. *)
Theorem missing_component_lookup_error :
  (forall (self : Package) (v : string),
      version self = Some v ->
      (List.length (Py.split_char "." v) < 1 -> version_major self = Raise IndexError)
      /\ (List.length (Py.split_char "." v) < 2 -> version_minor self = Raise IndexError)
      /\ (List.length (Py.split_char "." v) < 3 -> version_micro self = Raise IndexError))
  /\ (forall (self : Package) (v pattern : string),
        version self = Some v ->
        List.length (Py.split_char "." v) < 3 ->
        Py.contains "VERSION_MICRO" pattern = true ->
        (forall fuel out,
            _substitute_variables (getattr self) fuel pattern <> Some (Ok out))
        /\ (forall c, In c VERSION_letters -> Py.count c v = 0 ->
              exists fuel, forall fuel', fuel <= fuel' ->
                _substitute_variables (getattr self) fuel' pattern
                = Some (Raise IndexError))).
Proof.
  assert (Hacc : forall self v i, version self = Some v ->
            List.length (Py.split_char "." v) <= i ->
            version_component i self = Raise IndexError).
  { intros self v i Hv Hlen. unfold version_component. rewrite Hv.
    apply nth_error_None in Hlen. now rewrite Hlen. }
  split.
  - intros self v Hv. repeat split; intros Hlen;
      apply (Hacc self v); (assumption || lia).
  - intros self v pattern Hv Hlen Hin.
    assert (Hmicro : getattr self "version_micro" = Raise IndexError).
    { autorewrite with getattr. unfold version_micro.
      rewrite (Hacc self v 2 Hv); [reflexivity | lia]. }
    assert (Hnever : forall fuel out,
              _substitute_variables (getattr self) fuel pattern <> Some (Ok out)).
    { intros fuel out. now apply (loop_with_micro (getattr self) IndexError). }
    split; [exact Hnever |].
    intros c Hc Hcount.
    destruct (package_loop_terminates self v Hv c pattern Hc Hcount) as [r Hr].
    exists (S (Py.count c pattern)). intros fuel' Hle.
    apply (fuel_mono (getattr self) (S (Py.count c pattern))); [| exact Hle].
    destruct r as [out|e].
    + destruct (Hnever _ _ Hr).
    + pose proof (loop_sound (getattr self) _ _ _ Hr) as Hs.
      apply (getattr_fails self v Hv) in Hs. now subst e.
Qed.

Lemma missing_component_lookup_error_witness :
  version_micro (with_version (Some "7.0")) = Raise IndexError
  /\ (forall fuel out,
        _substitute_variables (getattr (with_version (Some "7.0"))) fuel
          "pkg-${VERSION_MICRO}.tar.gz" <> Some (Ok out))
  /\ exists fuel, forall fuel', fuel <= fuel' ->
       _substitute_variables (getattr (with_version (Some "7.0"))) fuel'
         "pkg-${VERSION_MICRO}.tar.gz" = Some (Raise IndexError).
Proof.
  split; [| split].
  - apply (proj1 missing_component_lookup_error (with_version (Some "7.0")) "7.0").
    + reflexivity.
    + simpl. lia.
  - apply (proj2 missing_component_lookup_error (with_version (Some "7.0")) "7.0").
    + reflexivity.
    + simpl. lia.
    + reflexivity.
  - apply (proj2 missing_component_lookup_error (with_version (Some "7.0")) "7.0"
             "pkg-${VERSION_MICRO}.tar.gz") with (c := "V"%char).
    + reflexivity.
    + simpl. lia.
    + reflexivity.
    + left. reflexivity.
    + reflexivity.
Defined.

(** C4 as stated fails: the version [VERSION_MAJOR.0] has two components
    and the template [VERSION_MAJOR-VERSION_MICRO] contains [VERSION_MICRO],
    yet the resolution does not fail with a lookup error: the first test of
    every pass finds [VERSION_MAJOR] and replaces it by itself, so that the
    lookup of the missing component is never reached and the loop never
    ends. *)
Lemma missing_component_never_looked_up :
  List.length (Py.split_char "." "VERSION_MAJOR.0") = 2
  /\ version_micro (with_version (Some "VERSION_MAJOR.0")) = Raise IndexError
  /\ Py.contains "VERSION_MICRO" "VERSION_MAJOR-VERSION_MICRO" = true
  /\ _substitute_variables_once (getattr (with_version (Some "VERSION_MAJOR.0")))
       "VERSION_MAJOR-VERSION_MICRO"
     = Ok ("VERSION_MAJOR-VERSION_MICRO", true)
  /\ forall fuel,
       _substitute_variables (getattr (with_version (Some "VERSION_MAJOR.0")))
         fuel "VERSION_MAJOR-VERSION_MICRO" = None.
Proof.
  split; [reflexivity |]. split; [reflexivity |]. split; [reflexivity |].
  split; [reflexivity |].
  intros fuel. induction fuel as [|fuel IH]; [reflexivity | exact IH].
Qed.

(** ** Facts about whitespace and the dependency line *)

Section WhitespaceFacts.

Lemma split_lstrip (s : string) : Py.split (Py.lstrip s) = Py.split s.
Proof.
  induction s as [|a s IH]; [reflexivity |].
  cbn [Py.lstrip]. destruct (Py.isspace a) eqn:E; [| reflexivity].
  cbn [Py.split]. now rewrite E.
Qed.

Lemma rstrip_head (s r : string) (b : ascii) :
  Py.rstrip s = String b r -> exists s', s = String b s'.
Proof.
  destruct s as [|a s]; [discriminate |]. cbn [Py.rstrip].
  destruct (Py.rstrip s); [destruct (Py.isspace a) |];
    intros H; try discriminate; injection H as -> _; eauto.
Qed.

Lemma split_rstrip (s : string) : Py.split (Py.rstrip s) = Py.split s.
Proof.
  induction s as [|a s IH]; [reflexivity |].
  cbn [Py.rstrip]. destruct (Py.rstrip s) as [|b r] eqn:Er.
  - simpl in IH. cbn [Py.split]. rewrite <- IH.
    destruct (Py.isspace a) eqn:Ea; [reflexivity |].
    cbn [Py.split]. rewrite Ea.
    destruct s as [|c s']; [reflexivity |].
    destruct (Py.isspace c); reflexivity.
  - destruct (rstrip_head s r b Er) as [s' ->].
    cbn [Py.split] in *. destruct (Py.isspace a); [exact IH |].
    destruct (Py.isspace b); now rewrite IH.
Qed.

Lemma split_strip (s : string) : Py.split (Py.strip s) = Py.split s.
Proof. unfold Py.strip. now rewrite split_rstrip, split_lstrip. Qed.

Lemma lstrip_append (a b : string) (c : ascii) :
  Py.isspace c = false ->
  Py.lstrip (a ++ String c b) = Py.lstrip a ++ String c b.
Proof.
  intros Hc. induction a as [|x a IH]; simpl.
  - now rewrite Hc.
  - destruct (Py.isspace x); [exact IH | reflexivity].
Qed.

Lemma rstrip_append (a b : string) (c : ascii) :
  Py.isspace c = false ->
  Py.rstrip (a ++ String c b) = a ++ String c (Py.rstrip b).
Proof.
  intros Hc. induction a as [|x a IH]; simpl.
  - destruct (Py.rstrip b); [now rewrite Hc | reflexivity].
  - rewrite IH. destruct a; reflexivity.
Qed.

Lemma count_lstrip (c : ascii) (s : string) :
  Py.count c (Py.lstrip s) <= Py.count c s.
Proof.
  induction s as [|a s IH]; simpl; [lia |].
  destruct (Py.isspace a); simpl; lia.
Qed.

Lemma count_rstrip (c : ascii) (s : string) :
  Py.count c (Py.rstrip s) <= Py.count c s.
Proof.
  induction s as [|a s IH]; simpl; [lia |].
  destruct (Py.rstrip s); [destruct (Py.isspace a) |]; simpl in *; lia.
Qed.

Lemma partition_found (sep : ascii) (a b : string) :
  Py.count sep a = 0 ->
  Py.partition sep (a ++ String sep b) = (a, String sep "", b).
Proof.
  induction a as [|x a IH]; simpl; intros H.
  - now rewrite Ascii.eqb_refl.
  - destruct (Ascii.eqb x sep); [lia |]. now rewrite IH by lia.
Qed.

Lemma partition_absent (sep : ascii) (s : string) :
  Py.count sep s = 0 -> Py.partition sep s = (s, "", "").
Proof.
  induction s as [|x s IH]; simpl; intros H; [reflexivity |].
  destruct (Ascii.eqb x sep); [lia |]. now rewrite IH by lia.
Qed.

Lemma readline_idempotent (s : string) :
  Py.readline (Py.readline s) = Py.readline s.
Proof.
  induction s as [|a s IH]; simpl; [reflexivity |].
  destruct (Ascii.eqb a Py.LF) eqn:E; simpl; rewrite E; [reflexivity |].
  now rewrite IH.
Qed.

End WhitespaceFacts.

Lemma init_dependencies_first_line (dir : PackageDir) :
  _init_dependencies dir
  = (Py.strip (first_line (dependencies_file dir)),
     Py.strip (first_line (dependencies_check_file dir)),
     first_line (dependencies_order_only_file dir)).
Proof.
  unfold _init_dependencies, first_line.
  destruct (dependencies_file dir), (dependencies_check_file dir),
    (dependencies_order_only_file dir); reflexivity.
Qed.

(** What [__init__] records of the three dependency files. *)
Lemma init_dependencies (name : string) (dir : PackageDir) (self : Package) :
  __init__ name dir = Ok self ->
  __dependencies self = Py.strip (first_line (dependencies_file dir))
  /\ __dependencies_check self = Py.strip (first_line (dependencies_check_file dir))
  /\ __dependencies_order_only self = first_line (dependencies_order_only_file dir).
Proof.
  unfold __init__, _init_dependencies, first_line.
  destruct (_init_version (package_version_txt dir)) as [ver pl].
  destruct (_init_type (type_file dir)) as [ty|e]; [| discriminate].
  intros H. injection H as <-. simpl.
  repeat split;
    match goal with |- context [match ?f with _ => _ end] => destruct f end;
    reflexivity.
Qed.

(** ** Results on the dependency accessors *)

Lemma isspace_bar : Py.isspace "|" = false.
Proof. reflexivity. Qed.

(** C5, as amended.  The ordinary dependencies are the whitespace tokens of
    the part of the dependencies line before its first [|] (of the whole
    line when it has none); the order-only dependencies are the tokens of
    the part after that [|], followed by the tokens of the first line of the
    order-only file.  The line [foo bar | baz] with the order-only file
    [qux] gives [foo; bar] and [baz; qux]. *)
Theorem dependencies_split_on_bar :
  (forall (name : string) (dir : PackageDir) (self : Package),
      __init__ name dir = Ok self ->
      (forall a b : string,
          Py.count "|" a = 0 ->
          first_line (dependencies_file dir) = a ++ "|" ++ b ->
          dependencies self = Py.split a
          /\ dependencies_order_only self
             = (Py.split b
                ++ Py.split (first_line (dependencies_order_only_file dir)))%list)
      /\ (Py.count "|" (first_line (dependencies_file dir)) = 0 ->
          dependencies self = Py.split (first_line (dependencies_file dir))
          /\ dependencies_order_only self
             = Py.split (first_line (dependencies_order_only_file dir))))
  /\ (forall name : string,
        (self ← __init__ name
           (dir_with_dependencies (Some "foo bar | baz") None (Some "qux"));
         Ok (dependencies self, dependencies_order_only self))
        = Ok (["foo"; "bar"], ["baz"; "qux"])).
Proof.
  split; [| reflexivity].
  intros name dir self Hinit.
  destruct (init_dependencies name dir self Hinit) as (Hd & _ & Ho).
  unfold dependencies, dependencies_order_only. rewrite Hd, Ho.
  split.
  - intros a b Ha ->. unfold Py.strip at 2 4.
    change (a ++ "|" ++ b) with (a ++ String "|" b).
    rewrite (lstrip_append a b "|" isspace_bar).
    rewrite (rstrip_append (Py.lstrip a) b "|" isspace_bar).
    rewrite partition_found by (pose proof (count_lstrip "|" a); lia).
    cbn [fst snd]. now rewrite !split_strip, split_lstrip, split_rstrip.
  - intros H0. rewrite partition_absent.
    + cbn [fst snd]. now rewrite !split_strip.
    + unfold Py.strip.
      pose proof (count_rstrip "|" (Py.lstrip (first_line (dependencies_file dir)))).
      pose proof (count_lstrip "|" (first_line (dependencies_file dir))). lia.
Qed.

Lemma dependencies_split_on_bar_witness :
  exists self,
    __init__ "pkg"
      (dir_with_dependencies (Some (" a  b |c d" ++ nl ++ "e")) None
         (Some ("x y" ++ nl ++ "z"))) = Ok self
    /\ dependencies self = ["a"; "b"]
    /\ dependencies_order_only self = ["c"; "d"; "x"; "y"].
Proof.
  eexists. split; [reflexivity |].
  apply (proj1 (proj1 dependencies_split_on_bar "pkg"
                  (dir_with_dependencies (Some (" a  b |c d" ++ nl ++ "e")) None
                     (Some ("x y" ++ nl ++ "z"))) _ eq_refl)
           " a  b " ("c d" ++ nl)); reflexivity.
Defined.

(** C5 as stated fails on an order-only file of two lines: the tokens of its
    second line are tokens of the file, and they are not in the list. *)
Lemma order_only_second_line_dropped :
  (self ← __init__ "pkg"
     (dir_with_dependencies (Some "foo bar | baz") None
        (Some ("qux" ++ nl ++ "quux")));
   Ok (dependencies_order_only self)) = Ok ["baz"; "qux"]
  /\ (Py.split "baz" ++ Py.split ("qux" ++ nl ++ "quux"))%list
     = ["baz"; "qux"; "quux"].
Proof. split; reflexivity. Qed.

(** C1 fails on the code.  [dependencies_check] returns the tokens of the
    first line of the order-only file; what [_init_dependencies] read from
    the check-dependencies file is stored and never used.  With the check
    file [a] and the order-only file [b] the accessor gives [b], and it
    gives [b] as well when there is no check file. *)
Theorem dependencies_check_reads_order_only :
  (forall (name : string) (dir : PackageDir),
      match __init__ name dir with
      | Ok self =>
          dependencies_check self
          = Py.split (first_line (dependencies_order_only_file dir))
      | Raise _ => True
      end)
  /\ (self ← __init__ "pkg" (dir_with_dependencies None (Some "a") (Some "b"));
      Ok (__dependencies_check self, dependencies_check self))
     = Ok ("a", ["b"])
  /\ (self ← __init__ "pkg" (dir_with_dependencies None None (Some "b"));
      Ok (dependencies_check self)) = Ok ["b"].
Proof.
  split; [| split; reflexivity].
  intros name dir. destruct (__init__ name dir) as [self|e] eqn:Hinit; [| exact I].
  destruct (init_dependencies name dir self Hinit) as (_ & _ & Ho).
  unfold dependencies_check. now rewrite Ho, split_strip.
Qed.

(** C10.  Only the first line of the files [dependencies],
    [dependencies_check] and [dependencies_order_only] is read: two package
    directories that differ only after the first line of these files load
    the same package, and so the three dependency accessors agree. *)
Theorem only_first_line_is_read
  (name : string) (dir : PackageDir) (d d' c c' o o' : option string) :
  first_line d = first_line d' ->
  first_line c = first_line c' ->
  first_line o = first_line o' ->
  __init__ name (with_dependency_files dir d c o)
  = __init__ name (with_dependency_files dir d' c' o')
  /\ forall self self' : Package,
       __init__ name (with_dependency_files dir d c o) = Ok self ->
       __init__ name (with_dependency_files dir d' c' o') = Ok self' ->
       dependencies self = dependencies self'
       /\ dependencies_check self = dependencies_check self'
       /\ dependencies_order_only self = dependencies_order_only self'.
Proof.
  intros Hd Hc Ho.
  assert (E : __init__ name (with_dependency_files dir d c o)
              = __init__ name (with_dependency_files dir d' c' o')).
  { unfold __init__. rewrite !init_dependencies_first_line. cbn.
    now rewrite Hd, Hc, Ho. }
  split; [exact E |].
  intros self self' H H'. rewrite E in H. rewrite H in H'.
  injection H' as ->. auto.
Qed.

Lemma only_first_line_is_read_witness :
  __init__ "pkg"
    (with_dependency_files (dir_with_version "1.0")
       (Some ("a | b" ++ nl ++ "c")) None (Some ("x" ++ nl ++ "y")))
  = __init__ "pkg"
      (with_dependency_files (dir_with_version "1.0")
         (Some ("a | b" ++ nl)) (Some "") (Some ("x" ++ nl ++ "z z"))).
Proof.
  apply (only_first_line_is_read "pkg" (dir_with_version "1.0")); reflexivity.
Defined.

(** ** Facts about the version parser *)

Section DigitFacts.

Lemma isdigit_cases (d : ascii) :
  Py.isdigit d = true -> In d (list_ascii_of_string "0123456789").
Proof.
  destruct d as [[] [] [] [] [] [] [] []]; intros H;
    try discriminate H; simpl; auto 11.
Qed.

Lemma isdigit_not_LF (d : ascii) :
  Py.isdigit d = true -> Ascii.eqb d Py.LF = false /\ Ascii.eqb d "." = false.
Proof.
  intros H. apply isdigit_cases in H. simpl in H.
  repeat (destruct H as [<- | H]; [split; reflexivity |]). destruct H.
Qed.

Lemma isdigit_marker (d : ascii) :
  Py.isdigit d = true ->
  In (String "." (String "p" (String d ""))) patch_markers.
Proof.
  intros H. unfold patch_markers.
  apply (in_map (fun d => String "." (String "p" (String d "")))).
  now apply isdigit_cases.
Qed.

Lemma marker_isdigit (m : string) :
  In m patch_markers ->
  exists d, m = String "." (String "p" (String d "")) /\ Py.isdigit d = true.
Proof.
  unfold patch_markers. intros H. apply in_map_iff in H as (d & <- & Hd).
  exists d. split; [reflexivity |]. simpl in Hd.
  repeat (destruct Hd as [<- | Hd]; [reflexivity |]). destruct Hd.
Qed.

Lemma all_digits_append (a b : string) :
  all_digits (a ++ b) = all_digits a && all_digits b.
Proof.
  induction a as [|c a IH]; simpl; [reflexivity |].
  now rewrite IH, andb_assoc.
Qed.

Lemma digits_star_digits (s : string) : all_digits (Py.digits_star s) = true.
Proof.
  induction s as [|c s IH]; simpl; [reflexivity |].
  destruct (Py.isdigit c) eqn:E; simpl; [now rewrite E | reflexivity].
Qed.

Lemma digits_star_split (s : string) :
  exists rest, s = Py.digits_star s ++ rest /\ Py.digits_star rest = "".
Proof.
  induction s as [|c s (rest & Hs & Hr)]; simpl.
  - exists "". split; reflexivity.
  - destruct (Py.isdigit c) eqn:E.
    + exists rest. simpl. now rewrite <- Hs.
    + exists (String c s). simpl. now rewrite E.
Qed.

Lemma digits_star_append (D rest : string) :
  all_digits D = true -> Py.digits_star rest = "" ->
  Py.digits_star (D ++ rest) = D.
Proof.
  intros HD Hr. induction D as [|c D IH]; simpl in *; [exact Hr |].
  apply andb_true_iff in HD as [Hc HD]. now rewrite Hc, IH.
Qed.

Lemma count_LF_digits (D : string) :
  all_digits D = true -> Py.count Py.LF D = 0.
Proof.
  induction D as [|c D IH]; simpl; [reflexivity |]. intros H.
  apply andb_true_iff in H as [Hc HD].
  destruct (isdigit_not_LF c Hc) as [-> _]. now rewrite IH.
Qed.

(** [int] and [str] on digit strings. *)
Lemma uint_of_digits (s : string) :
  all_digits s = true -> exists d, NilEmpty.uint_of_string s = Some d.
Proof.
  induction s as [|c s IH]; simpl; [eauto |]. intros H.
  apply andb_true_iff in H as [Hc Hs]. destruct (IH Hs) as [d ->].
  apply isdigit_cases in Hc. simpl in Hc.
  repeat (destruct Hc as [<- | Hc]; [simpl; eauto |]). destruct Hc.
Qed.

Lemma str_int (s : string) (d : Decimal.uint) :
  NilEmpty.uint_of_string s = Some d ->
  Py.str (Py.int s) = NilZero.string_of_uint (Decimal.unorm d).
Proof.
  intros H. unfold Py.str, Py.int. rewrite H.
  change (Z.of_uint d) with (Z.of_int (Decimal.Pos d)).
  now rewrite DecimalZ.to_of.
Qed.

Lemma string_of_uint_digits (d : Decimal.uint) :
  all_digits (NilZero.string_of_uint d) = true.
Proof.
  assert (H : all_digits (NilEmpty.string_of_uint d) = true)
    by (induction d; simpl; auto).
  destruct d; simpl in *; auto.
Qed.

Lemma str_int_digits (s : string) :
  all_digits s = true -> all_digits (Py.str (Py.int s)) = true.
Proof.
  intros H. destruct (uint_of_digits s H) as [d Hd].
  rewrite (str_int s d Hd). apply string_of_uint_digits.
Qed.

(** A digit string without needless leading zeros is what [str] prints. *)
Lemma str_int_canonical (s : string) :
  s <> "" -> all_digits s = true ->
  s = "0" \/ Py.startswith "0" s = false ->
  Py.str (Py.int s) = s.
Proof.
  intros Hne Hs Hc. destruct (uint_of_digits s Hs) as [d Hd].
  rewrite (str_int s d Hd).
  assert (Hn : Decimal.unorm d = d).
  { destruct Hc as [-> | Hc].
    - injection Hd as <-. reflexivity.
    - destruct s as [|c s]; [congruence |]. simpl in Hd.
      destruct (NilEmpty.uint_of_string s) as [d0|]; [| discriminate].
      apply uint_of_char_spec in Hd.
      destruct Hd as [[-> _] | Hd]; [discriminate Hc |].
      repeat (destruct Hd as [[_ ->] | Hd]; [reflexivity |]).
      destruct Hd as [_ ->]. reflexivity. }
  rewrite Hn. apply NilZero.sus.
  destruct s; [congruence | exact Hd].
Qed.

End DigitFacts.

Section VersionMatchFacts.

Lemma startswith_dot_star (m s : string) :
  Py.startswith m (Py.dot_star s) = true -> Py.startswith m s = true.
Proof.
  revert m; induction s as [|c s IH]; intros [|a m]; simpl; try easy.
  destruct (Ascii.eqb c Py.LF); simpl; [discriminate |].
  intros H. apply andb_true_iff in H as [-> H]. now apply IH.
Qed.

Lemma startswith_in_dot_star (m s : string) :
  Py.count Py.LF m = 0 ->
  Py.startswith m s = true -> Py.startswith m (Py.dot_star s) = true.
Proof.
  revert s; induction m as [|a m IH]; intros [|c s]; simpl; try easy.
  intros Hm H. apply andb_true_iff in H as [Hac H].
  apply Ascii.eqb_eq in Hac. subst c.
  destruct (Ascii.eqb a Py.LF); [lia |]. simpl.
  rewrite Ascii.eqb_refl. now apply IH.
Qed.

Lemma marker_no_LF (m : string) : In m patch_markers -> Py.count Py.LF m = 0.
Proof.
  intros Hm. destruct (marker_isdigit m Hm) as (d & -> & Hd).
  destruct (isdigit_not_LF d Hd) as [Hlf _]. simpl. now rewrite Hlf.
Qed.

Lemma patchlevel_here_marker (s : string) :
  patchlevel_here s = None <->
  forall m, In m patch_markers -> Py.startswith m s = false.
Proof.
  split.
  - intros H m Hm. destruct (marker_isdigit m Hm) as (d & -> & Hd).
    destruct (Py.startswith _ s) eqn:Es; [exfalso | reflexivity].
    apply startswith_split in Es.
    set (rest := Py.drop _ s) in Es. clearbody rest. subst s.
    cbn in H. rewrite Hd in H. discriminate.
  - intros H. destruct s as [|a [|b [|d rest]]]; try reflexivity.
    cbn [patchlevel_here].
    destruct (Ascii.eqb a "." && Ascii.eqb b "p" && Py.isdigit d) eqn:E;
      [| reflexivity].
    apply andb_true_iff in E as [E Hd]. apply andb_true_iff in E as [Ea Eb].
    apply Ascii.eqb_eq in Ea, Eb. subst.
    specialize (H _ (isdigit_marker d Hd)).
    pose proof (startswith_append (String "." (String "p" (String d ""))) rest) as Hs.
    cbn [String.append] in Hs. congruence.
Qed.

Lemma no_patch_marker_cons (c : ascii) (s : string) :
  no_patch_marker (String c s) = true <->
  (forall m, In m patch_markers -> Py.startswith m (String c s) = false)
  /\ no_patch_marker s = true.
Proof.
  unfold no_patch_marker. rewrite !List.forallb_forall. split.
  - intros H. split; intros m Hm; specialize (H m Hm);
      cbn [Py.contains] in H; apply negb_true_iff in H;
      apply orb_false_iff in H as [H1 H2]; [exact H1 |].
    now apply negb_true_iff.
  - intros [H1 H2] m Hm. cbn [Py.contains].
    rewrite (H1 m Hm). exact (H2 m Hm).
Qed.

(** The pattern matches exactly when the first line holds a marker. *)
Lemma match_none_iff (s : string) :
  VERSION_PATCHLEVEL_match s = None <-> no_patch_marker (Py.dot_star s) = true.
Proof.
  induction s as [|c s IH]; [split; reflexivity |].
  cbn [VERSION_PATCHLEVEL_match Py.dot_star].
  destruct (Ascii.eqb c Py.LF) eqn:Ec; [split; reflexivity |].
  rewrite no_patch_marker_cons, <- IH.
  destruct (VERSION_PATCHLEVEL_match s) as [[v pl]|].
  - split; [discriminate | intros [_ H]; discriminate].
  - assert (Hd : Py.dot_star (String c s) = String c (Py.dot_star s))
      by (simpl; now rewrite Ec).
    split.
    + destruct (patchlevel_here (String c s)) eqn:Eh; [discriminate |].
      intros _. split; [| reflexivity]. intros m Hm.
      destruct (Py.startswith m (String c (Py.dot_star s))) eqn:Es;
        [| reflexivity].
      rewrite <- Hd in Es. apply startswith_dot_star in Es.
      apply patchlevel_here_marker with (m := m) in Eh; congruence.
    + intros [H _].
      assert (Eh : patchlevel_here (String c s) = None).
      { apply patchlevel_here_marker. intros m Hm.
        destruct (Py.startswith m (String c s)) eqn:Es; [| reflexivity].
        apply startswith_in_dot_star in Es; [| now apply marker_no_LF].
        rewrite Hd, (H m Hm) in Es. discriminate. }
      now rewrite Eh.
Qed.

Lemma match_skips (x y : string) :
  Py.count Py.LF x = 0 ->
  VERSION_PATCHLEVEL_match (x ++ y) = None ->
  VERSION_PATCHLEVEL_match y = None.
Proof.
  induction x as [|c x IH]; simpl; intros Hx H; [exact H |].
  destruct (Ascii.eqb c Py.LF); [lia |].
  destruct (VERSION_PATCHLEVEL_match (x ++ y)) as [[v pl]|];
    [discriminate | now apply IH].
Qed.

Lemma match_digits (D rest : string) :
  all_digits D = true ->
  VERSION_PATCHLEVEL_match rest = None ->
  VERSION_PATCHLEVEL_match (D ++ rest) = None.
Proof.
  intros HD Hr. induction D as [|c D IH]; [exact Hr |].
  simpl in HD. apply andb_true_iff in HD as [Hc HD].
  destruct (isdigit_not_LF c Hc) as [Hlf Hdot].
  cbn [String.append VERSION_PATCHLEVEL_match]. rewrite Hlf, (IH HD).
  unfold patchlevel_here. destruct (D ++ rest) as [|b [|d r]]; try reflexivity.
  now rewrite Hdot.
Qed.

(** The match on [v.pD] followed by a rest that holds no later match. *)
Lemma match_found (v D rest : string) :
  Py.count Py.LF v = 0 -> D <> "" -> all_digits D = true ->
  Py.digits_star rest = "" ->
  VERSION_PATCHLEVEL_match rest = None ->
  VERSION_PATCHLEVEL_match (v ++ ".p" ++ D ++ rest) = Some (v, D).
Proof.
  intros Hv Hne HD Hrest Hnone.
  induction v as [|c v IH].
  - destruct D as [|d D]; [congruence |].
    simpl in HD. apply andb_true_iff in HD as [Hd HD].
    assert (Hp : VERSION_PATCHLEVEL_match ("p" ++ String d D ++ rest) = None).
    { change ("p" ++ String d D ++ rest) with (String "p" (String d D ++ rest)).
      cbn [VERSION_PATCHLEVEL_match].
      rewrite (match_digits (String d D) rest); [| simpl; now rewrite Hd | exact Hnone].
      simpl. destruct (D ++ rest); reflexivity. }
    change ("" ++ ".p" ++ String d D ++ rest)
      with (String "." ("p" ++ String d D ++ rest)).
    cbn [VERSION_PATCHLEVEL_match]. rewrite Hp. simpl.
    now rewrite Hd, (digits_star_append D rest HD Hrest).
  - simpl in Hv.
    change (String c v ++ ".p" ++ D ++ rest)
      with (String c (v ++ ".p" ++ D ++ rest)).
    cbn [VERSION_PATCHLEVEL_match].
    destruct (Ascii.eqb c Py.LF); [lia |].
    now rewrite IH by lia.
Qed.

(** What a match looks like. *)
Lemma match_shape (s : string) : forall v D : string,
  VERSION_PATCHLEVEL_match s = Some (v, D) ->
  exists rest,
    s = v ++ ".p" ++ D ++ rest /\ Py.count Py.LF v = 0 /\
    D <> "" /\ all_digits D = true /\ Py.digits_star rest = "" /\
    no_patch_marker (Py.dot_star rest) = true.
Proof.
  induction s as [|c s IH]; intros v D H; [discriminate |].
  cbn [VERSION_PATCHLEVEL_match] in H.
  destruct (Ascii.eqb c Py.LF) eqn:Ec; [discriminate |].
  destruct (VERSION_PATCHLEVEL_match s) as [[v' D']|] eqn:Em.
  - injection H as <- <-.
    destruct (IH v' D' eq_refl) as (rest & -> & Hv & Hrest).
    exists rest. split; [reflexivity |]. split; [| exact Hrest].
    simpl. now rewrite Ec.
  - destruct (patchlevel_here (String c s)) as [pl|] eqn:Eh; [| discriminate].
    injection H as <- <-.
    destruct s as [|b [|d rest0]]; try discriminate Eh. simpl in Eh.
    destruct (Ascii.eqb c "." && Ascii.eqb b "p" && Py.isdigit d) eqn:E;
      [| discriminate].
    injection Eh as <-.
    apply andb_true_iff in E as [E Hd]. apply andb_true_iff in E as [Ea Eb].
    apply Ascii.eqb_eq in Ea, Eb. subst c b.
    destruct (digits_star_split rest0) as (rest & Hsplit & Hrest).
    exists rest. repeat split.
    + simpl. now rewrite <- Hsplit.
    + discriminate.
    + simpl. now rewrite Hd, digits_star_digits.
    + exact Hrest.
    + apply match_none_iff.
      apply (match_skips (String "p" (String d (Py.digits_star rest0)))).
      * simpl. destruct (isdigit_not_LF d Hd) as [-> _].
        now rewrite count_LF_digits by apply digits_star_digits.
      * simpl. now rewrite <- Hsplit.
Qed.

Lemma append_cancel (a x y : string) : a ++ x = a ++ y -> x = y.
Proof.
  induction a as [|c a IH]; simpl; [easy |]. intros H. injection H as H.
  now apply IH.
Qed.

(** Once text follows the digits, formatting gives another string. *)
Lemma format_loses_rest (v D rest : string) :
  all_digits D = true -> Py.digits_star rest = "" -> rest <> "" ->
  format_version v (Py.int D) <> v ++ ".p" ++ D ++ rest.
Proof.
  intros HD Hrest Hne H. unfold format_version in H.
  apply append_cancel in H.
  change (".p" ++ Py.str (Py.int D)) with (String "." (String "p" (Py.str (Py.int D)))) in H.
  change (".p" ++ D ++ rest) with (String "." (String "p" (D ++ rest))) in H.
  injection H as H.
  pose proof (str_int_digits D HD) as Hall.
  rewrite H, all_digits_append, HD in Hall.
  destruct rest as [|r rest]; [congruence |]. simpl in *.
  destruct (Py.isdigit r); discriminate.
Qed.

End VersionMatchFacts.

(** ** Results on the version parser *)

(** C6, as amended.  For a version without a line feed and a digit string
    [N] that is [0] or does not start with [0], parsing [version.pN] gives
    [(version, N)] and formatting the pair gives the string back.  For a
    string whose first line holds none of [.p0] to [.p9], parsing gives the
    string itself and the patchlevel [-1]. *)
Theorem version_patchlevel_roundtrip :
  (forall v N : string,
      Py.count Py.LF v = 0 ->
      N <> "" -> all_digits N = true ->
      N = "0" \/ Py.startswith "0" N = false ->
      parse_version (v ++ ".p" ++ N) = (v, Py.int N)
      /\ format_version v (Py.int N) = v ++ ".p" ++ N)
  /\ (forall s : string,
        no_patch_marker (Py.dot_star s) = true ->
        parse_version s = (s, (-1)%Z)).
Proof.
  split.
  - intros v N Hv Hne HN Hcanon.
    pose proof (match_found v N "" Hv Hne HN eq_refl eq_refl) as Hm.
    rewrite append_empty_r in Hm.
    unfold parse_version, format_version. rewrite Hm.
    split; [reflexivity |]. now rewrite str_int_canonical.
  - intros s Hs. unfold parse_version.
    now rewrite (proj2 (match_none_iff s) Hs).
Qed.

Lemma version_patchlevel_roundtrip_witness :
  (parse_version ("3.11.2" ++ ".p" ++ "10") = ("3.11.2", Py.int "10")
   /\ format_version "3.11.2" (Py.int "10") = "3.11.2" ++ ".p" ++ "10")
  /\ parse_version "3.11.2.pre" = ("3.11.2.pre", (-1)%Z).
Proof.
  split.
  - apply (proj1 version_patchlevel_roundtrip "3.11.2" "10").
    + reflexivity.
    + discriminate.
    + reflexivity.
    + right. reflexivity.
  - apply (proj2 version_patchlevel_roundtrip "3.11.2.pre"). reflexivity.
Defined.

(** C6 as stated fails: a patchlevel written with a leading zero is not
    printed back; a string that does not end in a patchlevel suffix but
    holds one further left gets that patchlevel, not [-1]; and a version
    that runs over a line feed is not split at all. *)
Lemma version_patchlevel_roundtrip_fails :
  (let '(version, patchlevel) := parse_version "1.2.p03" in
   format_version version patchlevel) = "1.2.p3"
  /\ parse_version "1.2.p3xyz" = ("1.2", 3%Z)
  /\ (let '(version, patchlevel) := parse_version ("1" ++ nl ++ "2.p3") in
      format_version version patchlevel) = "1" ++ nl ++ "2.p3.p-1".
Proof. repeat split. Qed.

(** C9, as amended.  The pattern is not anchored at the end.  Whenever the
    first line of the input holds [.p] and a digit, the match succeeds: the
    input is [v.pD] followed by a rest, where [v] holds no line feed, so
    that [.pD] lies in the first line, [D] is a full run of digits and the
    first line of the rest holds no further [.p] and digit; this is the only
    such way to cut the input.  The version is [v], the patchlevel is [D],
    and the rest is dropped, so that formatting the pair does not give the
    input back when the rest is not empty.  [1.2.p3xyz] parses to [1.2] and
    [3]. *)
Theorem patchlevel_pattern_not_anchored :
  (forall s m : string,
      In m patch_markers -> Py.contains m (Py.dot_star s) = true ->
      exists v D rest : string,
        s = v ++ ".p" ++ D ++ rest
        /\ Py.count Py.LF v = 0
        /\ D <> "" /\ all_digits D = true /\ Py.digits_star rest = ""
        /\ no_patch_marker (Py.dot_star rest) = true
        /\ (forall v' D' rest' : string,
              s = v' ++ ".p" ++ D' ++ rest' ->
              Py.count Py.LF v' = 0 ->
              D' <> "" -> all_digits D' = true -> Py.digits_star rest' = "" ->
              no_patch_marker (Py.dot_star rest') = true ->
              v' = v /\ D' = D /\ rest' = rest)
        /\ parse_version s = (v, Py.int D)
        /\ (rest <> "" -> format_version v (Py.int D) <> s))
  /\ parse_version "1.2.p3xyz" = ("1.2", 3%Z)
  /\ format_version "1.2" 3 = "1.2.p3".
Proof.
  split; [| split; reflexivity].
  intros s m Hm Hc.
  destruct (VERSION_PATCHLEVEL_match s) as [[v D]|] eqn:E.
  - destruct (match_shape s v D E) as (rest & Hs & Hv & Hne & HD & Hrest & Hlast).
    exists v, D, rest.
    split; [exact Hs |]. split; [exact Hv |]. split; [exact Hne |].
    split; [exact HD |]. split; [exact Hrest |]. split; [exact Hlast |].
    split; [| split].
    + intros v' D' rest' Hs' Hv' Hne' HD' Hrest' Hlast'.
      pose proof (match_found v' D' rest' Hv' Hne' HD' Hrest'
                    (proj2 (match_none_iff rest') Hlast')) as Hm'.
      rewrite <- Hs', E in Hm'. injection Hm' as <- <-.
      split; [reflexivity |]. split; [reflexivity |].
      rewrite Hs' in Hs. apply append_cancel in Hs.
      change (".p" ++ D ++ rest') with (String "." (String "p" (D ++ rest'))) in Hs.
      change (".p" ++ D ++ rest) with (String "." (String "p" (D ++ rest))) in Hs.
      injection Hs as Hs. now apply append_cancel in Hs.
    + unfold parse_version. now rewrite E.
    + intros Hr. rewrite Hs. now apply format_loses_rest.
  - apply match_none_iff in E. unfold no_patch_marker in E.
    rewrite List.forallb_forall in E. specialize (E m Hm).
    rewrite Hc in E. discriminate.
Qed.

Lemma patchlevel_pattern_not_anchored_witness :
  exists v D rest : string,
    "2.0.p12-beta.p" = v ++ ".p" ++ D ++ rest
    /\ Py.count Py.LF v = 0
    /\ D <> "" /\ all_digits D = true /\ Py.digits_star rest = ""
    /\ no_patch_marker (Py.dot_star rest) = true
    /\ (forall v' D' rest' : string,
          "2.0.p12-beta.p" = v' ++ ".p" ++ D' ++ rest' ->
          Py.count Py.LF v' = 0 ->
          D' <> "" -> all_digits D' = true -> Py.digits_star rest' = "" ->
          no_patch_marker (Py.dot_star rest') = true ->
          v' = v /\ D' = D /\ rest' = rest)
    /\ parse_version "2.0.p12-beta.p" = (v, Py.int D)
    /\ (rest <> "" -> format_version v (Py.int D) <> "2.0.p12-beta.p").
Proof.
  apply (proj1 patchlevel_pattern_not_anchored "2.0.p12-beta.p" ".p1").
  - right. left. reflexivity.
  - reflexivity.
Defined.

(** C9 as stated fails when a line feed comes before the suffix: the input
    holds [.p3] followed by more text, and yet no match is found. *)
Lemma patchlevel_pattern_stops_at_line_feed :
  Py.contains ".p3x" ("a" ++ nl ++ "b.p3x") = true
  /\ VERSION_PATCHLEVEL_match ("a" ++ nl ++ "b.p3x") = None
  /\ parse_version ("a" ++ nl ++ "b.p3x") = ("a" ++ nl ++ "b.p3x", (-1)%Z).
Proof. repeat split. Qed.

(** ** Results on the key-value reader *)

Section ChecksumFacts.

(** The lines the pattern matches: a run of variable characters, an
    equals sign, and the value up to the end of the line. *)
Lemma assignment_match_shape (line var value : string) :
  assignment_match line = Some (var, value) <->
  all_var_chars var = true /\
  exists rest, line = var ++ "=" ++ rest /\ value = Py.dot_star rest.
Proof.
  revert var; induction line as [|c line IH]; intros var.
  - split; [discriminate |]. intros [_ (rest & H & _)].
    destruct var; discriminate H.
  - cbn [assignment_match]. destruct (Ascii.eqb c "=") eqn:Ec.
    + apply Ascii.eqb_eq in Ec. subst c. split.
      * intros H. injection H as <- <-. split; [reflexivity |].
        exists line. split; reflexivity.
      * intros [Hvar (rest & H & ->)]. destruct var as [|a var].
        -- injection H as <-. reflexivity.
        -- injection H as <- _. discriminate Hvar.
    + destruct (is_var_char c) eqn:Ev.
      * split.
        -- destruct (assignment_match line) as [[var' value']|] eqn:E;
             [| discriminate].
           intros H. injection H as <- <-.
           destruct (proj1 (IH var') eq_refl) as [Hvar (rest & -> & ->)].
           split; [unfold all_var_chars; simpl; now rewrite Ev |].
           exists rest. split; reflexivity.
        -- intros [Hvar (rest & H & ->)]. destruct var as [|a var].
           ++ injection H as -> _. rewrite Ascii.eqb_refl in Ec. discriminate.
           ++ injection H as <- ->.
              unfold all_var_chars in Hvar. simpl in Hvar.
              apply andb_true_iff in Hvar as [_ Hvar].
              rewrite (proj2 (IH var)); [reflexivity |].
              split; [exact Hvar |]. exists rest. split; reflexivity.
      * split; [discriminate |]. intros [Hvar (rest & H & _)].
        destruct var as [|a var].
        -- injection H as -> _. rewrite Ascii.eqb_refl in Ec. discriminate.
        -- injection H as <- _. unfold all_var_chars in Hvar. simpl in Hvar.
           rewrite Ev in Hvar. discriminate.
Qed.

Lemma checksum_lines_app (lines1 lines2 : list string) :
  checksum_lines (lines1 ++ lines2)
  = fold_left checksum_line lines2 (checksum_lines lines1).
Proof. unfold checksum_lines. apply fold_left_app. Qed.

(** Lines that do not assign [var] leave its entry as it is. *)
Lemma fold_checksum_other (var : string) (lines : list string) :
  forall result : gmap string string,
    (forall l value, In l lines -> assignment_match l <> Some (var, value)) ->
    fold_left checksum_line lines result !! var = result !! var.
Proof.
  induction lines as [|l lines IH]; intros result H; [reflexivity |].
  cbn [fold_left]. rewrite IH.
  - unfold checksum_line.
    destruct (assignment_match l) as [[k v]|] eqn:E; [| reflexivity].
    apply lookup_insert_ne. intros ->. apply (H l v); [now left | exact E].
  - intros l' value Hin. apply H. now right.
Qed.

End ChecksumFacts.

(** C8.  The pattern of the reader matches the lines made of a run of
    variable characters, an equals sign and the rest of the line.  The
    reader of [checksums.ini] skips a line that the pattern does not
    match, such as [# comment] or [justtext]; the value
    kept for a variable is the one of the last line that assigns it, so
    that [md5=aaa] followed by [md5=bbb] gives [bbb]; and a file that does
    not exist gives the empty mapping. *)
Theorem checksum_reader_last_wins :
  (forall line var value : string,
      assignment_match line = Some (var, value) <->
      all_var_chars var = true /\
      exists rest, line = var ++ "=" ++ rest /\ value = Py.dot_star rest)
  /\ (forall (lines1 lines2 : list string) (line : string),
      assignment_match line = None ->
      checksum_lines (lines1 ++ line :: lines2) = checksum_lines (lines1 ++ lines2))
  /\ (forall (lines1 lines2 : list string) (line var value : string),
        assignment_match line = Some (var, value) ->
        (forall l value', In l lines2 -> assignment_match l <> Some (var, value')) ->
        checksum_lines (lines1 ++ line :: lines2) !! var = Some value)
  /\ checksum_result None = ∅
  /\ assignment_match "# comment" = None
  /\ assignment_match "justtext" = None
  /\ checksum_result (Some ("md5=aaa" ++ nl ++ "md5=bbb")) !! "md5" = Some "bbb"
  /\ checksum_result
       (Some ("# comment" ++ nl ++ "md5=aaa" ++ nl ++ "justtext" ++ nl
              ++ "md5=bbb" ++ nl)) !! "md5" = Some "bbb"
  /\ (self ← __init__ "pkg"
         (dir_with_checksums ("# comment" ++ nl ++ "md5=aaa" ++ nl ++ "md5=bbb") None);
       Ok (__md5 self, __sha1 self)) = Ok (Some "bbb", None).
Proof.
  split; [| split; [| split; [| repeat split]]].
  - exact assignment_match_shape.
  - intros lines1 lines2 line H.
    rewrite !checksum_lines_app. cbn [fold_left].
    unfold checksum_line at 2. now rewrite H.
  - intros lines1 lines2 line var value H Hlater.
    rewrite checksum_lines_app. cbn [fold_left].
    rewrite fold_checksum_other by exact Hlater.
    unfold checksum_line. rewrite H. apply lookup_insert_eq.
Qed.

Lemma checksum_reader_last_wins_witness :
  checksum_lines (["sha1=x"] ++ "# comment" :: ["md5=y"])
  = checksum_lines (["sha1=x"] ++ ["md5=y"])
  /\ checksum_lines (["md5=aaa"] ++ "md5=bbb" :: ["sha1=x"; "justtext"]) !! "md5"
     = Some "bbb".
Proof.
  split.
  - apply (proj1 (proj2 checksum_reader_last_wins)). reflexivity.
  - apply (proj1 (proj2 (proj2 checksum_reader_last_wins))); [reflexivity |].
    intros l value' [<- | [<- | []]]; discriminate.
Defined.

(** ** Results on the tarball accessors *)

Section Resolve.

Variables (self : Package) (fuel : nat).

Lemma resolve_none (pattern : option string) :
  resolve fuel self pattern = Some (Ok None) <->
  pattern = None \/ pattern = Some "".
Proof.
  unfold resolve. destruct pattern as [[|c p]|]; simpl.
  - split; auto.
  - destruct (_substitute_variables (getattr self) fuel (String c p))
      as [[out|e]|]; split; try discriminate; intros [H | H]; discriminate.
  - split; auto.
Qed.

Lemma resolve_some (p out : string) :
  p <> "" ->
  resolve fuel self (Some p) = Some (Ok (Some out)) <->
  _substitute_variables (getattr self) fuel p = Some (Ok out).
Proof.
  intros Hp. unfold resolve. destruct p as [|c p]; [congruence |]. simpl.
  destruct (_substitute_variables (getattr self) fuel (String c p))
    as [[out'|e]|]; split; intros H; try discriminate; congruence.
Qed.

Lemma resolve_raise (p : string) (e : exn) :
  p <> "" ->
  resolve fuel self (Some p) = Some (Raise e) <->
  _substitute_variables (getattr self) fuel p = Some (Raise e).
Proof.
  intros Hp. unfold resolve. destruct p as [|c p]; [congruence |]. simpl.
  destruct (_substitute_variables (getattr self) fuel (String c p))
    as [[out'|e']|]; split; intros H; try discriminate; congruence.
Qed.

Lemma resolve_contract (pattern : option string) :
  (resolve fuel self pattern = Some (Ok None) <->
   pattern = None \/ pattern = Some "")
  /\ (forall p : string,
        pattern = Some p -> p <> "" ->
        (forall out,
            resolve fuel self pattern = Some (Ok (Some out)) <->
            _substitute_variables (getattr self) fuel p = Some (Ok out))
        /\ (forall e,
              resolve fuel self pattern = Some (Raise e) <->
              _substitute_variables (getattr self) fuel p = Some (Raise e))
        /\ (forall out,
              resolve fuel self pattern = Some (Ok (Some out)) ->
              rtc (replaces (getattr self)) p out /\ no_token out)).
Proof.
  split; [apply resolve_none |].
  intros p -> Hne. split; [| split].
  - intros out. now apply resolve_some.
  - intros e. now apply resolve_raise.
  - intros out H. apply resolve_some in H; [| exact Hne].
    now apply (loop_sound (getattr self)) in H.
Qed.

End Resolve.

(** C7, as amended.  [tarball_filename] returns [None] exactly when no
    tarball pattern is recorded or the recorded pattern is the empty string.
    For any other pattern it returns what the substitution of the pattern
    returns, a string without token spellings, and fails when the
    substitution fails; it does return a string when the version has three
    components and lacks a letter of the word VERSION.  The same holds of
    [tarball_upstream_url] and the URL pattern. *)
Theorem tarball_accessors_resolve :
  Forall
    (fun '(accessor, pattern_of) =>
       forall self : Package,
         (forall fuel,
             accessor fuel self = Some (Ok None) <->
             pattern_of self = None \/ pattern_of self = Some "")
         /\ (forall p : string,
               pattern_of self = Some p -> p <> "" ->
               (forall fuel out,
                   accessor fuel self = Some (Ok (Some out)) <->
                   _substitute_variables (getattr self) fuel p = Some (Ok out))
               /\ (forall fuel e,
                     accessor fuel self = Some (Raise e) <->
                     _substitute_variables (getattr self) fuel p = Some (Raise e))
               /\ (forall fuel out,
                     accessor fuel self = Some (Ok (Some out)) ->
                     rtc (replaces (getattr self)) p out /\ no_token out)
               /\ (forall v c,
                     version self = Some v ->
                     3 <= List.length (Py.split_char "." v) ->
                     In c VERSION_letters -> Py.count c v = 0 ->
                     exists fuel out, accessor fuel self = Some (Ok (Some out)))))
    [(tarball_filename, tarball_pattern);
     (tarball_upstream_url, tarball_upstream_url_pattern)].
Proof.
  assert (H : forall (self : Package) (pattern : option string),
    (forall fuel,
        resolve fuel self pattern = Some (Ok None) <->
        pattern = None \/ pattern = Some "")
    /\ (forall p : string,
          pattern = Some p -> p <> "" ->
          (forall fuel out,
              resolve fuel self pattern = Some (Ok (Some out)) <->
              _substitute_variables (getattr self) fuel p = Some (Ok out))
          /\ (forall fuel e,
                resolve fuel self pattern = Some (Raise e) <->
                _substitute_variables (getattr self) fuel p = Some (Raise e))
          /\ (forall fuel out,
                resolve fuel self pattern = Some (Ok (Some out)) ->
                rtc (replaces (getattr self)) p out /\ no_token out)
          /\ (forall v c,
                version self = Some v ->
                3 <= List.length (Py.split_char "." v) ->
                In c VERSION_letters -> Py.count c v = 0 ->
                exists fuel out,
                  resolve fuel self pattern = Some (Ok (Some out))))).
  { intros self pattern. split.
    - intros fuel. apply resolve_contract.
    - intros p Hp Hne. split; [| split; [| split]].
      + intros fuel. now apply (proj2 (resolve_contract self fuel pattern) p).
      + intros fuel. now apply (proj2 (resolve_contract self fuel pattern) p).
      + intros fuel. now apply (proj2 (resolve_contract self fuel pattern) p).
      + intros v c Hv Hlen Hc Hcount.
        destruct (package_substitution_returns self v Hv c p Hlen Hc Hcount)
          as (n & out & Hn & _).
        exists n, out.
        apply (proj2 (resolve_contract self n pattern) p Hp Hne).
        apply Hn. lia. }
  constructor; [| constructor; [| constructor]]; intros self; apply H.
Qed.

Lemma tarball_accessors_resolve_witness :
  exists self,
    __init__ "pkg"
      (dir_with_checksums ("tarball=pkg-VERSION.tar.gz" ++ nl ++ "sha1=da39a3ee" ++ nl)
         (Some ("3.11.2.p0" ++ nl))) = Ok self
    /\ exists fuel out, tarball_filename fuel self = Some (Ok (Some out)).
Proof.
  eexists. split; [reflexivity |].
  apply (proj2 (Forall_inv tarball_accessors_resolve _) "pkg-VERSION.tar.gz")
    with (v := "3.11.2") (c := "V"%char).
  - reflexivity.
  - discriminate.
  - reflexivity.
  - simpl. lia.
  - left. reflexivity.
  - reflexivity.
Defined.

(** C7 as stated fails on an empty pattern: the line [tarball=] records
    the empty string as the pattern, and [tarball_filename] returns [None]. *)
Lemma empty_tarball_pattern_gives_none :
  (self ← __init__ "pkg"
     (dir_with_checksums ("tarball=" ++ nl ++ "upstream_url=" ++ nl) (Some "1.0"));
   Ok (tarball_pattern self, tarball_filename 1 self,
       tarball_upstream_url_pattern self, tarball_upstream_url 1 self))
  = Ok (Some "", Some (Ok None), Some "", Some (Ok None)).
Proof. reflexivity. Qed.

(** ** Loading a package: the type file decides *)

Lemma existsb_eqb_In (x : string) (l : list string) :
  existsb (String.eqb x) l = true <-> In x l.
Proof.
  rewrite existsb_exists. split.
  - intros (y & Hy & E). apply String.eqb_eq in E. now subst.
  - intros H. exists x. split; [exact H | apply String.eqb_refl].
Qed.

Lemma init_type_cases (file : option string) :
  match _init_type file with
  | Ok t => exists text, file = Some text /\ t = Py.strip text /\ In t package_types
  | Raise e =>
      file = None /\ e = IOError
      \/ exists text, file = Some text /\ ~ In (Py.strip text) package_types
                      /\ e = AssertionError
  end.
Proof.
  unfold _init_type. destruct file as [text|]; [| left; split; reflexivity].
  destruct (existsb (String.eqb (Py.strip text)) package_types) eqn:E.
  - exists text. repeat split. now apply existsb_eqb_In.
  - right. exists text. repeat split. intros H.
    apply existsb_eqb_In in H. congruence.
Qed.

Lemma init_unfold (n : string) (dir : PackageDir) :
  __init__ n dir
  = match _init_type (type_file dir) with
    | Raise e => Raise e
    | Ok t =>
        Ok {| __name := n;
              __md5 := checksum_result (checksums_ini dir) !! "md5";
              __sha1 := checksum_result (checksums_ini dir) !! "sha1";
              __cksum := checksum_result (checksums_ini dir) !! "cksum";
              __tarball_pattern := checksum_result (checksums_ini dir) !! "tarball";
              __tarball_upstream_url_pattern :=
                checksum_result (checksums_ini dir) !! "upstream_url";
              __tarball_package_name := realdir dir;
              __version := fst (_init_version (package_version_txt dir));
              __patchlevel := snd (_init_version (package_version_txt dir));
              __type := t;
              __install_requires :=
                _init_install_requires (install_requires_txt dir);
              __dependencies := Py.strip (first_line (dependencies_file dir));
              __dependencies_check :=
                Py.strip (first_line (dependencies_check_file dir));
              __dependencies_order_only :=
                first_line (dependencies_order_only_file dir) |}
    end.
Proof.
  unfold __init__. rewrite init_dependencies_first_line.
  destruct (_init_version (package_version_txt dir)) as [v p].
  destruct (_init_type (type_file dir)); reflexivity.
Qed.

(** X1.  A package is built only from a directory whose [type] file can be
    read and holds, once stripped, one of the four package types: the
    package then has the name that was given and that type.  Without a
    [type] file, or with another content in it, the constructor returns no
    package, whatever the other files of the directory are. *)
Theorem init_decided_by_type (n : string) (dir : PackageDir) :
  (forall self, __init__ n dir = Ok self ->
     name self = n
     /\ exists text, type_file dir = Some text /\ type self = Py.strip text
                     /\ In (Py.strip text) package_types)
  /\ (type_file dir = None -> forall self, __init__ n dir <> Ok self)
  /\ (forall text, type_file dir = Some text ->
        ~ In (Py.strip text) package_types ->
        forall self, __init__ n dir <> Ok self).
Proof.
  rewrite init_unfold. pose proof (init_type_cases (type_file dir)) as H.
  destruct (_init_type (type_file dir)) as [t|e].
  - destruct H as (text & Ht & -> & Hin). split; [| split].
    + intros self E. injection E as <-. split; [reflexivity |].
      exists text. split; [exact Ht |]. split; [reflexivity | exact Hin].
    + congruence.
    + intros text' Ht' Hn. congruence.
  - split; [| split]; intros; discriminate.
Qed.

Lemma init_decided_by_type_witness :
  (exists self, __init__ "pkg" (dir_with_version "1.0") = Ok self
                /\ name self = "pkg"
                /\ exists text, type_file (dir_with_version "1.0") = Some text
                                /\ type self = Py.strip text
                                /\ In (Py.strip text) package_types)
  /\ forall self,
       __init__ "pkg"
         {| checksums_ini := Some "md5=x"; realdir := "pkg";
            package_version_txt := Some "1.0"; type_file := Some "plugin";
            install_requires_txt := None; dependencies_file := None;
            dependencies_check_file := None;
            dependencies_order_only_file := None |} <> Ok self.
Proof.
  split.
  - eexists. split; [reflexivity |].
    apply (proj1 (init_decided_by_type "pkg" (dir_with_version "1.0"))).
    reflexivity.
  - apply (proj2 (proj2 (init_decided_by_type "pkg" _)) "plugin");
      [reflexivity |].
    simpl. intros [H | [H | [H | [H | []]]]]; discriminate.
Defined.

(** ** The version file *)

Lemma int_nonneg (s : string) : (0 <= Py.int s)%Z.
Proof.
  unfold Py.int. destruct (NilEmpty.uint_of_string s) as [d|]; [| lia].
  unfold Z.of_uint. apply N2Z.is_nonneg.
Qed.

Lemma startswith_refl (s : string) : Py.startswith s s = true.
Proof.
  pose proof (startswith_append s "") as H. now rewrite append_empty_r in H.
Qed.

(** X2.  A package has a version exactly when it has a patchlevel, and
    exactly when [package-version.txt] exists.  The patchlevel is then [-1]
    or more; it is [-1] exactly when the first line of the stripped content
    holds no [.p] followed by a digit; and the version is a prefix of the
    stripped content. *)
Theorem version_and_patchlevel_together
  (n : string) (dir : PackageDir) (self : Package) :
  __init__ n dir = Ok self ->
  (package_version_txt dir = None ->
   version self = None /\ patchlevel self = None)
  /\ (forall text, package_version_txt dir = Some text ->
        exists v pl,
          version self = Some v /\ patchlevel self = Some pl
          /\ (-1 <= pl)%Z
          /\ (pl = (-1)%Z <->
              no_patch_marker (Py.dot_star (Py.strip text)) = true)
          /\ Py.startswith v (Py.strip text) = true).
Proof.
  rewrite init_unfold.
  destruct (_init_type (type_file dir)) as [t|e]; [| discriminate].
  intros E. injection E as <-. unfold version, patchlevel. cbn.
  split.
  - intros ->. split; reflexivity.
  - intros text ->. unfold _init_version, parse_version.
    destruct (VERSION_PATCHLEVEL_match (Py.strip text)) as [[v D]|] eqn:Em.
    + exists v, (Py.int D). cbn. pose proof (int_nonneg D) as Hn.
      destruct (match_shape _ _ _ Em) as (rest & Hs & _).
      split; [reflexivity |]. split; [reflexivity |]. split; [lia |]. split.
      * split; [lia |]. intros Hno. apply match_none_iff in Hno. congruence.
      * rewrite Hs at 1. apply startswith_append.
    + exists (Py.strip text), (-1)%Z. cbn.
      split; [reflexivity |]. split; [reflexivity |]. split; [lia |]. split.
      * split; [| reflexivity]. intros _. now apply match_none_iff.
      * apply startswith_refl.
Qed.

Lemma version_and_patchlevel_together_witness :
  exists self,
    __init__ "pkg" (dir_with_version (" 3.11.2.p4" ++ nl)) = Ok self
    /\ exists v pl,
         version self = Some v /\ patchlevel self = Some pl
         /\ (-1 <= pl)%Z
         /\ (pl = (-1)%Z <->
             no_patch_marker (Py.dot_star (Py.strip (" 3.11.2.p4" ++ nl))) = true)
         /\ Py.startswith v (Py.strip (" 3.11.2.p4" ++ nl)) = true.
Proof.
  eexists. split; [reflexivity |].
  apply (proj2 (version_and_patchlevel_together "pkg"
                  (dir_with_version (" 3.11.2.p4" ++ nl)) _ eq_refl)).
  reflexivity.
Defined.

(** ** Whitespace around the content of a file *)

Section PaddingFacts.

Lemma all_space_cons (a : ascii) (s : string) :
  all_space (String a s) = Py.isspace a && all_space s.
Proof. reflexivity. Qed.

Lemma lstrip_all_space (p s : string) :
  all_space p = true -> Py.lstrip (p ++ s) = Py.lstrip s.
Proof.
  induction p as [|a p IH]; [reflexivity |].
  rewrite all_space_cons. intros H. apply andb_true_iff in H as [Ha Hp].
  simpl. rewrite Ha. now apply IH.
Qed.

Lemma rstrip_all_space (s q : string) :
  all_space q = true -> Py.rstrip (s ++ q) = Py.rstrip s.
Proof.
  intros Hq.
  assert (H0 : Py.rstrip q = "").
  { induction q as [|a q IH]; [reflexivity |].
    rewrite all_space_cons in Hq. apply andb_true_iff in Hq as [Ha Hq].
    simpl. now rewrite (IH Hq), Ha. }
  induction s as [|a s IH]; simpl; [exact H0 | now rewrite IH].
Qed.

Lemma lstrip_append_space (s q : string) :
  all_space q = true ->
  Py.lstrip (s ++ q) = Py.lstrip s ++ q
  \/ Py.lstrip (s ++ q) = "" /\ Py.lstrip s = "".
Proof.
  intros Hq. induction s as [|a s IH]; simpl.
  - right. split; [| reflexivity].
    rewrite <- (append_empty_r q). now rewrite lstrip_all_space.
  - destruct (Py.isspace a); [exact IH | now left].
Qed.

Lemma strip_padding (p s q : string) :
  all_space p = true -> all_space q = true ->
  Py.strip (p ++ s ++ q) = Py.strip s.
Proof.
  intros Hp Hq. unfold Py.strip. rewrite (lstrip_all_space p _ Hp).
  destruct (lstrip_append_space s q Hq) as [-> | [-> ->]];
    [now apply rstrip_all_space | reflexivity].
Qed.

End PaddingFacts.

(** X3.  Whitespace before and after the content of [package-version.txt],
    of [type] and of [install-requires.txt], such as a final line feed,
    changes nothing of what is loaded from these files. *)
Theorem surrounding_whitespace_ignored (p text q : string) :
  all_space p = true -> all_space q = true ->
  _init_version (Some (p ++ text ++ q)) = _init_version (Some text)
  /\ _init_type (Some (p ++ text ++ q)) = _init_type (Some text)
  /\ _init_install_requires (Some (p ++ text ++ q))
     = _init_install_requires (Some text).
Proof.
  intros Hp Hq.
  unfold _init_version, _init_type, _init_install_requires.
  now rewrite (strip_padding p text q Hp Hq).
Qed.

Lemma surrounding_whitespace_ignored_witness :
  _init_version (Some ((" " ++ nl) ++ "8.1.p2" ++ (nl ++ nl)))
  = _init_version (Some "8.1.p2")
  /\ _init_type (Some ((" " ++ nl) ++ "optional" ++ (nl ++ nl)))
     = _init_type (Some "optional")
  /\ _init_install_requires (Some ((" " ++ nl) ++ "numpy" ++ (nl ++ nl)))
     = _init_install_requires (Some "numpy").
Proof.
  split; [| split].
  - apply (surrounding_whitespace_ignored (" " ++ nl) "8.1.p2" (nl ++ nl));
      reflexivity.
  - apply (surrounding_whitespace_ignored (" " ++ nl) "optional" (nl ++ nl));
      reflexivity.
  - apply (surrounding_whitespace_ignored (" " ++ nl) "numpy" (nl ++ nl));
      reflexivity.
Defined.

(** ** The components of a version *)

Lemma append_assoc (a b c : string) : (a ++ b) ++ c = a ++ b ++ c.
Proof. induction a as [|x a IH]; simpl; [reflexivity | now rewrite IH]. Qed.

Section SplitCharFacts.

Variable sep : ascii.

Lemma split_char_head (s w : string) (ws : list string) :
  Py.split_char sep s = w :: ws ->
  Py.count sep w = 0
  /\ (ws = [] /\ s = w
      \/ exists s', s = w ++ String sep s' /\ ws = Py.split_char sep s').
Proof.
  revert w ws; induction s as [|a s IH]; intros w ws H; simpl in H.
  - injection H as <- <-. split; [reflexivity | left; split; reflexivity].
  - destruct (Ascii.eqb a sep) eqn:E.
    + apply Ascii.eqb_eq in E. subst a. injection H as <- <-.
      split; [reflexivity |]. right. exists s. split; reflexivity.
    + destruct (Py.split_char sep s) as [|w' ws'] eqn:Es.
      * injection H as <- <-. simpl. rewrite E.
        split; [reflexivity |]. left. split; [reflexivity |].
        destruct s; simpl in Es; [discriminate |].
        destruct (Ascii.eqb _ sep); [discriminate |].
        destruct (Py.split_char sep s); discriminate.
      * injection H as <- <-.
        destruct (IH w' ws' eq_refl) as [Hc Hs]. simpl. rewrite E.
        split; [exact Hc |].
        destruct Hs as [[-> ->] | (s' & -> & ->)].
        -- left. split; reflexivity.
        -- right. exists s'. split; reflexivity.
Qed.

Lemma split_char_length (s : string) :
  List.length (Py.split_char sep s) = S (Py.count sep s).
Proof.
  induction s as [|a s IH]; simpl; [reflexivity |].
  destruct (Ascii.eqb a sep); simpl; [now rewrite IH |].
  destruct (Py.split_char sep s); simpl in *; lia.
Qed.

Lemma split_char_no_sep (s w : string) :
  In w (Py.split_char sep s) -> Py.count sep w = 0.
Proof.
  remember (Py.split_char sep s) as l eqn:El. revert s El.
  induction l as [|x l IH]; intros s El Hin; simpl in Hin; [destruct Hin |].
  symmetry in El. apply split_char_head in El as [Hx Hs].
  destruct Hin as [<- | Hin]; [exact Hx |].
  destruct Hs as [[-> _] | (s' & _ & ->)]; [destruct Hin | now apply (IH s')].
Qed.

Lemma join_split_char (s : string) :
  join (String sep "") (Py.split_char sep s) = s.
Proof.
  remember (Py.split_char sep s) as l eqn:El. revert s El.
  induction l as [|x l IH]; intros s El.
  - destruct s; simpl in El; [discriminate |].
    destruct (Ascii.eqb _ sep); [discriminate |].
    destruct (Py.split_char sep s); discriminate.
  - symmetry in El. apply split_char_head in El as [_ [[-> ->] | (s' & -> & ->)]].
    + reflexivity.
    + specialize (IH s' eq_refl).
      destruct (Py.split_char sep s') eqn:E.
      * destruct s'; simpl in E; [discriminate |].
        destruct (Ascii.eqb _ sep); [discriminate |].
        destruct (Py.split_char sep s'); discriminate.
      * cbn [join]. cbn [join] in IH. now rewrite IH.
Qed.

End SplitCharFacts.

Lemma version_component_nth (self : Package) (v : string) (i : nat) :
  version self = Some v ->
  version_component i self
  = match nth_error (Py.split_char "." v) i with
    | Some part => Ok part
    | None => Raise IndexError
    end.
Proof. intros H. unfold version_component. now rewrite H. Qed.

(** X4.  On a package with a version, the accessor of the component of
    index [i] (0 for [version_major], 1 for [version_minor], 2 for
    [version_micro]) returns exactly when the version holds at least [i]
    dots; a component holds no dot; the version is its components joined by
    dots; and when all three accessors return, the version starts with
    [major.minor.micro], and is equal to it when it holds just two dots. *)
Theorem version_components (self : Package) (v : string) :
  version self = Some v ->
  (forall i, (exists part, version_component i self = Ok part)
             <-> i <= Py.count "." v)
  /\ (forall i part, version_component i self = Ok part -> Py.count "." part = 0)
  /\ join "." (Py.split_char "." v) = v
  /\ (forall a b c,
        version_major self = Ok a -> version_minor self = Ok b ->
        version_micro self = Ok c ->
        Py.startswith (a ++ "." ++ b ++ "." ++ c) v = true
        /\ (Py.count "." v = 2 -> v = a ++ "." ++ b ++ "." ++ c)).
Proof.
  intros Hv. split; [| split; [| split]].
  - intros i. rewrite (version_component_nth self v i Hv).
    pose proof (split_char_length "." v) as Hlen.
    destruct (nth_error (Py.split_char "." v) i) as [part|] eqn:E.
    + split; [intros _ | eauto].
      assert (i < List.length (Py.split_char "." v))
        by (apply nth_error_Some; congruence).
      lia.
    + split; [intros [part H]; discriminate |].
      apply nth_error_None in E. lia.
  - intros i part. rewrite (version_component_nth self v i Hv).
    destruct (nth_error (Py.split_char "." v) i) as [p|] eqn:E; [| discriminate].
    intros H. injection H as <-.
    apply (split_char_no_sep "." v). eapply nth_error_In, E.
  - apply join_split_char.
  - intros a b c. unfold version_major, version_minor, version_micro.
    rewrite !(version_component_nth self v _ Hv).
    pose proof (split_char_length "." v) as Hlen.
    destruct (Py.split_char "." v) as [|a' [|b' [|c' ws]]] eqn:E;
      try discriminate.
    cbn. intros Ha Hb Hc. injection Ha as <-. injection Hb as <-.
    injection Hc as <-.
    apply split_char_head in E as [_ [[H _] | (s1 & -> & E1)]]; [discriminate |].
    symmetry in E1.
    apply split_char_head in E1 as [_ [[H _] | (s2 & -> & E2)]]; [discriminate |].
    symmetry in E2.
    apply split_char_head in E2 as [_ [[-> ->] | (s3 & -> & ->)]].
    + split; [apply startswith_refl | reflexivity].
    + split.
      * pose proof (startswith_append (a' ++ "." ++ b' ++ "." ++ c')
                      (String "." s3)) as Hs.
        rewrite !append_assoc in Hs. exact Hs.
      * pose proof (split_char_length "." s3). simpl in Hlen. lia.
Qed.

Lemma version_components_witness :
  (exists part, version_component 2 (with_version (Some "3.11.2")) = Ok part)
  /\ Py.startswith ("3" ++ "." ++ "11" ++ "." ++ "2") "3.11.2" = true.
Proof.
  split.
  - apply (proj1 (version_components (with_version (Some "3.11.2")) "3.11.2"
                    eq_refl) 2).
    simpl. lia.
  - apply (proj2 (proj2 (proj2 (version_components
             (with_version (Some "3.11.2")) "3.11.2" eq_refl))) "3" "11" "2");
      reflexivity.
Defined.

(** ** More on the substitution *)

Section OccurrenceFacts.

Lemma contains_middle (pre u post : string) :
  Py.contains u (pre ++ u ++ post) = true.
Proof. apply contains_append_l, contains_startswith, startswith_append. Qed.

Lemma contains_inside (a u b s : string) :
  Py.contains (a ++ u ++ b) s = true -> Py.contains u s = true.
Proof.
  intros H. destruct (replace1_found _ "" s H) as (pre & post & -> & _).
  replace (pre ++ (a ++ u ++ b) ++ post) with ((pre ++ a) ++ u ++ (b ++ post))
    by (now rewrite !append_assoc).
  apply contains_middle.
Qed.

Lemma braced_contains_bare (var s : string) :
  Py.contains (dollar_brace var) s = true -> Py.contains var s = true.
Proof. apply (contains_inside "${" var "}"). Qed.

Lemma token_contains_VERSION (tok s : string) :
  In tok token_spellings ->
  Py.contains tok s = true -> Py.contains "VERSION" s = true.
Proof.
  simpl. intros H.
  repeat (destruct H as [<- | H];
          [first [ apply (contains_inside "${" "VERSION" "_MAJOR}")
                 | apply (contains_inside "" "VERSION" "_MAJOR")
                 | apply (contains_inside "${" "VERSION" "_MINOR}")
                 | apply (contains_inside "" "VERSION" "_MINOR")
                 | apply (contains_inside "${" "VERSION" "_MICRO}")
                 | apply (contains_inside "" "VERSION" "_MICRO")
                 | apply (contains_inside "${" "VERSION" "}")
                 | apply (contains_inside "" "VERSION" "") ] |]).
  destruct H.
Qed.

Lemma no_VERSION_no_token (s : string) :
  Py.contains "VERSION" s = false -> no_token s.
Proof.
  intros H. apply List.Forall_forall. intros tok Hin.
  destruct (Py.contains tok s) eqn:E; [| reflexivity].
  apply (token_contains_VERSION tok s Hin) in E. congruence.
Qed.

(** The leftmost occurrence is the one that [replace] takes. *)
Lemma replace1_leftmost (old new s : string) :
  Py.contains old s = true ->
  exists pre post,
    s = pre ++ old ++ post /\ Py.replace1 old new s = pre ++ new ++ post
    /\ forall a b, pre = a ++ b -> b <> "" ->
                   Py.startswith old (b ++ old ++ post) = false.
Proof.
  induction s as [|a0 s IH]; intros H.
  - destruct old; simpl in H; [| discriminate].
    exists "", "". repeat split. intros [|x a] b E Hb; [| discriminate E].
    simpl in E. congruence.
  - cbn [Py.replace1]. cbn [Py.contains] in H.
    destruct (Py.startswith old (String a0 s)) eqn:E.
    + exists "", (Py.drop (String.length old) (String a0 s)).
      split; [now apply startswith_split |]. split; [reflexivity |].
      intros [|x a] b Eab Hb; [| discriminate Eab]. simpl in Eab. congruence.
    + simpl in H. destruct (IH H) as (pre & post & Hs & Hr & Hleft).
      exists (String a0 pre), post. rewrite Hr.
      split; [simpl; now rewrite <- Hs |]. split; [reflexivity |].
      intros [|x a] b Eab Hb.
      * simpl in Eab. subst b. simpl. now rewrite <- Hs.
      * injection Eab as -> Eab. now apply (Hleft a b).
Qed.

End OccurrenceFacts.

Section OnceFacts.

Variable getattr_self : string -> result (option string).

Lemma untouched_substitute_for (vars : list string) (pattern : string) :
  untouched vars pattern ->
  substitute_for getattr_self vars pattern = Ok (pattern, false).
Proof.
  induction 1 as [|var vars [Hb Hv] _ IH]; simpl; [reflexivity |].
  now rewrite Hb, Hv.
Qed.

Lemma no_token_once (pattern : string) :
  no_token pattern ->
  _substitute_variables_once getattr_self pattern = Ok (pattern, false).
Proof.
  intros H. apply untouched_substitute_for. now apply untouched_no_token.
Qed.

Lemma no_token_loop (pattern : string) (fuel : nat) :
  no_token pattern ->
  _substitute_variables getattr_self (S fuel) pattern = Some (Ok pattern).
Proof. intros H. simpl. now rewrite (no_token_once pattern H). Qed.

(** The spelling that a step replaces is the first one, in the order of
    the tests, that occurs in the pattern. *)
Lemma substitute_for_first (vars : list string) (pattern pattern' : string) :
  substitute_for getattr_self vars pattern = Ok (pattern', true) ->
  exists var tok value before after,
    In var vars /\ (tok = dollar_brace var \/ tok = var)
    /\ flat_map (fun var => [dollar_brace var; var]) vars
       = (before ++ tok :: after)%list
    /\ Forall (fun t => Py.contains t pattern = false) before
    /\ Py.contains tok pattern = true
    /\ getattr_self (Py.lower var) = Ok (Some value)
    /\ pattern' = Py.replace1 tok value pattern.
Proof.
  induction vars as [|var vars IH]; simpl; [discriminate |].
  destruct (Py.contains (dollar_brace var) pattern) eqn:Eb.
  - destruct (getattr_self (Py.lower var)) as [[value|]|e] eqn:Eg;
      simpl; try discriminate.
    intros E. injection E as <-.
    exists var, (dollar_brace var), value, []. eexists.
    split; [now left |]. split; [now left |]. split; [reflexivity |].
    split; [constructor |]. auto.
  - destruct (Py.contains var pattern) eqn:Ev.
    + destruct (getattr_self (Py.lower var)) as [[value|]|e] eqn:Eg;
        simpl; try discriminate.
      intros E. injection E as <-.
      exists var, var, value, [dollar_brace var]. eexists.
      split; [now left |]. split; [now right |]. split; [reflexivity |].
      split; [repeat constructor; exact Eb |]. auto.
    + intros E. destruct (IH E)
        as (v & tok & value & before & after & Hin & Htok & Hl & Hb & Hc & Hg & Hp).
      exists v, tok, value, (dollar_brace var :: var :: before), after.
      split; [now right |]. split; [exact Htok |].
      split; [simpl; now rewrite Hl |].
      split; [repeat (constructor; [assumption |]); exact Hb |]. auto.
Qed.

End OnceFacts.

(** X5.  A pattern in which the word VERSION does not occur is returned
    as it is by the substitution, after one pass and whatever the package
    is; so a tarball pattern without it is the tarball filename, even for
    a package that has no version. *)
Theorem pattern_without_VERSION_unchanged :
  (forall (getattr_self : string -> result (option string))
          (pattern : string) (fuel : nat),
      Py.contains "VERSION" pattern = false ->
      _substitute_variables getattr_self (S fuel) pattern = Some (Ok pattern))
  /\ (forall (self : Package) (pattern : string) (fuel : nat),
        tarball_pattern self = Some pattern -> pattern <> "" ->
        Py.contains "VERSION" pattern = false ->
        tarball_filename (S fuel) self = Some (Ok (Some pattern))).
Proof.
  split.
  - intros g pattern fuel H. now apply no_token_loop, no_VERSION_no_token.
  - intros self pattern fuel Hp Hne H. unfold tarball_filename. rewrite Hp.
    apply resolve_some; [exact Hne |].
    now apply no_token_loop, no_VERSION_no_token.
Qed.

Lemma pattern_without_VERSION_unchanged_witness :
  exists self,
    __init__ "pkg" (dir_with_checksums ("tarball=pkg-latest.tar.gz" ++ nl) None)
    = Ok self
    /\ version self = None
    /\ tarball_filename 1 self = Some (Ok (Some "pkg-latest.tar.gz")).
Proof.
  eexists. split; [reflexivity |]. split; [reflexivity |].
  apply (proj2 pattern_without_VERSION_unchanged); [reflexivity | | reflexivity].
  discriminate.
Defined.

Lemma if_braced {T : Type} (var pattern : string) (x y : T) :
  (if Py.contains (dollar_brace var) pattern then x
   else if Py.contains var pattern then x else y)
  = (if Py.contains var pattern then x else y).
Proof.
  destruct (Py.contains (dollar_brace var) pattern) eqn:Eb; [| reflexivity].
  now rewrite (braced_contains_bare var pattern Eb).
Qed.

(** X6.  On a package without a version, the substitution fails on every
    pattern in which the word VERSION occurs, in its first pass: with
    [AttributeError] when the pattern names a component of the version
    ([None] has no [split]), and with [TypeError] otherwise ([replace]
    refuses [None]). *)
Theorem substitution_without_version
  (self : Package) (pattern : string) (fuel : nat) :
  version self = None ->
  Py.contains "VERSION" pattern = true ->
  _substitute_variables (getattr self) (S fuel) pattern
  = Some (Raise (if names_component pattern then AttributeError else TypeError)).
Proof.
  intros Hv Hc.
  assert (Hcomp : forall i, version_component i self = Raise AttributeError)
    by (intros i; unfold version_component; now rewrite Hv).
  cbn [_substitute_variables]. unfold _substitute_variables_once, VARS.
  cbn [substitute_for].
  repeat lazymatch goal with
  | |- context [Py.lower ?s] =>
      let s' := eval vm_compute in (Py.lower s) in change (Py.lower s) with s'
  end.
  autorewrite with getattr.
  unfold version_major, version_minor, version_micro.
  rewrite !Hcomp, Hv. cbn [mbind result_bind replace_value].
  rewrite !if_braced, Hc. unfold names_component.
  destruct (Py.contains "VERSION_MAJOR" pattern),
    (Py.contains "VERSION_MINOR" pattern),
    (Py.contains "VERSION_MICRO" pattern); reflexivity.
Qed.

Lemma substitution_without_version_witness :
  _substitute_variables (getattr (with_version None)) 1 "pkg-${VERSION}.tar.gz"
  = Some (Raise TypeError)
  /\ _substitute_variables (getattr (with_version None)) 1 "pkg-VERSION_MINOR.tgz"
     = Some (Raise AttributeError).
Proof.
  split.
  - apply (substitution_without_version (with_version None)
             "pkg-${VERSION}.tar.gz" 0); reflexivity.
  - apply (substitution_without_version (with_version None)
             "pkg-VERSION_MINOR.tgz" 0); reflexivity.
Defined.

(** X7.  What the substitution returns is left as it is by a second
    substitution, which ends after one pass. *)
Theorem substitution_idempotent
  (getattr_self : string -> result (option string))
  (fuel fuel' : nat) (pattern out : string) :
  _substitute_variables getattr_self fuel pattern = Some (Ok out) ->
  _substitute_variables getattr_self (S fuel') out = Some (Ok out).
Proof.
  intros H. apply (loop_sound getattr_self) in H as [_ H].
  now apply no_token_loop.
Qed.

Lemma substitution_idempotent_witness :
  _substitute_variables (getattr (with_version (Some "3.11.2"))) 1
    "pkg-3.11.tar.gz" = Some (Ok "pkg-3.11.tar.gz").
Proof.
  apply (substitution_idempotent (getattr (with_version (Some "3.11.2"))) 3 0
           "pkg-${VERSION_MAJOR}.${VERSION_MINOR}.tar.gz").
  reflexivity.
Defined.

(** X8.  One call of [_substitute_variables_once] that reports a
    substitution has replaced exactly one occurrence: the leftmost
    occurrence of the first spelling, in the order of its tests
    (braced before bare, [VERSION] last), that occurs in the pattern, by the
    value of its variable.  A call that reports none returns the pattern
    as it is, and this is the case exactly when no spelling occurs. *)
Theorem substitute_once_replaces_first_token
  (getattr_self : string -> result (option string)) (pattern : string) :
  match _substitute_variables_once getattr_self pattern with
  | Ok (pattern', true) =>
      exists var tok value before after pre post,
        In var VARS /\ (tok = dollar_brace var \/ tok = var)
        /\ token_spellings = (before ++ tok :: after)%list
        /\ Forall (fun t => Py.contains t pattern = false) before
        /\ getattr_self (Py.lower var) = Ok (Some value)
        /\ pattern = pre ++ tok ++ post
        /\ pattern' = pre ++ value ++ post
        /\ forall a b, pre = a ++ b -> b <> "" ->
                       Py.startswith tok (b ++ tok ++ post) = false
  | Ok (pattern', false) => pattern' = pattern /\ no_token pattern
  | Raise e => lookup_fails getattr_self VARS e
  end
  /\ (no_token pattern ->
      _substitute_variables_once getattr_self pattern = Ok (pattern, false)).
Proof.
  split; [| apply no_token_once].
  pose proof (substitute_for_cases getattr_self VARS pattern) as Hc.
  pose proof (substitute_for_first getattr_self VARS pattern) as Hf.
  unfold _substitute_variables_once.
  destruct (substitute_for getattr_self VARS pattern) as [[p' [|]]|e].
  - destruct (Hf p' eq_refl)
      as (var & tok & value & before & after & Hin & Htok & Hl & Hb & Hct & Hg & ->).
    destruct (replace1_leftmost tok value pattern Hct)
      as (pre & post & Hs & Hr & Hleft).
    exists var, tok, value, before, after, pre, post.
    repeat split; auto.
  - destruct Hc as [-> Hc]. split; [reflexivity | now apply untouched_no_token].
  - exact Hc.
Qed.

Lemma substitute_once_replaces_first_token_witness :
  _substitute_variables_once (getattr (with_version None)) "pkg-1.0.tar.gz"
  = Ok ("pkg-1.0.tar.gz", false).
Proof.
  apply (proj2 (substitute_once_replaces_first_token
                  (getattr (with_version None)) "pkg-1.0.tar.gz")).
  repeat constructor.
Defined.

(** ** The parts of a line *)

Section SplitFacts.

Lemma no_space_cons (a : ascii) (s : string) :
  no_space (String a s) = negb (Py.isspace a) && no_space s.
Proof. reflexivity. Qed.

(** The equations of [split], by the first two characters. *)
Lemma split_space (a : ascii) (s : string) :
  Py.isspace a = true -> Py.split (String a s) = Py.split s.
Proof. intros H. simpl. now rewrite H. Qed.

Lemma split_last (a : ascii) :
  Py.isspace a = false -> Py.split (String a "") = [String a ""].
Proof. intros H. simpl. now rewrite H. Qed.

Lemma split_word_end (a b : ascii) (s : string) :
  Py.isspace a = false -> Py.isspace b = true ->
  Py.split (String a (String b s)) = String a "" :: Py.split s.
Proof. intros Ha Hb. simpl. now rewrite Ha, Hb. Qed.

Lemma split_word_more (a b : ascii) (s : string) :
  Py.isspace a = false -> Py.isspace b = false ->
  exists w ws, Py.split (String b s) = w :: ws
               /\ Py.split (String a (String b s)) = String a w :: ws.
Proof.
  intros Ha Hb. cbn [Py.split]. rewrite Ha, Hb.
  destruct s as [|c s].
  - eexists _, _. split; reflexivity.
  - destruct (Py.isspace c).
    + eexists _, _. split; reflexivity.
    + destruct (Py.split (String c s)); eexists _, _; split; reflexivity.
Qed.

(** An induction principle that follows these equations. *)
Lemma split_ind (P : string -> list string -> Prop) :
  P "" [] ->
  (forall a s, Py.isspace a = true -> P s (Py.split s) ->
               P (String a s) (Py.split s)) ->
  (forall a, Py.isspace a = false -> P (String a "") [String a ""]) ->
  (forall a b s, Py.isspace a = false -> Py.isspace b = true ->
                 P s (Py.split s) ->
                 P (String a (String b s)) (String a "" :: Py.split s)) ->
  (forall a b s w ws, Py.isspace a = false -> Py.isspace b = false ->
                      Py.split (String b s) = w :: ws ->
                      P (String b s) (w :: ws) ->
                      P (String a (String b s)) (String a w :: ws)) ->
  forall s, P s (Py.split s).
Proof.
  intros H0 Hsp Hlast Hend Hmore.
  assert (H : forall s, P s (Py.split s) /\
                        forall a, P (String a s) (Py.split (String a s))).
  { induction s as [|b s [IH1 IH2]].
    - split; [exact H0 |]. intros a. destruct (Py.isspace a) eqn:Ea.
      + rewrite split_space by exact Ea. now apply Hsp.
      + rewrite split_last by exact Ea. now apply Hlast.
    - split; [apply IH2 |]. intros a. destruct (Py.isspace a) eqn:Ea.
      + rewrite split_space by exact Ea. apply Hsp; [exact Ea | apply IH2].
      + destruct (Py.isspace b) eqn:Eb.
        * rewrite split_word_end by assumption. now apply Hend.
        * destruct (split_word_more a b s Ea Eb) as (w & ws & E1 & E2).
          rewrite E2. apply Hmore; try assumption. rewrite <- E1. apply IH2. }
  intros s. apply H.
Qed.

(** A part is not empty, holds no whitespace, and no more copies of a
    character than the line does. *)
Lemma split_parts (c : ascii) (s : string) :
  Forall (fun w => w <> "" /\ no_space w = true /\ Py.count c w <= Py.count c s)
         (Py.split s).
Proof.
  pattern s, (Py.split s). apply split_ind; clear s.
  - constructor.
  - intros a s Ha IH. eapply List.Forall_impl; [| exact IH].
    intros w (H1 & H2 & H3). repeat split; auto. simpl. lia.
  - intros a Ha. constructor; [| constructor].
    split; [discriminate |]. split; [| lia].
    rewrite no_space_cons, Ha. reflexivity.
  - intros a b s Ha Hb IH. constructor.
    + repeat split; [discriminate | |].
      * rewrite no_space_cons, Ha. reflexivity.
      * simpl. lia.
    + eapply List.Forall_impl; [| exact IH].
      intros w (H1 & H2 & H3). repeat split; auto. simpl. lia.
  - intros a b s w ws Ha Hb E IH.
    apply Forall_cons_iff in IH as [(H1 & H2 & H3) IH]. constructor.
    + repeat split; [discriminate | |].
      * rewrite no_space_cons, Ha. exact H2.
      * simpl in *. lia.
    + eapply List.Forall_impl; [| exact IH].
      intros w' (H1' & H2' & H3'). repeat split; auto. simpl in *. lia.
Qed.

(** The first part starts where the line, its leading whitespace apart,
    starts. *)
Lemma split_first (s w : string) (ws : list string) :
  Py.split s = w :: ws ->
  exists c w' rest, w = String c w' /\ Py.lstrip s = String c rest.
Proof.
  revert w ws. pattern s, (Py.split s). apply split_ind; clear s.
  - discriminate.
  - intros a s Ha IH w ws E. simpl. rewrite Ha. now apply (IH w ws).
  - intros a Ha w ws E. injection E as <- <-. simpl. rewrite Ha. eauto.
  - intros a b s Ha Hb _ w ws E. injection E as <- <-. simpl. rewrite Ha. eauto.
  - intros a b s w ws Ha Hb _ _ w' ws' E. injection E as <- <-.
    simpl. rewrite Ha. eauto.
Qed.

Lemma lstrip_head (s t : string) (b : ascii) :
  Py.lstrip s = String b t -> Py.isspace b = false.
Proof.
  induction s as [|a s IH]; simpl; [discriminate |].
  destruct (Py.isspace a) eqn:Ea; [exact IH |].
  intros E. injection E as <- _. exact Ea.
Qed.

Lemma lstrip_strip (s : string) : Py.lstrip (Py.strip s) = Py.strip s.
Proof.
  unfold Py.strip. destruct (Py.rstrip (Py.lstrip s)) as [|b r] eqn:E;
    [reflexivity |].
  destruct (rstrip_head _ _ _ E) as [t Ht].
  apply lstrip_head in Ht. simpl. now rewrite Ht.
Qed.

End SplitFacts.

(** ** The distribution name *)

Lemma distribution_name_lines_parts (lines : list string) (part : string) :
  distribution_name_lines lines = Some part ->
  part <> "" /\ no_space part = true /\ Py.startswith "#" part = false.
Proof.
  induction lines as [|line lines IH]; cbn [distribution_name_lines]; [discriminate |].
  destruct (Py.startswith "#" (Py.strip line)) eqn:Eh; [exact IH |].
  destruct (Py.split (Py.strip line)) as [|w ws] eqn:Es; [exact IH |].
  intros E. injection E as <-.
  pose proof (split_parts "#" (Py.strip line)) as Hp. rewrite Es in Hp.
  apply Forall_cons_iff in Hp as [(H1 & H2 & _) _].
  split; [exact H1 |]. split; [exact H2 |].
  destruct (split_first _ _ _ Es) as (c & w' & rest & -> & Hl).
  rewrite lstrip_strip in Hl. rewrite Hl in Eh. exact Eh.
Qed.

Lemma distribution_name_lines_skip (lines1 lines2 : list string) :
  Forall (fun line => passed_over line = true) lines1 ->
  distribution_name_lines (lines1 ++ lines2) = distribution_name_lines lines2.
Proof.
  induction 1 as [|line lines1 Hl _ IH]; [reflexivity |].
  cbn [distribution_name_lines app]. unfold passed_over in Hl.
  destruct (Py.startswith "#" (Py.strip line)); [exact IH |].
  destruct (Py.split (Py.strip line)); [exact IH | discriminate Hl].
Qed.

Lemma distribution_name_lines_none (lines : list string) :
  distribution_name_lines lines = None <->
  Forall (fun line => passed_over line = true) lines.
Proof.
  induction lines as [|line lines IH]; cbn [distribution_name_lines].
  - split; [constructor | reflexivity].
  - rewrite Forall_cons_iff, <- IH. unfold passed_over.
    destruct (Py.startswith "#" (Py.strip line)); [tauto |].
    destruct (Py.split (Py.strip line)); simpl; [tauto |].
    split; [discriminate | intros [H _]; discriminate].
Qed.

(** X9.  [distribution_name] is [None] for a package without
    [install-requires.txt].  Otherwise it passes over the lines that are
    blank or whose first character, whitespace apart, is [#], and returns
    the first part of the first other line; it is [None] exactly when there
    is no other line.  What it returns is never empty, holds no whitespace
    and does not start with [#]. *)
Theorem distribution_name_first_part (self : Package) :
  (__install_requires self = None -> distribution_name self = None)
  /\ (forall text lines1 line lines2,
        __install_requires self = Some text ->
        Py.split_char Py.LF text = (lines1 ++ line :: lines2)%list ->
        Forall (fun line => passed_over line = true) lines1 ->
        passed_over line = false ->
        exists part parts,
          Py.split line = part :: parts /\ distribution_name self = Some part)
  /\ (forall text,
        __install_requires self = Some text ->
        (distribution_name self = None <->
         Forall (fun line => passed_over line = true)
                (Py.split_char Py.LF text)))
  /\ (forall part,
        distribution_name self = Some part ->
        part <> "" /\ no_space part = true /\ Py.startswith "#" part = false).
Proof.
  unfold distribution_name. split; [| split; [| split]].
  - now intros ->.
  - intros text lines1 line lines2 -> -> H1 Hline.
    rewrite (distribution_name_lines_skip _ _ H1).
    cbn [distribution_name_lines]. unfold passed_over in Hline. apply orb_false_iff in Hline as [Hh Hs].
    rewrite Hh. rewrite split_strip in *.
    destruct (Py.split line) as [|part parts]; [discriminate |]. eauto.
  - intros text ->. apply distribution_name_lines_none.
  - intros part. destruct (__install_requires self); [| discriminate].
    apply distribution_name_lines_parts.
Qed.

Lemma distribution_name_first_part_witness :
  exists self,
    __init__ "numpy"
      {| checksums_ini := None; realdir := "numpy"; package_version_txt := None;
         type_file := Some "standard";
         install_requires_txt :=
           Some ("# how to install" ++ nl ++ nl ++ "  numpy >=1.19  # pinned" ++ nl);
         dependencies_file := None; dependencies_check_file := None;
         dependencies_order_only_file := None |} = Ok self
    /\ exists part parts,
         Py.split "  numpy >=1.19  # pinned" = part :: parts
         /\ distribution_name self = Some part.
Proof.
  eexists. split; [reflexivity |].
  apply (proj1 (proj2 (distribution_name_first_part _))
           ("# how to install" ++ nl ++ nl ++ "  numpy >=1.19  # pinned")
           ["# how to install"; ""] "  numpy >=1.19  # pinned" []).
  - reflexivity.
  - reflexivity.
  - repeat constructor.
  - reflexivity.
Defined.

(** ** The enumeration of the packages *)

Section AllFacts.

Lemma init_cases (n : string) (dir : PackageDir) (self : Package) :
  __init__ n dir = Ok self ->
  name self = n /\ In (type self) package_types.
Proof.
  rewrite init_unfold. pose proof (init_type_cases (type_file dir)) as H.
  destruct (_init_type (type_file dir)) as [t|e]; [| discriminate].
  destruct H as (text & Ht & -> & Hin). intros E. injection E as <-.
  split; [reflexivity | exact Hin].
Qed.

Lemma all_skip (l1 l2 : list (string * PackageDir)) (entry : string * PackageDir) :
  has_type entry = false ->
  all (l1 ++ entry :: l2) = all (l1 ++ l2).
Proof.
  intros H. induction l1 as [|[n d] l1 IH]; simpl.
  - destruct entry as [n d]. unfold has_type in H. simpl in H.
    now destruct (type_file d).
  - now rewrite IH.
Qed.

(** The enumeration goes as far as the first entry with a [type] file whose
    construction raises. *)
Lemma all_cases (listing : list (string * PackageDir)) :
  match snd (all listing) with
  | None =>
      map name (fst (all listing)) = map fst (List.filter has_type listing)
  | Some e =>
      exists l1 subdir dir l2,
        listing = (l1 ++ (subdir, dir) :: l2)%list
        /\ has_type (subdir, dir) = true
        /\ __init__ subdir dir = Raise e
        /\ map name (fst (all listing)) = map fst (List.filter has_type l1)
  end
  /\ Forall (fun p => In (type p) package_types) (fst (all listing)).
Proof.
  induction listing as [|[n d] l [IH IHt]]; [split; [reflexivity | constructor] |].
  cbn [all List.filter]. unfold has_type at 1 3. cbn [snd].
  destruct (type_file d) as [text|] eqn:Et.
  - destruct (__init__ n d) as [p|e] eqn:Ei.
    + destruct (init_cases n d p Ei) as [Hn Ht].
      destruct (all l) as [packages [e|]]; cbn [fst snd map] in *.
      * split; [| now constructor].
        destruct IH as (l1 & subdir & dir & l2 & -> & Hty & Hi & Hnames).
        exists ((n, d) :: l1), subdir, dir, l2.
        split; [reflexivity |]. split; [exact Hty |]. split; [exact Hi |].
        cbn [List.filter]. unfold has_type at 1. cbn [snd]. rewrite Et.
        cbn [map fst]. now rewrite Hn, Hnames.
      * split; [| now constructor]. now rewrite Hn, IH.
    + cbn [fst snd map]. split; [| constructor].
      exists [], n, d, l. split; [reflexivity |].
      split; [unfold has_type; cbn [snd]; now rewrite Et |].
      split; [exact Ei | reflexivity].
  - split; [| exact IHt].
    destruct (snd (all l)) as [e|]; [| exact IH].
    destruct IH as (l1 & subdir & dir & l2 & -> & Hty & Hi & Hnames).
    exists ((n, d) :: l1), subdir, dir, l2.
    split; [reflexivity |]. split; [exact Hty |]. split; [exact Hi |].
    cbn [List.filter]. unfold has_type at 1. cbn [snd]. now rewrite Et.
Qed.

End AllFacts.

(** X10.  [Package.all] passes over the entries of the package root that
    have no [type] file.  For the other entries it yields one package each,
    in the order of the listing and under the name of the entry, as far as
    the first of them whose construction raises: there it ends, with the
    exception that the construction raised.  When it ends without an
    exception it has yielded a package for every entry with a [type] file.
    Every package that it yields has one of the four types. *)
Theorem all_packages (listing : list (string * PackageDir)) :
  (forall l1 entry l2,
      listing = (l1 ++ entry :: l2)%list -> has_type entry = false ->
      all listing = all (l1 ++ l2))
  /\ (snd (all listing) = None ->
      map name (fst (all listing)) = map fst (List.filter has_type listing))
  /\ (forall e, snd (all listing) = Some e ->
        exists l1 subdir dir l2,
          listing = (l1 ++ (subdir, dir) :: l2)%list
          /\ has_type (subdir, dir) = true
          /\ __init__ subdir dir = Raise e
          /\ map name (fst (all listing)) = map fst (List.filter has_type l1))
  /\ Forall (fun p => In (type p) package_types) (fst (all listing)).
Proof.
  destruct (all_cases listing) as [H Ht].
  split; [| split; [| split]].
  - intros l1 entry l2 -> Hty. now apply all_skip.
  - intros E. now rewrite E in H.
  - intros e E. now rewrite E in H.
  - exact Ht.
Qed.

Lemma all_packages_witness :
  map name (fst (all example_listing))
  = map fst (List.filter has_type example_listing)
  /\ all example_listing
     = all [("a", dir_with_version "1.0");
            ("b", dir_with_dependencies (Some "a") None None)].
Proof.
  split.
  - apply (proj1 (proj2 (all_packages example_listing))). reflexivity.
  - refine (proj1 (all_packages example_listing)
              [("a", dir_with_version "1.0")] _
              [("b", dir_with_dependencies (Some "a") None None)]
              eq_refl eq_refl).
Defined.

(** ** More on the key-value reader *)

Section ChecksumLookup.

Variable k : string.

(** The entry of [k] after the loop: the value of a line that assigns [k],
    or the entry before the loop when no line does. *)
Lemma fold_checksum_lookup (lines : list string) :
  forall result : gmap string string,
    fold_left checksum_line lines result !! k = result !! k
    /\ (forall line value, In line lines ->
                           assignment_match line <> Some (k, value))
    \/ exists line value,
         In line lines /\ assignment_match line = Some (k, value)
         /\ fold_left checksum_line lines result !! k = Some value.
Proof.
  induction lines as [|l lines IH]; intros result; cbn [fold_left].
  - left. split; [reflexivity | intros line value []].
  - destruct (IH (checksum_line result l))
      as [[E Hno] | (line & value & Hin & Hm & E)].
    + rewrite E. unfold checksum_line.
      destruct (assignment_match l) as [[k' v']|] eqn:El.
      * destruct (String.eqb k' k) eqn:Ek.
        -- apply String.eqb_eq in Ek. subst k'. right. exists l, v'.
           split; [now left |]. split; [exact El |].
           apply lookup_insert_eq.
        -- apply String.eqb_neq in Ek. left. split.
           ++ now apply lookup_insert_ne.
           ++ intros line value [<- | Hin]; [congruence | now apply Hno].
      * left. split; [reflexivity |].
        intros line value [<- | Hin]; [congruence | now apply Hno].
    + right. exists line, value. split; [now right | split; assumption].
Qed.

Lemma checksum_lines_none (lines : list string) :
  checksum_lines lines !! k = None <->
  forall line value, In line lines -> assignment_match line <> Some (k, value).
Proof.
  unfold checksum_lines.
  destruct (fold_checksum_lookup lines ∅) as [[E Hno] | (line & value & Hin & Hm & E)].
  - split; [intros _; exact Hno | intros _; now rewrite E].
  - split; [congruence |]. intros H. destruct (H line value Hin Hm).
Qed.

Lemma checksum_lines_some (lines : list string) (value : string) :
  checksum_lines lines !! k = Some value ->
  exists line, In line lines /\ assignment_match line = Some (k, value).
Proof.
  unfold checksum_lines.
  destruct (fold_checksum_lookup lines ∅) as [[E Hno] | (line & v & Hin & Hm & E)].
  - rewrite E. discriminate.
  - intros H. exists line. split; [exact Hin | congruence].
Qed.

End ChecksumLookup.

Lemma count_LF_dot_star (s : string) : Py.count Py.LF (Py.dot_star s) = 0.
Proof.
  induction s as [|c s IH]; simpl; [reflexivity |].
  destruct (Ascii.eqb c Py.LF) eqn:E; simpl; [reflexivity |]. now rewrite E.
Qed.

(** X11.  Each of the five fields that come from [checksums.ini] ([md5],
    [sha1], [cksum], the tarball pattern and the URL pattern) is [None]
    exactly when no line of the file assigns its variable (and so when
    there is no file); otherwise it is the value of a line of the file that
    assigns the variable, and holds no line feed. *)
Theorem checksum_fields (n : string) (dir : PackageDir) (self : Package) :
  __init__ n dir = Ok self ->
  forall var field,
    In (var, field)
       [("md5", md5 self); ("sha1", sha1 self); ("cksum", cksum self);
        ("tarball", tarball_pattern self);
        ("upstream_url", tarball_upstream_url_pattern self)] ->
    (field = None <->
     forall text line value,
       checksums_ini dir = Some text -> In line (Py.readlines text) ->
       assignment_match line <> Some (var, value))
    /\ (forall value,
          field = Some value ->
          Py.count Py.LF value = 0
          /\ exists text line,
               checksums_ini dir = Some text /\ In line (Py.readlines text)
               /\ assignment_match line = Some (var, value)).
Proof.
  rewrite init_unfold.
  destruct (_init_type (type_file dir)) as [t|e]; [| discriminate].
  intros E. injection E as <-. intros var field Hin.
  assert (Hf : field = checksum_result (checksums_ini dir) !! var).
  { simpl in Hin.
    repeat (destruct Hin as [Hin | Hin]; [now injection Hin as <- <- |]).
    destruct Hin. }
  subst field. clear Hin. unfold checksum_result.
  destruct (checksums_ini dir) as [text|].
  - split.
    + rewrite checksum_lines_none. split.
      * intros H text' line value Ht Hl. injection Ht as <-. now apply H.
      * intros H line value Hl. now apply (H text).
    + intros value H. apply checksum_lines_some in H as (line & Hl & Hm).
      split; [| now exists text, line].
      apply assignment_match_shape in Hm as [_ (rest & _ & ->)].
      apply count_LF_dot_star.
  - split.
    + split; [discriminate | reflexivity].
    + intros value H. discriminate H.
Qed.

Lemma checksum_fields_witness :
  exists self,
    __init__ "pkg" (dir_with_checksums ("sha1=abc" ++ nl ++ "oops" ++ nl) None)
    = Ok self
    /\ (md5 self = None <->
        forall text line value,
          Some ("sha1=abc" ++ nl ++ "oops" ++ nl) = Some text ->
          In line (Py.readlines text) ->
          assignment_match line <> Some ("md5", value)).
Proof.
  eexists. split; [reflexivity |].
  apply (checksum_fields "pkg"
           (dir_with_checksums ("sha1=abc" ++ nl ++ "oops" ++ nl) None) _ eq_refl
           "md5").
  left. reflexivity.
Defined.

(** X12.  Two neighbouring lines of [checksums.ini] that do not assign the
    same variable can change places: the dictionary that is read is the
    same. *)
Theorem checksum_lines_commute
  (lines1 lines2 : list string) (line line' : string) :
  (forall var value var' value',
      assignment_match line = Some (var, value) ->
      assignment_match line' = Some (var', value') -> var <> var') ->
  checksum_lines (lines1 ++ line :: line' :: lines2)
  = checksum_lines (lines1 ++ line' :: line :: lines2).
Proof.
  intros H. rewrite !checksum_lines_app. cbn [fold_left]. f_equal.
  unfold checksum_line.
  destruct (assignment_match line) as [[var value]|],
    (assignment_match line') as [[var' value']|]; try reflexivity.
  apply insert_insert_ne. intros ->. now apply (H var value var value').
Qed.

Lemma checksum_lines_commute_witness :
  checksum_lines (["# sums"] ++ "md5=a" :: "sha1=b" :: ["cksum=c"])
  = checksum_lines (["# sums"] ++ "sha1=b" :: "md5=a" :: ["cksum=c"]).
Proof.
  apply checksum_lines_commute.
  intros var value var' value' H H'.
  injection H as <- _. injection H' as <- _. discriminate.
Defined.

(** ** More on the dependency accessors *)

Lemma partition_before_count (sep : ascii) (s : string) :
  Py.count sep (fst (fst (Py.partition sep s))) = 0.
Proof.
  induction s as [|a s IH]; simpl; [reflexivity |].
  destruct (Ascii.eqb a sep) eqn:E; [reflexivity |].
  destruct (Py.partition sep s) as [[x m] y]. simpl in *. now rewrite E.
Qed.

Lemma count_strip (c : ascii) (s : string) :
  Py.count c (Py.strip s) <= Py.count c s.
Proof.
  unfold Py.strip. pose proof (count_rstrip c (Py.lstrip s)).
  pose proof (count_lstrip c s). lia.
Qed.

Lemma split_part (c : ascii) (s w : string) :
  In w (Py.split s) ->
  w <> "" /\ no_space w = true /\ Py.count c w <= Py.count c s.
Proof.
  intros H. pose proof (split_parts c s) as Hp.
  now apply (proj1 (List.Forall_forall _ _) Hp).
Qed.

(** X13.  Every name in the three dependency lists is a non-empty string
    without whitespace, and a name among the ordinary dependencies holds
    no [|]. *)
Theorem dependency_names (self : Package) (tok : string) :
  (In tok (dependencies self) ->
   tok <> "" /\ no_space tok = true /\ Py.count "|" tok = 0)
  /\ (In tok (dependencies_order_only self) -> tok <> "" /\ no_space tok = true)
  /\ (In tok (dependencies_check self) -> tok <> "" /\ no_space tok = true).
Proof.
  unfold dependencies, dependencies_order_only, dependencies_check.
  split; [| split].
  - intros H. apply (split_part "|") in H as (H1 & H2 & H3).
    split; [exact H1 |]. split; [exact H2 |].
    pose proof (count_strip "|"
                  (fst (fst (Py.partition "|" (__dependencies self))))) as Hs.
    rewrite partition_before_count in Hs. lia.
  - intros H. apply in_app_or in H as [H | H];
      apply (split_part "|") in H; tauto.
  - intros H. apply (split_part "|") in H. tauto.
Qed.

Lemma dependency_names_witness :
  "b" <> "" /\ no_space "b" = true /\ Py.count "|" "b" = 0.
Proof.
  apply (proj1 (dependency_names
                  {| __name := "pkg"; __md5 := None; __sha1 := None;
                     __cksum := None; __tarball_pattern := None;
                     __tarball_upstream_url_pattern := None;
                     __tarball_package_name := "pkg"; __version := None;
                     __patchlevel := None; __type := "standard";
                     __install_requires := None;
                     __dependencies := "a b | c|d";
                     __dependencies_check := "";
                     __dependencies_order_only := "" |} "b")).
  simpl. auto.
Defined.

(** X14.  A missing optional file is data, not an error.  Without
    [checksums.ini] both tarball accessors return [None], with any fuel;
    without [install-requires.txt] there is no distribution name; without
    [dependencies] there are no ordinary dependencies and the order-only
    ones are those of the order-only file; without
    [dependencies_order_only] the order-only dependencies are those of the
    dependencies line.  An empty dependency file counts as a missing one. *)
Theorem missing_files_are_data (n : string) (dir : PackageDir) (self : Package) :
  __init__ n dir = Ok self ->
  (checksums_ini dir = None ->
   forall fuel, tarball_filename fuel self = Some (Ok None)
                /\ tarball_upstream_url fuel self = Some (Ok None))
  /\ (install_requires_txt dir = None -> distribution_name self = None)
  /\ (dependencies_file dir = None \/ dependencies_file dir = Some "" ->
      dependencies self = []
      /\ dependencies_order_only self
         = Py.split (first_line (dependencies_order_only_file dir)))
  /\ (dependencies_order_only_file dir = None
      \/ dependencies_order_only_file dir = Some "" ->
      dependencies_check self = []
      /\ dependencies_order_only self
         = Py.split (snd (Py.partition "|" (__dependencies self)))).
Proof.
  rewrite init_unfold.
  destruct (_init_type (type_file dir)) as [t|e]; [| discriminate].
  intros E. injection E as <-.
  unfold tarball_filename, tarball_upstream_url, tarball_pattern,
    tarball_upstream_url_pattern, distribution_name, dependencies,
    dependencies_order_only, dependencies_check.
  cbn [__tarball_pattern __tarball_upstream_url_pattern __install_requires
       __dependencies __dependencies_order_only].
  assert (Hempty : forall file, file = None \/ file = Some "" ->
                                first_line file = "")
    by (intros file [-> | ->]; reflexivity).
  split; [| split; [| split]].
  - intros -> fuel. split; reflexivity.
  - now intros ->.
  - intros H. rewrite (Hempty _ H), !split_strip. split; reflexivity.
  - intros H. rewrite (Hempty _ H), !split_strip. split; [reflexivity |].
    apply app_nil_r.
Qed.

Lemma missing_files_are_data_witness :
  exists self,
    __init__ "pkg" (dir_with_dependencies None None (Some "x y")) = Ok self
    /\ (forall fuel, tarball_filename fuel self = Some (Ok None)
                     /\ tarball_upstream_url fuel self = Some (Ok None))
    /\ dependencies self = []
    /\ dependencies_order_only self
       = Py.split (first_line (Some "x y")).
Proof.
  eexists. split; [reflexivity |].
  pose proof (missing_files_are_data "pkg"
                (dir_with_dependencies None None (Some "x y")) _ eq_refl)
    as (H1 & _ & H3 & _).
  split; [apply H1; reflexivity |]. apply H3. left. reflexivity.
Defined.

(** ** The package that owns the tarball *)

(** X15.  For a package loaded under the name [n], [tarball_package] is
    the package itself when [checksums.ini] really lies in the directory
    [n].  Otherwise it is the package loaded under the name of the
    directory where the file really lies, and it fails with [IOError] when
    that directory has no [type] file.  The package it returns has that
    name; it has the checksums and patterns of the first package when the
    two directories hold the same [checksums.ini]; and it is its own
    tarball package when the real place of its own [checksums.ini] is its
    directory. *)
Theorem tarball_package_canonical
  (pkgs : string -> PackageDir) (n : string) (self : Package) :
  __init__ n (pkgs n) = Ok self ->
  (realdir (pkgs n) = n -> tarball_package pkgs self = Ok self)
  /\ (realdir (pkgs n) <> n ->
      tarball_package pkgs self
      = __init__ (realdir (pkgs n)) (pkgs (realdir (pkgs n))))
  /\ (realdir (pkgs n) <> n -> type_file (pkgs (realdir (pkgs n))) = None ->
      tarball_package pkgs self = Raise IOError)
  /\ (forall p,
        tarball_package pkgs self = Ok p ->
        name p = realdir (pkgs n)
        /\ (checksums_ini (pkgs (realdir (pkgs n))) = checksums_ini (pkgs n) ->
            md5 p = md5 self /\ sha1 p = sha1 self /\ cksum p = cksum self
            /\ tarball_pattern p = tarball_pattern self
            /\ tarball_upstream_url_pattern p
               = tarball_upstream_url_pattern self)
        /\ (realdir (pkgs (realdir (pkgs n))) = realdir (pkgs n) ->
            tarball_package pkgs p = Ok p)).
Proof.
  intros Hinit.
  assert (Hself : __tarball_package_name self = realdir (pkgs n)
                  /\ name self = n).
  { rewrite init_unfold in Hinit.
    destruct (_init_type (type_file (pkgs n))); [| discriminate].
    injection Hinit as <-. split; reflexivity. }
  destruct Hself as [Hreal Hname].
  assert (Hne : realdir (pkgs n) <> n ->
                tarball_package pkgs self
                = __init__ (realdir (pkgs n)) (pkgs (realdir (pkgs n)))).
  { intros H. unfold tarball_package. rewrite Hreal, Hname.
    apply String.eqb_neq in H. now rewrite H. }
  assert (Heq : realdir (pkgs n) = n -> tarball_package pkgs self = Ok self).
  { intros H. unfold tarball_package. rewrite Hreal, Hname, H.
    now rewrite String.eqb_refl. }
  split; [exact Heq |]. split; [exact Hne |]. split.
  - intros H Ht. rewrite (Hne H), init_unfold. unfold _init_type. now rewrite Ht.
  - intros p Hp.
    destruct (String.eqb (realdir (pkgs n)) n) eqn:E.
    + apply String.eqb_eq in E. rewrite (Heq E) in Hp. injection Hp as <-.
      split; [congruence |]. split; [intros _; repeat split |].
      intros _. now apply Heq.
    + apply String.eqb_neq in E. rewrite (Hne E) in Hp.
      rewrite init_unfold in Hp, Hinit.
      destruct (_init_type (type_file (pkgs (realdir (pkgs n)))));
        [| discriminate].
      destruct (_init_type (type_file (pkgs n))); [| discriminate].
      injection Hp as <-. injection Hinit as <-.
      split; [reflexivity |]. split.
      * intros Hc. unfold md5, sha1, cksum, tarball_pattern,
          tarball_upstream_url_pattern. cbn. rewrite Hc. repeat split.
      * intros Hr. unfold tarball_package, name. cbn. rewrite Hr.
        now rewrite String.eqb_refl.
Qed.

Lemma tarball_package_canonical_witness :
  exists self,
    __init__ "alias" (example_pkgs "alias") = Ok self
    /\ tarball_package example_pkgs self
       = __init__ (realdir (example_pkgs "alias"))
           (example_pkgs (realdir (example_pkgs "alias"))).
Proof.
  eexists. split; [reflexivity |].
  apply (proj1 (proj2 (tarball_package_canonical example_pkgs "alias" _ eq_refl))).
  discriminate.
Defined.

(** ** The loop of the substitution and the single pass *)

Example expand_example :
  expand (getattr (with_version (Some "3.11.2")))
    "VERSION/pkg-${VERSION_MAJOR}.VERSION_MINOR-$VERSION_MICRO}.${VERSION}.tgz"
  = "3.11.2/pkg-3.11-$2}.3.11.2.tgz".
Proof. reflexivity. Qed.

Section PrefixFacts.

Lemma length_append (a b : string) :
  String.length (a ++ b) = String.length a + String.length b.
Proof. induction a as [|c a IH]; simpl; [reflexivity | now rewrite IH]. Qed.

Lemma drop_length_append (a b : string) :
  Py.drop (String.length a) (a ++ b) = b.
Proof. induction a as [|c a IH]; simpl; [reflexivity | exact IH]. Qed.

Lemma startswith_longer (t b y : string) :
  Py.startswith t b = true -> Py.startswith t (b ++ y) = true.
Proof.
  revert b; induction t as [|c t IH]; intros [|c' b]; simpl; try easy.
  intros H. apply andb_true_iff in H as [-> H]. now apply IH.
Qed.

Lemma startswith_length (t s : string) :
  Py.startswith t s = true -> String.length t <= String.length s.
Proof.
  revert s; induction t as [|c t IH]; intros [|c' s]; simpl; try easy; [lia |].
  intros H. apply andb_true_iff in H as [_ H]. apply IH in H. lia.
Qed.

(** A prefix of [b ++ y] lies in [b] or runs over its end. *)
Lemma startswith_append_cases (t b y : string) :
  Py.startswith t (b ++ y) = true ->
  Py.startswith t b = true
  \/ exists w, w <> "" /\ t = b ++ w /\ Py.startswith w y = true.
Proof.
  revert b; induction t as [|c t IH]; intros b H; [now left |].
  destruct b as [|c' b].
  - right. exists (String c t). split; [discriminate | split; [reflexivity | exact H]].
  - simpl in H. apply andb_true_iff in H as [Hc H].
    apply Ascii.eqb_eq in Hc. subst c'.
    destruct (IH b H) as [Hb | (w & Hw & -> & Hy)].
    + left. simpl. now rewrite Ascii.eqb_refl.
    + right. exists w. split; [exact Hw | split; [reflexivity | exact Hy]].
Qed.

(** Two prefixes of one string: one is a prefix of the other. *)
Lemma startswith_comparable (w x y : string) :
  Py.startswith w (x ++ y) = true ->
  Py.startswith w x = true \/ Py.startswith x w = true.
Proof.
  intros H. destruct (startswith_append_cases w x y H) as [Hx | (u & _ & -> & _)].
  - now left.
  - right. apply startswith_append.
Qed.

Lemma contains_cons_false (t : string) (c : ascii) (s : string) :
  Py.contains t (String c s) = false ->
  Py.startswith t (String c s) = false /\ Py.contains t s = false.
Proof. cbn [Py.contains]. apply orb_false_iff. Qed.

Lemma contains_false_startswith (t s : string) :
  Py.contains t s = false -> Py.startswith t s = false.
Proof.
  destruct s; [exact (fun H => H) |]. intros H.
  now apply contains_cons_false in H.
Qed.

End PrefixFacts.

Section SpellingFacts.

Lemma spelling_at_same (vars : list string) (s s' : string) :
  Forall (fun t => Py.startswith t s = Py.startswith t s')
         (flat_map (fun var => [dollar_brace var; var]) vars) ->
  spelling_at vars s = spelling_at vars s'.
Proof.
  induction vars as [|var vars IH]; [reflexivity |].
  cbn [flat_map app spelling_at]. intros H.
  apply Forall_cons_iff in H as [-> H]. apply Forall_cons_iff in H as [-> H].
  now rewrite (IH H).
Qed.

Lemma spelling_at_none (vars : list string) (s : string) :
  Forall (fun t => Py.startswith t s = false)
         (flat_map (fun var => [dollar_brace var; var]) vars) ->
  spelling_at vars s = None.
Proof.
  induction vars as [|var vars IH]; [reflexivity |].
  cbn [flat_map app spelling_at]. intros H.
  apply Forall_cons_iff in H as [-> H]. apply Forall_cons_iff in H as [-> H].
  now apply IH.
Qed.

Lemma spelling_at_some (vars : list string) (s tok var : string) :
  spelling_at vars s = Some (tok, var) ->
  In tok (flat_map (fun var => [dollar_brace var; var]) vars)
  /\ Py.startswith tok s = true.
Proof.
  induction vars as [|v vars IH]; [discriminate |].
  cbn [flat_map app spelling_at].
  destruct (Py.startswith (dollar_brace v) s) eqn:Eb.
  - intros H. injection H as <- <-. split; [now left | exact Eb].
  - destruct (Py.startswith v s) eqn:Ev.
    + intros H. injection H as <- <-. split; [right; now left | exact Ev].
    + intros H. destruct (IH H) as [Hin Hs]. split; [| exact Hs].
      right. now right.
Qed.

(** Every spelling is written with the characters of the alphabet, and no
    spelling is empty. *)
Lemma spelling_alphabet (t : string) :
  In t token_spellings ->
  forallb in_alphabet (list_ascii_of_string t) = true /\ t <> "".
Proof.
  simpl. intros H.
  repeat (destruct H as [<- | H]; [split; [reflexivity | discriminate] |]).
  destruct H.
Qed.

(** When a spelling runs over the end of a prefix [b] and what is left of
    it agrees with another spelling, the first one is tested before the
    other. *)
Lemma overlap_table :
  forallb (fun t =>
    forallb (fun tok =>
      forallb (fun k =>
        implb (Py.startswith (Py.drop k t) tok || Py.startswith tok (Py.drop k t))
              (existsb (String.eqb t) (tested_before tok token_spellings)))
        (seq 1 (String.length t - 1)))
      token_spellings)
    token_spellings = true.
Proof. vm_compute. reflexivity. Qed.

Lemma overlap_earlier (t tok b w : string) :
  In t token_spellings -> In tok token_spellings ->
  b <> "" -> w <> "" -> t = b ++ w ->
  Py.startswith w tok = true \/ Py.startswith tok w = true ->
  In t (tested_before tok token_spellings).
Proof.
  intros Ht Htok Hb Hw E Hc.
  pose proof overlap_table as H.
  rewrite List.forallb_forall in H. specialize (H t Ht).
  rewrite List.forallb_forall in H. specialize (H tok Htok).
  rewrite List.forallb_forall in H. specialize (H (String.length b)).
  assert (Hk : In (String.length b) (seq 1 (String.length t - 1))).
  { apply in_seq. rewrite E, length_append.
    destruct b; [congruence |]. destruct w; [congruence |]. simpl. lia. }
  specialize (H Hk). rewrite E, drop_length_append in H.
  assert (Hcb : Py.startswith w tok || Py.startswith tok w = true)
    by (apply orb_true_iff; exact Hc).
  rewrite Hcb in H. simpl in H. apply existsb_eqb_In in H. now rewrite E.
Qed.

Lemma tested_before_app (tok : string) (before after : list string) :
  ~ In tok before ->
  tested_before tok (before ++ tok :: after) = before.
Proof.
  induction before as [|t before IH]; intros H; cbn [tested_before app].
  - now rewrite String.eqb_refl.
  - destruct (String.eqb t tok) eqn:E.
    + apply String.eqb_eq in E. subst t. destruct H. now left.
    + rewrite IH; [reflexivity |]. intros Hin. apply H. now right.
Qed.

End SpellingFacts.

Section OnePassFacts.

Variable getattr_self : string -> result (option string).

Lemma expand_skip (x rest : string) :
  expand_from getattr_self (String.length x) (x ++ rest)
  = expand_from getattr_self 0 rest.
Proof.
  induction x as [|c x IH]; [now destruct rest |]. exact IH.
Qed.

Lemma expand_no_token (s : string) :
  no_token s -> expand getattr_self s = s.
Proof.
  unfold expand. induction s as [|c s IH]; intros H; [reflexivity |].
  cbn [expand_from]. rewrite spelling_at_none.
  - f_equal. apply IH. eapply List.Forall_impl; [| exact H].
    intros t Ht. now apply contains_cons_false in Ht.
  - eapply List.Forall_impl; [| exact H].
    intros t Ht. now apply contains_cons_false in Ht.
Qed.

(** Reading a prefix [b] that no spelling leaves, whatever follows it. *)
Lemma expand_prefix (b y y' : string) :
  (forall a' b' t, b = a' ++ b' -> b' <> "" -> In t token_spellings ->
                   Py.startswith t (b' ++ y) = true ->
                   Py.startswith t b' = true) ->
  (forall a' b' t, b = a' ++ b' -> b' <> "" -> In t token_spellings ->
                   Py.startswith t (b' ++ y') = true ->
                   Py.startswith t b' = true) ->
  forall skip, skip <= String.length b ->
  exists F,
    expand_from getattr_self skip (b ++ y) = F ++ expand_from getattr_self 0 y
    /\ expand_from getattr_self skip (b ++ y')
       = F ++ expand_from getattr_self 0 y'.
Proof.
  induction b as [|c b IH]; intros Hy Hy' skip Hskip.
  - simpl in Hskip. replace skip with 0 by lia. exists "". split; reflexivity.
  - assert (Hty : forall a' b' t, b = a' ++ b' -> b' <> "" ->
              In t token_spellings -> Py.startswith t (b' ++ y) = true ->
              Py.startswith t b' = true).
    { intros a' b' t -> Hb'. now apply (Hy (String c a')). }
    assert (Hty' : forall a' b' t, b = a' ++ b' -> b' <> "" ->
              In t token_spellings -> Py.startswith t (b' ++ y') = true ->
              Py.startswith t b' = true).
    { intros a' b' t -> Hb'. now apply (Hy' (String c a')). }
    specialize (IH Hty Hty').
    change (String c b ++ y) with (String c (b ++ y)).
    change (String c b ++ y') with (String c (b ++ y')).
    cbn [expand_from]. destruct skip as [|skip].
    + assert (Hsame : spelling_at VARS (String c (b ++ y'))
                      = spelling_at VARS (String c (b ++ y))).
      { apply spelling_at_same. apply List.Forall_forall. intros t Ht.
        change (String c (b ++ y)) with (String c b ++ y).
        change (String c (b ++ y')) with (String c b ++ y').
        destruct (Py.startswith t (String c b ++ y)) eqn:E.
        - apply (Hy "" (String c b) t eq_refl) in E; [| discriminate | exact Ht].
          now apply startswith_longer.
        - destruct (Py.startswith t (String c b ++ y')) eqn:E'; [| reflexivity].
          apply (Hy' "" (String c b) t eq_refl) in E'; [| discriminate | exact Ht].
          apply (startswith_longer t (String c b) y) in E'. congruence. }
      rewrite Hsame.
      destruct (spelling_at VARS (String c (b ++ y))) as [[tok var]|] eqn:Es.
      * apply spelling_at_some in Es as [Hin Hs].
        change (String c (b ++ y)) with (String c b ++ y) in Hs.
        apply (Hy "" (String c b) tok eq_refl) in Hs; [| discriminate | exact Hin].
        apply startswith_length in Hs. simpl in Hs.
        destruct (IH (String.length tok - 1)) as (F & E1 & E2); [lia |].
        exists (value_of getattr_self var ++ F).
        rewrite E1, E2, !append_assoc. split; reflexivity.
      * destruct (IH 0) as (F & E1 & E2); [lia |].
        exists (String c F). rewrite E1, E2. split; reflexivity.
    + destruct (IH skip) as (F & E1 & E2); [simpl in Hskip; lia |].
      exists F. split; assumption.
Qed.

Lemma alphabet_append (a b : string) :
  forallb in_alphabet (list_ascii_of_string (a ++ b)) = true ->
  forallb in_alphabet (list_ascii_of_string a) = true
  /\ forallb in_alphabet (list_ascii_of_string b) = true.
Proof.
  induction a as [|c a IH]; intros H; [split; [reflexivity | exact H] |].
  change (String c a ++ b) with (String c (a ++ b)) in H.
  cbn [list_ascii_of_string forallb] in *.
  apply andb_true_iff in H as [Hc H]. destruct (IH H) as [Ha Hb].
  rewrite Hc, Ha. split; [reflexivity | exact Hb].
Qed.

Lemma last_char_append (a b : string) :
  b <> "" -> last_char (a ++ b) = last_char b.
Proof.
  intros Hb. induction a as [|c a IH]; [reflexivity |].
  change (String c a ++ b) with (String c (a ++ b)). cbn [last_char].
  destruct (a ++ b) eqn:E; [| exact IH].
  destruct a; destruct b; simpl in E; congruence.
Qed.

Lemma last_char_some (s : string) : s <> "" -> exists d, last_char s = Some d.
Proof.
  induction s as [|c s IH]; intros H; [congruence |].
  destruct s as [|c' s]; [now exists c |].
  destruct IH as [d Hd]; [discriminate |]. now exists d.
Qed.

Lemma alphabet_last (t : string) (d : ascii) :
  forallb in_alphabet (list_ascii_of_string t) = true ->
  last_char t = Some d -> in_alphabet d = true.
Proof.
  induction t as [|c t IH]; [discriminate |].
  cbn [list_ascii_of_string forallb]. intros H.
  apply andb_true_iff in H as [Hc H].
  destruct t as [|c' t]; [intros E; injection E as <-; exact Hc |].
  intros E. now apply IH.
Qed.

Lemma outside_last (t : string) (d : ascii) :
  forallb (fun c => negb (in_alphabet c)) (list_ascii_of_string t) = true ->
  last_char t = Some d -> in_alphabet d = false.
Proof.
  induction t as [|c t IH]; [discriminate |].
  cbn [list_ascii_of_string forallb]. intros H.
  apply andb_true_iff in H as [Hc H]. apply negb_true_iff in Hc.
  destruct t as [|c' t]; [intros E; injection E as <-; exact Hc |].
  intros E. now apply IH.
Qed.

Lemma outside_no_VERSION (value : string) :
  forallb (fun c => negb (in_alphabet c)) (list_ascii_of_string value) = true ->
  Py.contains "VERSION" value = false.
Proof.
  induction value as [|c v IH]; intros H; [reflexivity |].
  cbn [list_ascii_of_string forallb] in H. apply andb_true_iff in H as [Hc H].
  cbn [Py.contains]. rewrite (IH H), orb_false_r.
  change "VERSION" with (String "V" "ERSION"). cbn [Py.startswith].
  destruct (Ascii.eqb "V" c) eqn:E; [| reflexivity].
  apply Ascii.eqb_eq in E. subst c. vm_compute in Hc. discriminate Hc.
Qed.

Lemma stands_alone_spec (value : string) :
  stands_alone value = true ->
  exists c rest d,
    value = String c rest /\ in_alphabet c = false
    /\ last_char value = Some d /\ in_alphabet d = false
    /\ Py.contains "VERSION" value = false.
Proof.
  unfold stands_alone. intros H.
  apply andb_true_iff in H as [H H3]. apply andb_true_iff in H as [H1 H2].
  apply negb_true_iff in H3.
  destruct (last_char value) as [d|] eqn:El; [| discriminate H2].
  destruct value as [|c rest]; [discriminate H1 |].
  cbn [first_char outside_alphabet] in H1, H2.
  apply negb_true_iff in H1, H2.
  exists c, rest, d. split; [reflexivity |]. split; [exact H1 |].
  split; [reflexivity |]. split; [exact H2 | exact H3].
Qed.

Lemma inert_chars (value : string) :
  inert value = true ->
  value <> ""
  /\ forallb (fun c => negb (in_alphabet c)) (list_ascii_of_string value) = true.
Proof. destruct value; [discriminate |]. intros H. split; [discriminate | exact H]. Qed.

(** A value without any character of the spellings stands alone. *)
Lemma inert_stands_alone (value : string) :
  inert value = true -> stands_alone value = true.
Proof.
  intros H. apply inert_chars in H as [Hne H].
  destruct (last_char_some value Hne) as [d Hd].
  unfold stands_alone.
  rewrite Hd, (outside_no_VERSION value H). cbn [outside_alphabet].
  rewrite (outside_last value d H Hd).
  destruct value as [|c rest]; [congruence |].
  cbn [list_ascii_of_string forallb] in H. apply andb_true_iff in H as [Hc _].
  cbn [first_char outside_alphabet]. now rewrite Hc.
Qed.

(** No spelling runs from the text before a value into the value. *)
Lemma no_entry (c : ascii) (rest w y : string) :
  in_alphabet c = false -> w <> "" ->
  forallb in_alphabet (list_ascii_of_string w) = true ->
  Py.startswith w (String c rest ++ y) = false.
Proof.
  intros Hc Hw Ha. destruct w as [|x w]; [congruence |].
  cbn [list_ascii_of_string forallb] in Ha. apply andb_true_iff in Ha as [Hx _].
  change (String c rest ++ y) with (String c (rest ++ y)). cbn [Py.startswith].
  destruct (Ascii.eqb x c) eqn:E; [| reflexivity].
  apply Ascii.eqb_eq in E. congruence.
Qed.

Lemma contains_append_r (u s r : string) :
  Py.contains u s = true -> Py.contains u (s ++ r) = true.
Proof.
  intros H. destruct (replace1_found u "" s H) as (pre & post & -> & _).
  rewrite !append_assoc. apply contains_middle.
Qed.

(** No text that holds the word VERSION starts inside a value. *)
Lemma no_start_inside (value a1 a2 t y : string) :
  stands_alone value = true -> value = a1 ++ a2 -> a2 <> "" ->
  forallb in_alphabet (list_ascii_of_string t) = true ->
  Py.contains "VERSION" t = true ->
  Py.startswith t (a2 ++ y) = false.
Proof.
  intros Hv E Ha2 Ht Hc.
  destruct (stands_alone_spec value Hv) as (c & rest & d & _ & _ & Hl & Hd & Hno).
  destruct (Py.startswith t (a2 ++ y)) eqn:Es; [exfalso | reflexivity].
  destruct (startswith_append_cases t a2 y Es) as [H | (w & Hw & -> & _)].
  - apply startswith_split in H.
    assert (Py.contains "VERSION" value = true); [| congruence].
    rewrite E, H. apply contains_append_l. now apply contains_append_r.
  - apply alphabet_append in Ht as [Ht _].
    rewrite E, (last_char_append a1 a2 Ha2) in Hl.
    apply (alphabet_last a2 d Ht) in Hl. congruence.
Qed.

(** An occurrence in [a ++ b] starts in [a] or lies in [b]. *)
Lemma contains_append_cases (t a b : string) :
  Py.contains t (a ++ b) = true ->
  (exists a1 a2, a = a1 ++ a2 /\ a2 <> "" /\ Py.startswith t (a2 ++ b) = true)
  \/ Py.contains t b = true.
Proof.
  induction a as [|c a IH]; intros H; [now right |].
  change (String c a ++ b) with (String c (a ++ b)) in H. cbn [Py.contains] in H.
  apply orb_true_iff in H as [H | H].
  - left. exists "", (String c a).
    split; [reflexivity |]. split; [discriminate | exact H].
  - destruct (IH H) as [(a1 & a2 & -> & Ha2 & Hs) | Hb]; [left | now right].
    exists (String c a1), a2. split; [reflexivity |]. split; assumption.
Qed.

(** Around a value that stands alone, an occurrence of a name lies before
    the value or behind it. *)
Lemma occurrence_beside (t pre value post : string) :
  stands_alone value = true ->
  forallb in_alphabet (list_ascii_of_string t) = true ->
  Py.contains "VERSION" t = true ->
  Py.contains t (pre ++ value ++ post) = true ->
  Py.contains t pre = true \/ Py.contains t post = true.
Proof.
  intros Hv Ht Hc H.
  destruct (stands_alone_spec value Hv) as (c & rest & d & Ev & Hcn & _).
  destruct (contains_append_cases t pre _ H) as [(a1 & a2 & -> & Ha2 & Hs) | H'].
  - left.
    destruct (startswith_append_cases t a2 _ Hs) as [Hin | (w & Hw & -> & Hwy)].
    + apply contains_append_l. now apply contains_startswith.
    + exfalso. apply alphabet_append in Ht as [_ Hw'].
      rewrite Ev in Hwy. rewrite (no_entry c rest w post Hcn Hw Hw') in Hwy.
      discriminate.
  - destruct (contains_append_cases t value post H')
      as [(a1 & a2 & E & Ha2 & Hs) | Hp]; [exfalso | now right].
    rewrite (no_start_inside value a1 a2 t post Hv E Ha2 Ht Hc) in Hs.
    discriminate.
Qed.

Lemma occurrences_append_le (t a b : string) :
  occurrences t a + occurrences t b <= occurrences t (a ++ b).
Proof.
  induction a as [|c a IH]; [simpl; lia |].
  change (String c a ++ b) with (String c (a ++ b)). cbn [occurrences].
  change (String c (a ++ b)) with (String c a ++ b).
  destruct (Py.startswith t (String c a)) eqn:E.
  - rewrite (startswith_longer t _ b E). lia.
  - destruct (Py.startswith t (String c a ++ b)); lia.
Qed.

Lemma occurrences_append (t a b : string) :
  (forall a1 a2, a = a1 ++ a2 -> a2 <> "" ->
                 Py.startswith t (a2 ++ b) = true ->
                 Py.startswith t a2 = true) ->
  occurrences t (a ++ b) = occurrences t a + occurrences t b.
Proof.
  induction a as [|c a IH]; intros H; [reflexivity |].
  change (String c a ++ b) with (String c (a ++ b)). cbn [occurrences].
  rewrite IH.
  - change (String c (a ++ b)) with (String c a ++ b).
    destruct (Py.startswith t (String c a ++ b)) eqn:E.
    + rewrite (H "" (String c a) eq_refl); [lia | discriminate | exact E].
    + destruct (Py.startswith t (String c a)) eqn:E'; [| lia].
      apply (startswith_longer t _ b) in E'. congruence.
  - intros a1 a2 -> Ha2. now apply (H (String c a1) a2).
Qed.

Lemma occurrences_none (t s : string) :
  Py.contains t s = false -> occurrences t s = 0.
Proof.
  induction s as [|c s IH]; intros H; [reflexivity |].
  apply contains_cons_false in H as [Hs Hc]. cbn [occurrences].
  now rewrite Hs, (IH Hc).
Qed.

Lemma spelling_holds_VERSION (t : string) :
  In t token_spellings ->
  Py.contains "VERSION" t = true /\ 1 <= occurrences "VERSION" t.
Proof.
  simpl. intros H.
  repeat (destruct H as [<- | H]; [split; [reflexivity | vm_compute; lia] |]).
  destruct H.
Qed.

Lemma var_spellings (var : string) :
  In var VARS -> In var token_spellings.
Proof.
  intros H. unfold token_spellings. apply in_flat_map. exists var.
  split; [exact H |]. right. now left.
Qed.

(** A value that stands alone is read as it is. *)
Lemma expand_value (value : string) :
  stands_alone value = true ->
  forall a2 a1 rest, value = a1 ++ a2 ->
    expand_from getattr_self 0 (a2 ++ rest)
    = a2 ++ expand_from getattr_self 0 rest.
Proof.
  intros Hv. induction a2 as [|c a2 IH]; intros a1 rest E; [reflexivity |].
  change (String c a2 ++ rest) with (String c (a2 ++ rest)).
  cbn [expand_from]. rewrite spelling_at_none.
  - change (String c a2 ++ expand_from getattr_self 0 rest)
      with (String c (a2 ++ expand_from getattr_self 0 rest)).
    f_equal. apply (IH (a1 ++ String c "")). rewrite E, append_assoc. reflexivity.
  - apply List.Forall_forall. intros t Ht.
    change (String c (a2 ++ rest)) with (String c a2 ++ rest).
    destruct (spelling_alphabet t Ht) as [Ha _].
    destruct (spelling_holds_VERSION t Ht) as [Hc _].
    apply (no_start_inside value a1 (String c a2) t rest Hv E);
      [discriminate | exact Ha | exact Hc].
Qed.

(** The first spelling that occurs is the one that the single pass takes
    where it starts. *)
Lemma spelling_at_first (vars : list string) (s tok : string)
      (before after : list string) :
  flat_map (fun var => [dollar_brace var; var]) vars
  = (before ++ tok :: after)%list ->
  Forall (fun t => Py.startswith t s = false) before ->
  Py.startswith tok s = true ->
  exists var, spelling_at vars s = Some (tok, var)
              /\ In var vars /\ (tok = dollar_brace var \/ tok = var).
Proof.
  revert before; induction vars as [|v vars IH]; intros before E Hb Hs.
  - destruct before; discriminate E.
  - cbn [flat_map app spelling_at] in *.
    destruct before as [|x [|y before]].
    + injection E as <- _. rewrite Hs. exists v.
      split; [reflexivity |]. split; [now left | now left].
    + injection E as <- <- _. apply Forall_cons_iff in Hb as [-> _].
      rewrite Hs. exists v. split; [reflexivity |]. split; [now left | now right].
    + injection E as <- <- E.
      apply Forall_cons_iff in Hb as [-> Hb].
      apply Forall_cons_iff in Hb as [-> Hb].
      destruct (IH before E Hb Hs) as (var & H1 & H2 & H3).
      exists var. split; [exact H1 |]. split; [now right | exact H3].
Qed.

Lemma spelling_var (var var' tok : string) :
  In var VARS -> In var' VARS ->
  tok = dollar_brace var \/ tok = var ->
  tok = dollar_brace var' \/ tok = var' ->
  var = var'.
Proof.
  simpl. intros H H' [-> | ->] E;
    repeat (destruct H as [<- | H]; [| idtac]); try destruct H;
    repeat (destruct H' as [<- | H']; [| idtac]); try destruct H';
    destruct E as [E | E]; try discriminate E; reflexivity.
Qed.

(** A failing step comes from a variable that is named in the pattern. *)
Lemma substitute_for_raises (vars : list string) (pattern : string) (e : exn) :
  substitute_for getattr_self vars pattern = Raise e ->
  exists var, In var vars /\ Py.contains var pattern = true
              /\ forall value, getattr_self (Py.lower var) <> Ok (Some value).
Proof.
  induction vars as [|var vars IH]; simpl; [discriminate |].
  destruct (Py.contains (dollar_brace var) pattern) eqn:Eb.
  - destruct (getattr_self (Py.lower var)) as [[value|]|e'] eqn:Eg;
      simpl; try discriminate; intros _; exists var;
      (split; [now left |]); (split; [now apply braced_contains_bare |]);
      intros value'; rewrite Eg; discriminate.
  - destruct (Py.contains var pattern) eqn:Ev.
    + destruct (getattr_self (Py.lower var)) as [[value|]|e'] eqn:Eg;
        simpl; try discriminate; intros _; exists var;
        (split; [now left |]); (split; [exact Ev |]);
        intros value'; rewrite Eg; discriminate.
    + intros E. destruct (IH E) as (v & Hin & H). exists v.
      split; [now right | exact H].
Qed.

(** A step of the loop does not change what the single pass gives; it keeps
    the names that occur among those that occurred, and takes away one
    occurrence of the word VERSION. *)
Lemma step_stands_alone (pattern pattern' : string) :
  named_values_stand_alone getattr_self pattern ->
  _substitute_variables_once getattr_self pattern = Ok (pattern', true) ->
  expand getattr_self pattern' = expand getattr_self pattern
  /\ named_values_stand_alone getattr_self pattern'
  /\ occurrences "VERSION" pattern' < occurrences "VERSION" pattern.
Proof.
  intros Hvalues Hstep.
  destruct (substitute_for_first getattr_self VARS pattern pattern' Hstep)
    as (var & tok & value & before & after & Hvar & Htok & Hl & Hb & Hct & Hg & ->).
  fold token_spellings in Hl.
  assert (Htokin : In tok token_spellings)
    by (rewrite Hl; apply in_or_app; right; now left).
  assert (Hnb : ~ In tok before).
  { intros H. apply (proj1 (List.Forall_forall _ _) Hb) in H. congruence. }
  pose proof (tested_before_app tok before after Hnb) as Htb. rewrite <- Hl in Htb.
  assert (Hnamed : Py.contains var pattern = true).
  { destruct Htok as [E | E]; rewrite E in Hct;
      [now apply braced_contains_bare | exact Hct]. }
  destruct (Hvalues var Hvar Hnamed) as (value' & Hg' & Hv).
  assert (value' = value) by congruence. subst value'.
  destruct (stands_alone_spec value Hv) as (c & rest & d & Ev & Hc & _ & _ & Hno).
  destruct (replace1_found tok value pattern Hct) as (pre & post & -> & ->).
  split; [| split].
  - unfold expand.
    destruct (expand_prefix pre (tok ++ post) (value ++ post)) with (skip := 0)
      as (F & E1 & E2).
    + (* no spelling runs from [pre] into the token *)
      intros a' b' t -> Hb' Ht Hs.
      destruct (startswith_append_cases t b' _ Hs) as [H | (w & Hw & -> & Hwy)];
        [exact H | exfalso].
      assert (Hocc : Py.contains (b' ++ w) ((a' ++ b') ++ tok ++ post) = true).
      { rewrite append_assoc. apply contains_append_l.
        now apply contains_startswith. }
      apply startswith_comparable in Hwy.
      pose proof (overlap_earlier (b' ++ w) tok b' w Ht Htokin Hb' Hw eq_refl Hwy)
        as Hearlier.
      rewrite Htb in Hearlier.
      apply (proj1 (List.Forall_forall _ _) Hb) in Hearlier. congruence.
    + (* no spelling runs from [pre] into the value *)
      intros a' b' t -> Hb' Ht Hs.
      destruct (startswith_append_cases t b' _ Hs) as [H | (w & Hw & -> & Hwy)];
        [exact H | exfalso].
      destruct (spelling_alphabet _ Ht) as [Ha _].
      apply alphabet_append in Ha as [_ Hw'].
      rewrite Ev in Hwy. rewrite (no_entry c rest w post Hc Hw Hw') in Hwy.
      discriminate.
    + lia.
    + rewrite E1, E2. f_equal.
      rewrite (expand_value value Hv value "" post eq_refl).
      destruct (spelling_at_first VARS (tok ++ post) tok before after Hl)
        as (var' & Hsp & Hvar' & Htok').
      * apply List.Forall_forall. intros t Ht.
        destruct (Py.startswith t (tok ++ post)) eqn:E; [| reflexivity].
        apply (proj1 (List.Forall_forall _ _) Hb) in Ht.
        assert (Py.contains t (pre ++ tok ++ post) = true)
          by (apply contains_append_l; now apply contains_startswith).
        congruence.
      * apply startswith_append.
      * assert (var' = var) by (now apply (spelling_var var' var tok)).
        subst var'.
        destruct (spelling_alphabet tok Htokin) as [_ Htne].
        destruct tok as [|c0 tok']; [congruence |].
        change (String c0 tok' ++ post) with (String c0 (tok' ++ post)) in *.
        cbn [expand_from]. rewrite Hsp.
        replace (String.length (String c0 tok') - 1) with (String.length tok')
          by (simpl; lia).
        rewrite expand_skip. unfold value_of. now rewrite Hg.
  - intros var' Hvar' Hc'. apply (Hvalues var' Hvar').
    pose proof (var_spellings var' Hvar') as Hsp.
    destruct (spelling_alphabet var' Hsp) as [Ha _].
    destruct (spelling_holds_VERSION var' Hsp) as [HV _].
    destruct (occurrence_beside var' pre value post Hv Ha HV Hc') as [H | H].
    + now apply contains_append_r.
    + now apply contains_append_l, contains_append_l.
  - assert (HVa : forallb in_alphabet (list_ascii_of_string "VERSION") = true)
      by reflexivity.
    rewrite (occurrences_append "VERSION" pre (value ++ post)).
    + rewrite (occurrences_append "VERSION" value post).
      * rewrite (occurrences_none "VERSION" value Hno).
        pose proof (occurrences_append_le "VERSION" pre (tok ++ post)).
        pose proof (occurrences_append_le "VERSION" tok post).
        destruct (spelling_holds_VERSION tok Htokin) as [_ H1]. lia.
      * intros a1 a2 E Ha2 Hs.
        rewrite (no_start_inside value a1 a2 "VERSION" post Hv E Ha2 HVa eq_refl)
          in Hs.
        discriminate.
    + intros a1 a2 E Ha2 Hs.
      destruct (startswith_append_cases "VERSION" a2 _ Hs)
        as [H | (w & Hw & Ew & Hwy)]; [exact H | exfalso].
      rewrite Ew in HVa. apply alphabet_append in HVa as [_ Hw'].
      rewrite Ev in Hwy. rewrite (no_entry c rest w post Hc Hw Hw') in Hwy.
      discriminate.
Qed.

(** With such values the loop returns what the single pass gives, after at
    most one step for each occurrence of the word VERSION. *)
Lemma loop_stands_alone (n : nat) : forall pattern : string,
  occurrences "VERSION" pattern < n ->
  named_values_stand_alone getattr_self pattern ->
  _substitute_variables getattr_self n pattern
  = Some (Ok (expand getattr_self pattern)).
Proof.
  induction n as [|n IH]; intros pattern Hlt Hvalues; [lia |].
  cbn [_substitute_variables].
  pose proof (substitute_for_cases getattr_self VARS pattern) as Hc.
  pose proof (step_stands_alone pattern) as Hstep.
  pose proof (substitute_for_raises VARS pattern) as Hraise.
  unfold _substitute_variables_once in *.
  destruct (substitute_for getattr_self VARS pattern) as [[p' [|]]|e].
  - destruct (Hstep p' Hvalues eq_refl) as (He & Hinv & Hm).
    rewrite <- He. apply IH; [lia | exact Hinv].
  - destruct Hc as [-> Hc]. rewrite expand_no_token; [reflexivity |].
    now apply untouched_no_token.
  - destruct (Hraise e eq_refl) as (var & Hin & Hnamed & Hno).
    destruct (Hvalues var Hin Hnamed) as (value & Hg & _).
    destruct (Hno value Hg).
Qed.

Lemma loop_returns_expand (pattern : string) :
  named_values_stand_alone getattr_self pattern ->
  no_token (expand getattr_self pattern)
  /\ exists fuel, forall fuel', fuel <= fuel' ->
       _substitute_variables getattr_self fuel' pattern
       = Some (Ok (expand getattr_self pattern)).
Proof.
  intros Hvalues.
  pose proof (loop_stands_alone (S (occurrences "VERSION" pattern)) pattern
                (Nat.lt_succ_diag_r _) Hvalues) as Hr.
  split.
  - now apply (loop_sound getattr_self) in Hr as [_ Hr].
  - exists (S (occurrences "VERSION" pattern)). intros fuel' Hle.
    now apply (fuel_mono getattr_self (S (occurrences "VERSION" pattern))).
Qed.

End OnePassFacts.

(** A value that does not stand alone can join the text around it into a
    name: with the version [1.2.V] the last component is [V], and in the
    template below the loop first makes a new [VERSION_MAJOR] out of
    [VERSION_MICRO] and the letters behind it, and then replaces that. *)
Example value_joins_a_name :
  _substitute_variables (getattr (with_version (Some "1.2.V"))) 3
    "pkg-VERSION_MICROERSION_MAJOR" = Some (Ok "pkg-1")
  /\ expand (getattr (with_version (Some "1.2.V")))
       "pkg-VERSION_MICROERSION_MAJOR" = "pkg-VERSION_MAJOR".
Proof. split; reflexivity. Qed.

(** C3, as amended.  Take any template and any package in which every
    variable whose name occurs in the template (the name [VERSION] occurs
    wherever a longer name does) has a value that stands alone: it is not
    empty, its first and its last character occur in no spelling, and the
    word VERSION does not occur in it.  Then the substitution returns, and
    what it returns is the template read once from left to right with every
    occurrence of a variable name, braced or bare, replaced by the value of
    that variable, the longer names [VERSION_MAJOR], [VERSION_MINOR] and
    [VERSION_MICRO] going before [VERSION] and the braced spelling before
    the bare one; no occurrence of any of the eight spellings is left in
    it.  The template [pkg-${VERSION_MAJOR}.${VERSION_MINOR}.tar.gz] with
    version [3.11.2] gives exactly [pkg-3.11.tar.gz], and the template
    [pkg-VERSION_MICRO.tgz] gives [pkg-2.tgz]. *)
Theorem substitute_variables_replaces_all :
  (forall (self : Package) (pattern : string),
      (forall var, In var VARS -> Py.contains var pattern = true ->
         exists value,
           getattr self (Py.lower var) = Ok (Some value)
           /\ stands_alone value = true) ->
      no_token (expand (getattr self) pattern)
      /\ exists fuel, forall fuel', fuel <= fuel' ->
           _substitute_variables (getattr self) fuel' pattern
           = Some (Ok (expand (getattr self) pattern)))
  /\ (forall (self : Package) (fuel : nat),
        version self = Some "3.11.2" -> 3 <= fuel ->
        expand (getattr self) "pkg-${VERSION_MAJOR}.${VERSION_MINOR}.tar.gz"
        = "pkg-3.11.tar.gz"
        /\ _substitute_variables (getattr self) fuel
             "pkg-${VERSION_MAJOR}.${VERSION_MINOR}.tar.gz"
           = Some (Ok "pkg-3.11.tar.gz")
        /\ _substitute_variables (getattr self) fuel "pkg-VERSION_MICRO.tgz"
           = Some (Ok "pkg-2.tgz")).
Proof.
  split.
  - intros self pattern H. now apply loop_returns_expand.
  - intros self fuel Hv Hle.
    destruct self; unfold version in Hv; simpl in Hv; subst.
    split; [vm_compute; reflexivity |].
    split; (eapply fuel_mono; [| exact Hle]); vm_compute; reflexivity.
Qed.

Lemma substitute_variables_replaces_all_witness :
  (no_token (expand (getattr (with_version (Some "7.0")))
               "VERSION_MAJOR/pkg-${VERSION}-VERSION_MINOR.tgz")
   /\ exists fuel, forall fuel', fuel <= fuel' ->
        _substitute_variables (getattr (with_version (Some "7.0"))) fuel'
          "VERSION_MAJOR/pkg-${VERSION}-VERSION_MINOR.tgz"
        = Some (Ok (expand (getattr (with_version (Some "7.0")))
                      "VERSION_MAJOR/pkg-${VERSION}-VERSION_MINOR.tgz")))
  /\ expand (getattr (with_version (Some "7.0")))
       "VERSION_MAJOR/pkg-${VERSION}-VERSION_MINOR.tgz"
     = "7/pkg-7.0-0.tgz"
  /\ expand (getattr (with_version (Some "3.11.2")))
       "pkg-${VERSION_MAJOR}.${VERSION_MINOR}.tar.gz"
     = "pkg-3.11.tar.gz"
  /\ _substitute_variables (getattr (with_version (Some "3.11.2"))) 3
       "pkg-${VERSION_MAJOR}.${VERSION_MINOR}.tar.gz"
     = Some (Ok "pkg-3.11.tar.gz")
  /\ _substitute_variables (getattr (with_version (Some "3.11.2"))) 3
       "pkg-VERSION_MICRO.tgz"
     = Some (Ok "pkg-2.tgz").
Proof.
  split; [| split; [reflexivity |]].
  - apply (proj1 substitute_variables_replaces_all
             (with_version (Some "7.0"))).
    intros var [<- | [<- | [<- | [<- | []]]]] H; try discriminate H;
      eexists; (split; [vm_compute; reflexivity | vm_compute; reflexivity]).
  - apply (proj2 substitute_variables_replaces_all
             (with_version (Some "3.11.2")) 3).
    + reflexivity.
    + lia.
Defined.

(** C3 as stated fails: the version [7.0] is present, yet the occurrence of
    [VERSION_MICRO] is not replaced (the lookup raises); and with the version
    [1.VERSION_MINOR.3] all four values exist, yet the substitution of the
    template [VERSION_MINOR] never returns. *)
Lemma substitute_variables_not_total :
  _substitute_variables (getattr (with_version (Some "7.0"))) 1
    "pkg-VERSION_MICRO.tar.gz" = Some (Raise IndexError)
  /\ ~ exists fuel r,
         _substitute_variables (getattr (with_version (Some "1.VERSION_MINOR.3")))
           fuel "VERSION_MINOR" = Some r.
Proof.
  split; [reflexivity |].
  intros (fuel & r & H). induction fuel as [|fuel IH]; [discriminate |].
  apply IH. exact H.
Qed.

(** X16 (_substitute_variables, _substitute_variables_once): when every
    variable of VARS has a value that is not empty and holds none of the
    characters that the spellings are made of (dollar, braces, underscore
    and the capital letters of VERSION, MAJOR, MINOR and MICRO), the loop
    returns, for every pattern and with enough fuel, what a single pass from
    left to right gives: at each position the pass takes the braced or the
    bare spelling of the first variable in the order of VARS that starts
    there, writes the variable's value and goes on after the spelling. *)
Theorem substitution_is_one_pass
  (getattr_self : string -> result (option string)) (pattern : string) :
  (forall var, In var VARS ->
     exists value, getattr_self (Py.lower var) = Ok (Some value)
                   /\ inert value = true) ->
  exists fuel, forall fuel', fuel <= fuel' ->
    _substitute_variables getattr_self fuel' pattern
    = Some (Ok (expand getattr_self pattern)).
Proof.
  intros H. apply (loop_returns_expand getattr_self pattern).
  intros var Hin _. destruct (H var Hin) as (value & Hg & Hi).
  exists value. split; [exact Hg | now apply inert_stands_alone].
Qed.

Lemma substitution_is_one_pass_witness :
  exists fuel, forall fuel', fuel <= fuel' ->
    _substitute_variables (getattr (with_version (Some "3.11.2"))) fuel'
      "VERSION/pkg-${VERSION_MAJOR}.VERSION_MINOR-$VERSION_MICRO}.tgz"
    = Some (Ok (expand (getattr (with_version (Some "3.11.2")))
                  "VERSION/pkg-${VERSION_MAJOR}.VERSION_MINOR-$VERSION_MICRO}.tgz")).
Proof.
  apply (substitution_is_one_pass (getattr (with_version (Some "3.11.2")))).
  intros var H. simpl in H.
  destruct H as [<- | [<- | [<- | [<- | []]]]];
    eexists; (split; [vm_compute; reflexivity | vm_compute; reflexivity]).
Defined.
